(** * Madison IoT importer (docker/db/import_data.py): a shallow embedding

    The script reads a workbook of sensor readings, turns every row of a
    recognised sheet into a tuple and inserts the tuples in batches into a
    TimescaleDB schema.  The embedding keeps the script's structure:

    - a spreadsheet cell is a Python value ([cell]); a row is a finite map
      from column label to cell; a sheet is the list of its rows;
    - Python exceptions are the [Raise] branch of [result]; [SystemExit] is
      an exception that [except Exception] does not catch;
    - the database session is explicit state: the committed tables, the
      view of the open transaction, and the connection counter;
    - everything the script does to the outside (prints, statements,
      commits, rollbacks, closes) is emitted as a list of events.

    pandas' date parser, Python's numeric literal parsers, the uniqueness
    constraint of the destination tables and the statements the server
    rejects are not part of the script; they are parameters of the
    development.

    What can go wrong in a run: the input file is missing; a connection
    attempt is refused; the server rejects a query or a batch; a sensor
    code is not in the registry; a column is missing from a row; a cast
    raises; [execute_batch] is called with a page size below 1; the clock
    does not advance between the two [datetime.now()] calls, so the
    throughput line divides by zero.  Commit, rollback and close are
    taken to succeed, an input file that exists is taken to be a
    workbook pandas can read, and cursors, which the script only opens
    and closes, are not represented. *)

From Stdlib Require Import ZArith List Lia Ascii Floats.SpecFloat.
From stdpp Require Import base strings gmap list.

Open Scope Z_scope.

(* ===================================================================== *)
(** ** Python values and exceptions *)
(* ===================================================================== *)

(** What [row[label]] can hold after [pd.read_excel]: an empty cell is the
    float nan ([CFloat S754_nan]), or [CNaT] in a datetime column. *)
Inductive cell : Type :=
| CFloat (f : spec_float)
| CInt (z : Z)
| CBool (b : bool)
| CStr (s : string)
| CTimestamp (ns : Z)
| CNaT.

(** The value [pd.to_datetime] returns for a scalar. *)
Inductive timestamp : Type :=
| Timestamp (ns : Z)
| NaT.

Inductive exn : Type :=
| ValueError
| TypeError
| OverflowError
| KeyError (label : string)
| ZeroDivisionError
| ProgrammingError
| OperationalError
| DatabaseError
| SystemExit (code : Z).

(** [except Exception] catches everything but [SystemExit]. *)
Definition is_Exception (e : exn) : bool :=
  match e with
  | SystemExit _ => false
  | _ => true
  end.

Inductive result (A : Type) : Type :=
| Ok (a : A)
| Raise (e : exn).
Arguments Ok {A} a.
Arguments Raise {A} e.

Definition rbind {A B} (r : result A) (k : A -> result B) : result B :=
  match r with
  | Ok a => k a
  | Raise e => Raise e
  end.

Definition rmap {A B} (f : A -> B) (r : result A) : result B :=
  rbind r (fun a => Ok (f a)).

Definition is_Ok {A} (r : result A) : bool :=
  match r with Ok _ => true | Raise _ => false end.

(** [pd.notna] on a scalar. *)
Definition pd_notna (c : cell) : bool :=
  match c with
  | CFloat S754_nan => false
  | CNaT => false
  | _ => true
  end.

(** The integer part of a finite float [(-1)^s * m * 2^e], towards zero. *)
Definition float_trunc (s : bool) (m : positive) (e : Z) : Z :=
  let mag := if 0 <=? e then Z.pos m * 2 ^ e else Z.pos m / 2 ^ (- e) in
  if s then - mag else mag.

(** Conversion of a Python integer to a binary64 float. *)
Definition float_of_Z (z : Z) : result spec_float :=
  match binary_normalize 53 1024 z 0 false with
  | S754_infinity _ => Raise OverflowError
  | f => Ok f
  end.

(** A row of a sheet, as [df.iterrows()] yields it: label -> cell. *)
Abbreviation row := (gmap string cell).
Abbreviation dataframe := (list row).
Abbreviation workbook := (list (string * dataframe)).

(** [row[label]] *)
Definition getitem (r : row) (label : string) : result cell :=
  match r !! label with
  | Some c => Ok c
  | None => Raise (KeyError label)
  end.

(* ===================================================================== *)
(** ** The destination schema *)
(* ===================================================================== *)

Inductive table : Type :=
| Sensors
| CurrentReadings
| EnvironmentalReadings
| TemperatureReadings.

(** The tuples the three transformers build, in the column order of
    their INSERT statements. *)
Inductive reading : Type :=
| CurrentReading (time : timestamp) (sensor_id : Z)
    (battery_mv clamp_1_a clamp_2_a clamp_3_a clamp_4_a : option spec_float)
| EnvironmentalReading (time : timestamp) (sensor_id : Z)
    (humidity_percent light_lux movement noise_avg_db noise_peak_db : option Z)
    (temperature_c : option spec_float) (battery_mv : option Z)
| TemperatureReading (time : timestamp) (sensor_id : Z)
    (humidity_percent : option Z) (temperature_c : option spec_float)
    (battery_mv : option Z).

Definition reading_time (r : reading) : timestamp :=
  match r with
  | CurrentReading t _ _ _ _ _ _ => t
  | EnvironmentalReading t _ _ _ _ _ _ _ _ => t
  | TemperatureReading t _ _ _ _ => t
  end.

(** A tuple whose time is not-a-time, and a buffer that holds one. *)
Definition is_nat_time (rd : reading) : bool :=
  match reading_time rd with
  | NaT => true
  | Timestamp _ => false
  end.

Definition has_nat_time (data : list reading) : bool := existsb is_nat_time data.

Record database : Type := {
  sensors : list (string * Z);
  current_readings : list reading;
  environmental_readings : list reading;
  temperature_readings : list reading
}.

Definition rows_of (t : table) (db : database) : list reading :=
  match t with
  | Sensors => []
  | CurrentReadings => current_readings db
  | EnvironmentalReadings => environmental_readings db
  | TemperatureReadings => temperature_readings db
  end.

Definition count_of (t : table) (db : database) : nat :=
  match t with
  | Sensors => length (sensors db)
  | _ => length (rows_of t db)
  end.

Definition set_rows (t : table) (rs : list reading) (db : database) : database :=
  match t with
  | Sensors => db
  | CurrentReadings =>
      {| sensors := sensors db; current_readings := rs;
         environmental_readings := environmental_readings db;
         temperature_readings := temperature_readings db |}
  | EnvironmentalReadings =>
      {| sensors := sensors db; current_readings := current_readings db;
         environmental_readings := rs;
         temperature_readings := temperature_readings db |}
  | TemperatureReadings =>
      {| sensors := sensors db; current_readings := current_readings db;
         environmental_readings := environmental_readings db;
         temperature_readings := rs |}
  end.

(* ===================================================================== *)
(** ** Observable events, session state, the world *)
(* ===================================================================== *)

(** One constructor per [print] of the script (a banner and its rules
    count as one message). *)
Inductive msg : Type :=
| MsgConnecting
| MsgConnected
| MsgConnectFailed
| MsgBadTimestamp (c : cell)
| MsgImporting (sheet code : string) (rows : nat)
| MsgInserted (n : nat) (upto total : nat)
| MsgFinalBatch (n : nat)
| MsgSkipped (n : nat)
| MsgSheetCompleted (sheet : string)
| MsgFileNotFound (path : string)
| MsgReadingFile (path : string)
| MsgFoundSheets (n : nat)
| MsgUnknownSheet (sheet : string)
| MsgSummaryRows (total : nat)
| MsgSummaryRate
| MsgAllImported
| MsgImportFailed (e : exn)
| MsgVerification
| MsgCount (t : table) (n : nat)
| MsgTotalReadings (n : nat).

(** What the process does to the outside.  A statement is recorded when
    it has been executed; a call that raises records nothing. *)
Inductive event : Type :=
| EPrint (m : msg)
| EConnect (conn : nat)
| ESelectSensorId (conn : nat) (code : string)
| ESelectCount (conn : nat) (t : table)
| EExecuteBatch (conn : nat) (t : table) (rows : list reading)
| ECommit (conn : nat)
| ERollback (conn : nat)
| EClose (conn : nat).

(** [committed] is what the server holds durably; [working] is what the
    open transaction of the current connection sees; [next_conn] counts
    the calls of [psycopg2.connect]. *)
Record state : Type := {
  committed : database;
  working : database;
  next_conn : nat
}.

(** The environment of one run: the files on disk, whether the n-th
    connection attempt succeeds, and whether the clock stands still
    between the two [datetime.now()] calls of the driver.  A file is
    given by the workbook pandas reads from it ([pd.ExcelFile] for the
    sheet names, [pd.read_excel] for each sheet): a path that exists
    without being a workbook pandas can read, on which [pd.ExcelFile]
    raises before the [try] block, is not represented. *)
Record world : Type := {
  files : gmap string workbook;
  connect_ok : nat -> bool;
  elapsed_zero : bool
}.

Record args : Type := {
  excel_file : string;
  batch_size : Z;
  verify_only : bool
}.

(** The state/exception/output monad of the script. *)
Definition M (A : Type) : Type := state -> list event * state * result A.

Definition ret {A} (a : A) : M A := fun st => ([], st, Ok a).

Definition bind {A B} (m : M A) (k : A -> M B) : M B :=
  fun st =>
    match m st with
    | (ev, st1, Ok a) =>
        match k a st1 with
        | (ev', st2, r) => (ev ++ ev', st2, r)
        end
    | (ev, st1, Raise e) => (ev, st1, Raise e)
    end.

Definition raise {A} (e : exn) : M A := fun st => ([], st, Raise e).

Definition lift {A} (r : result A) : M A := fun st => ([], st, r).

Definition emit (e : event) : M unit := fun st => ([e], st, Ok tt).

Definition print (m : msg) : M unit := emit (EPrint m).

Notation "'do' x <- m ; k" := (bind m (fun x => k))
  (at level 10, x name, m at level 100, k at level 200).
Notation "m ;; k" := (bind m (fun _ => k))
  (at level 100, k at level 200, right associativity).
Notation "'doR' x <- r ; k" := (rbind r (fun x => k))
  (at level 10, x name, r at level 100, k at level 200).

Definition events {A} (o : list event * state * result A) : list event := fst (fst o).
Definition final {A} (o : list event * state * result A) : state := snd (fst o).
Definition outcome {A} (o : list event * state * result A) : result A := snd o.

(** [try: body  except Exception as e: handler e  finally: cleanup] *)
Definition try_except_finally {A} (body : M A) (handler : exn -> M A)
    (cleanup : M unit) : M A :=
  fun st =>
    let '(ev1, st1, r1) :=
      match body st with
      | (ev, st', Raise e) =>
          if is_Exception e then
            match handler e st' with
            | (ev', st'', r) => (ev ++ ev', st'', r)
            end
          else (ev, st', Raise e)
      | o => o
      end in
    match cleanup st1 with
    | (ev2, st2, Ok _) => (ev1 ++ ev2, st2, r1)
    | (ev2, st2, Raise e) => (ev1 ++ ev2, st2, Raise e)
    end.

(** [try: body  except Exception as e: handler e] *)
Definition try_except {A} (body : M A) (handler : exn -> M A) : M A :=
  fun st =>
    match body st with
    | (ev, st', Raise e) =>
        if is_Exception e then
          match handler e st' with
          | (ev', st'', r) => (ev ++ ev', st'', r)
          end
        else (ev, st', Raise e)
    | o => o
    end.

Definition get_state : M state := fun st => ([], st, Ok st).
Definition modify (f : state -> state) : M unit := fun st => ([], f st, Ok tt).

(** [sys.exit] status of the process for the result of [__main__]: an
    uncaught exception ends the interpreter with status 1. *)
Definition exit_status {A} (r : result A) : Z :=
  match r with
  | Ok _ => 0
  | Raise (SystemExit code) => code
  | Raise _ => 1
  end.

Definition initial_state (db : database) : state :=
  {| committed := db; working := db; next_conn := 0%nat |}.

(* ===================================================================== *)
(** ** Constants of the script *)
(* ===================================================================== *)

Definition EXCEL_FILE : string := "/data/datos_iot_madison.xlsx".

Record sensor_info : Type := {
  sensor_code : string;
  sensor_type : string
}.

Definition SENSOR_MAPPING : gmap string sensor_info :=
  list_to_map [
    ("Sensor c1", {| sensor_code := "c1"; sensor_type := "current" |});
    ("Sensor s1", {| sensor_code := "s1"; sensor_type := "environmental" |});
    ("Sensor s2", {| sensor_code := "s2"; sensor_type := "environmental" |});
    ("Sensor s3", {| sensor_code := "s3"; sensor_type := "environmental" |});
    ("Sensor s4", {| sensor_code := "s4"; sensor_type := "environmental" |});
    ("Sensor s5", {| sensor_code := "s5"; sensor_type := "environmental" |});
    ("Sensor t1", {| sensor_code := "t1"; sensor_type := "temperature" |});
    ("Sensor t2", {| sensor_code := "t2"; sensor_type := "temperature" |});
    ("Sensor t3", {| sensor_code := "t3"; sensor_type := "temperature" |});
    ("Sensor t4", {| sensor_code := "t4"; sensor_type := "temperature" |});
    ("Sensor t5", {| sensor_code := "t5"; sensor_type := "temperature" |})
  ].

Definition FECHA : string := "Fecha (Europe/Madrid)".

(** [os.getenv(name, default)]: the value of the variable when it is
    set, also to the empty string; the default when it is not. *)
Definition getenv (env : gmap string string) (name default : string) : string :=
  match env !! name with
  | Some v => v
  | None => default
  end.

(** The connection parameters, read from the environment [env] of the
    process when the module is loaded. *)
Definition DB_CONFIG (env : gmap string string) : gmap string string :=
  list_to_map [
    ("host", getenv env "DB_HOST" "localhost");
    ("port", getenv env "DB_PORT" "5432");
    ("database", getenv env "DB_NAME" "madison_iot");
    ("user", getenv env "DB_USER" "postgres");
    ("password", getenv env "DB_PASSWORD" "postgres")
  ].

(** The keys of [DB_CONFIG] with the variable and the default of each. *)
Definition DB_SETTINGS : list (string * (string * string)) :=
  [("host", ("DB_HOST", "localhost"));
   ("port", ("DB_PORT", "5432"));
   ("database", ("DB_NAME", "madison_iot"));
   ("user", ("DB_USER", "postgres"));
   ("password", ("DB_PASSWORD", "postgres"))].

(* ===================================================================== *)
(** ** A sample environment for the worked examples *)
(* ===================================================================== *)

(** A date parser that accepts native timestamps and missing cells, and
    rejects text other than the empty string. *)
Definition sample_to_datetime (c : cell) : option timestamp :=
  match c with
  | CTimestamp ns => Some (Timestamp ns)
  | CFloat S754_nan => Some NaT
  | CNaT => Some NaT
  | CStr "" => Some NaT
  | _ => None
  end.

Definition digit_of (a : ascii) : option Z :=
  let n := Z.of_nat (nat_of_ascii a) in
  if (48 <=? n) && (n <=? 57) then Some (n - 48) else None.

Fixpoint digits_value (s : string) (acc : Z) : option Z :=
  match s with
  | EmptyString => Some acc
  | String a s' =>
      match digit_of a with
      | Some d => digits_value s' (10 * acc + d)
      | None => None
      end
  end.

(** Unsigned decimal literals only. *)
Definition sample_int_of_string (s : string) : option Z :=
  match s with
  | EmptyString => None
  | _ => digits_value s 0
  end.

Definition sample_float_of_string (s : string) : option spec_float :=
  match sample_int_of_string s with
  | Some z =>
      match float_of_Z z with
      | Ok f => Some f
      | Raise _ => None
      end
  | None => None
  end.

Definition timestamp_eqb (a b : timestamp) : bool :=
  match a, b with
  | Timestamp x, Timestamp y => x =? y
  | NaT, NaT => true
  | _, _ => false
  end.

Definition reading_sensor_id (r : reading) : Z :=
  match r with
  | CurrentReading _ i _ _ _ _ _ => i
  | EnvironmentalReading _ i _ _ _ _ _ _ _ => i
  | TemperatureReading _ i _ _ _ => i
  end.

(** Modelled from the spec: the destination tables are not part of the
    script; section 6 gives each a uniqueness constraint on
    (time, sensor_id). *)
Definition unique_time_sensor (new old : reading) : bool :=
  timestamp_eqb (reading_time new) (reading_time old)
  && (reading_sensor_id new =? reading_sensor_id old).

(** A server that rejects nothing, and one that has no table of current
    readings to count. *)
Definition sample_accepts (e : event) : bool := false.

Definition rejects_current_count (e : event) : bool :=
  match e with
  | ESelectCount _ CurrentReadings => true
  | _ => false
  end.

(** A server without a not-a-time timestamp, as PostgreSQL: it rejects
    every batch that holds a tuple whose time is [NaT]. *)
Definition rejects_nat_time (e : event) : bool :=
  match e with
  | EExecuteBatch _ _ rows => has_nat_time rows
  | _ => false
  end.

(** 2.75 and -2.75 as binary floats. *)
Definition f_2_75 : spec_float := S754_finite false 11 (-2).
Definition f_neg_2_75 : spec_float := S754_finite true 11 (-2).

(** A row of a temperature sheet. *)
Definition temperature_row (fecha humidity : cell) : row :=
  list_to_map [
    (FECHA, fecha);
    ("Humedad relativa (%)", humidity);
    ("Temperatura (ºC)", CFloat f_2_75);
    ("Tensión batería (mV)", CInt 3000)
  ].

Definition good_row (ns : Z) : row := temperature_row (CTimestamp ns) (CInt 40).
Definition bad_timestamp_row : row := temperature_row (CStr "n/a") (CInt 40).
Definition empty_timestamp_row : row := temperature_row (CFloat S754_nan) (CInt 40).
Definition empty_humidity_row : row := temperature_row (CTimestamp 9) (CFloat S754_nan).
Definition text_humidity_row : row := temperature_row (CTimestamp 9) (CStr "wet").

Definition sample_db : database :=
  {| sensors := [("c1", 1); ("t1", 7)];
     current_readings := [];
     environmental_readings := [];
     temperature_readings := [] |}.

Definition sample_state : state := initial_state sample_db.

Definition sample_sheet : dataframe :=
  [good_row 1; bad_timestamp_row; good_row 2; good_row 3; good_row 4; good_row 5].

Definition sample_world (xls : workbook) : world :=
  {| files := {[ EXCEL_FILE := xls ]};
     connect_ok := fun _ => true;
     elapsed_zero := false |}.

Definition sample_args (b : Z) (v : bool) : args :=
  {| excel_file := EXCEL_FILE; batch_size := b; verify_only := v |}.

(** The same world with a clock that stands still. *)
Definition stalled_world (xls : workbook) : world :=
  {| files := {[ EXCEL_FILE := xls ]};
     connect_ok := fun _ => true;
     elapsed_zero := true |}.

(** A temperature row without the battery column. *)
Definition no_battery_row : row :=
  list_to_map [
    (FECHA, CTimestamp 9);
    ("Humedad relativa (%)", CInt 40);
    ("Temperatura (ºC)", CFloat f_2_75)
  ].

(** A workbook with a recognised sheet and an unknown one. *)
Definition sample_workbook : workbook :=
  [("Sensor t1", sample_sheet); ("Sensor unknown9", [good_row 1])].

(* ===================================================================== *)
(** ** The script *)
(* ===================================================================== *)

Section Importer.

(** [pd.to_datetime] on a cell: [None] when it raises.  (It returns
    Python's [None] only for the argument [None], which is not a [cell].) *)
Variable pd_to_datetime : cell -> option timestamp.

(** The literal parsers behind [int(str)] and [float(str)]. *)
Variable int_of_string : string -> option Z.
Variable float_of_string : string -> option spec_float.

(** The uniqueness constraints of the reading tables: [conflicts new old]
    when inserting [new] collides with the stored row [old]. *)
Variable conflicts : reading -> reading -> bool.

(** The statements the server rejects: [db_raises e] when executing the
    statement that would be recorded as [e] raises a [psycopg2] error. *)
Variable db_raises : event -> bool.

(** Python's [int(x)]. *)
Definition py_int (c : cell) : result Z :=
  match c with
  | CFloat (S754_zero _) => Ok 0
  | CFloat (S754_finite s m e) => Ok (float_trunc s m e)
  | CFloat (S754_infinity _) => Raise OverflowError
  | CFloat S754_nan => Raise ValueError
  | CInt z => Ok z
  | CBool b => Ok (if b then 1 else 0)
  | CStr s =>
      match int_of_string s with
      | Some z => Ok z
      | None => Raise ValueError
      end
  | CTimestamp _ => Raise TypeError
  | CNaT => Ok (- 2 ^ 63)
  end.

(** Python's [float(x)]. *)
Definition py_float (c : cell) : result spec_float :=
  match c with
  | CFloat f => Ok f
  | CInt z => float_of_Z z
  | CBool b => float_of_Z (if b then 1 else 0)
  | CStr s =>
      match float_of_string s with
      | Some f => Ok f
      | None => Raise ValueError
      end
  | CTimestamp _ => Raise TypeError
  | CNaT => Raise TypeError
  end.

(** [cast(row[label]) if pd.notna(row[label]) else None] *)
Definition cast_or_none {A} (cast : cell -> result A) (r : row) (label : string)
    : result (option A) :=
  doR c <- getitem r label;
  if pd_notna c then
    doR c' <- getitem r label;
    doR v <- cast c';
    Ok (Some v)
  else Ok None.

Definition float_or_none := cast_or_none py_float.
Definition int_or_none := cast_or_none py_int.

(** The tuple appended by [import_current_sensor]. *)
Definition current_tuple (ts : timestamp) (sensor_id : Z) (r : row) : result reading :=
  doR battery <- float_or_none r "Batería (mV)";
  doR clamp1 <- float_or_none r "Pinza amperimétrica 1 (A)";
  doR clamp2 <- float_or_none r "Pinza amperimétrica 2 (A)";
  doR clamp3 <- float_or_none r "Pinza amperimétrica 3 (A)";
  doR clamp4 <- float_or_none r "Pinza amperimétrica 4 (A)";
  Ok (CurrentReading ts sensor_id battery clamp1 clamp2 clamp3 clamp4).

(** The tuple appended by [import_environmental_sensor]. *)
Definition environmental_tuple (ts : timestamp) (sensor_id : Z) (r : row)
    : result reading :=
  doR humidity <- int_or_none r "Humedad relativa (%)";
  doR light <- int_or_none r "Luz (lux)";
  doR movement <- int_or_none r "Movimiento";
  doR noise_avg <- int_or_none r "Ruido [Media] (dB)";
  doR noise_peak <- int_or_none r "Ruido [Pico Máx] (dB)";
  doR temperature <- float_or_none r "Temperatura (ºC)";
  doR battery <- int_or_none r "Tensión batería (mV)";
  Ok (EnvironmentalReading ts sensor_id humidity light movement noise_avg
        noise_peak temperature battery).

(** The tuple appended by [import_temperature_sensor]. *)
Definition temperature_tuple (ts : timestamp) (sensor_id : Z) (r : row)
    : result reading :=
  doR humidity <- int_or_none r "Humedad relativa (%)";
  doR temperature <- float_or_none r "Temperatura (ºC)";
  doR battery <- int_or_none r "Tensión batería (mV)";
  Ok (TemperatureReading ts sensor_id humidity temperature battery).

(** *** The database driver *)

(** [INSERT ... ON CONFLICT DO NOTHING] of one row. *)
Definition insert_row (r : reading) (stored : list reading) : list reading :=
  if existsb (conflicts r) stored then stored else stored ++ [r].

Definition insert_rows (rs : list reading) (stored : list reading) : list reading :=
  fold_left (fun acc r => insert_row r acc) rs stored.

Definition insert_into (t : table) (rs : list reading) (db : database) : database :=
  set_rows t (insert_rows rs (rows_of t db)) db.

(** [psycopg2.connect] with the settings of [DB_CONFIG]: a new session
    sees the committed data. *)
Definition psycopg2_connect (w : world) : M nat :=
  fun st =>
    let k := next_conn st in
    if connect_ok w k then
      ([EConnect k],
       {| committed := committed st; working := committed st; next_conn := S k |},
       Ok k)
    else
      ([], {| committed := committed st; working := working st; next_conn := S k |},
       Raise OperationalError).

(** Sending a statement to the server: it is recorded when the server
    has executed it. *)
Definition execute (e : event) : M unit :=
  if db_raises e then raise DatabaseError else emit e.

(** [psycopg2.extras.execute_batch(cursor, insert_query, data, page_size)]:
    the rows go to the server in pages of [page_size]; with a page size
    below 1 the first page is empty and executing it raises.  The script
    passes at most [page_size] rows, one page. *)
Definition execute_batch (conn : nat) (t : table) (data : list reading)
    (page_size : Z) : M unit :=
  if page_size <=? 0 then raise ProgrammingError
  else
    execute (EExecuteBatch conn t data);;
    modify (fun st =>
      {| committed := committed st;
         working := insert_into t data (working st);
         next_conn := next_conn st |}).

Definition commit (conn : nat) : M unit :=
  emit (ECommit conn);;
  modify (fun st =>
    {| committed := working st; working := working st; next_conn := next_conn st |}).

Definition rollback (conn : nat) : M unit :=
  emit (ERollback conn);;
  modify (fun st =>
    {| committed := committed st; working := committed st;
       next_conn := next_conn st |}).

(** Closing a connection discards its open transaction. *)
Definition close (conn : nat) : M unit :=
  emit (EClose conn);;
  modify (fun st =>
    {| committed := committed st; working := committed st;
       next_conn := next_conn st |}).

(** [cursor.execute("SELECT COUNT( * ) FROM iot.<t>"); cursor.fetchone()[0]] *)
Definition select_count (conn : nat) (t : table) : M nat :=
  execute (ESelectCount conn t);;
  do st <- get_state;
  ret (count_of t (working st)).

(** *** The functions of the script *)

Definition connect_db (w : world) : M nat :=
  try_except
    (print MsgConnecting;;
     do conn <- psycopg2_connect w;
     print MsgConnected;;
     ret conn)
    (fun _ => print MsgConnectFailed;; raise (SystemExit 1)).

(** [SELECT sensor_id FROM iot.sensors WHERE sensor_code = %s] and
    [fetchone()]: the first matching row, if any. *)
Definition select_sensor_id (code : string) (db : database) : option Z :=
  match find (fun p => String.eqb (fst p) code) (sensors db) with
  | Some p => Some (snd p)
  | None => None
  end.

Definition get_sensor_id (conn : nat) (code : string) : M Z :=
  execute (ESelectSensorId conn code);;
  do st <- get_state;
  match select_sensor_id code (working st) with
  | Some sensor_id => ret sensor_id
  | None => raise ValueError
  end.

Definition parse_timestamp (c : cell) : M (option timestamp) :=
  match pd_to_datetime c with
  | Some t => ret (Some t)
  | None => print (MsgBadTimestamp c);; ret None
  end.

(** One iteration of [for idx, row in df.iterrows()], on the loop
    variables [data] and [skipped]. *)
Definition import_row (t : table)
    (tuple_of : timestamp -> Z -> row -> result reading)
    (conn : nat) (sensor_id : Z) (batch_size : Z) (total : nat)
    (idx : nat) (r : row) (data : list reading) (skipped : nat)
    : M (list reading * nat) :=
  do c <- lift (getitem r FECHA);
  do timestamp <- parse_timestamp c;
  match timestamp with
  | None => ret (data, S skipped)
  | Some ts =>
      do tup <- lift (tuple_of ts sensor_id r);
      let data := data ++ [tup] in
      if Z.of_nat (length data) >=? batch_size then
        execute_batch conn t data batch_size;;
        commit conn;;
        print (MsgInserted (length data) (S idx) total);;
        ret ([], skipped)
      else ret (data, skipped)
  end.

Fixpoint import_rows (t : table)
    (tuple_of : timestamp -> Z -> row -> result reading)
    (conn : nat) (sensor_id : Z) (batch_size : Z) (total : nat)
    (idx : nat) (rows : dataframe) (data : list reading) (skipped : nat)
    : M (list reading * nat) :=
  match rows with
  | [] => ret (data, skipped)
  | r :: rest =>
      do acc <- import_row t tuple_of conn sensor_id batch_size total idx r data skipped;
      import_rows t tuple_of conn sensor_id batch_size total (S idx) rest
        (fst acc) (snd acc)
  end.

(** The part after the loop: the final batch and the report. *)
Definition finish_sheet (t : table) (conn : nat) (sheet_name : string)
    (batch_size : Z) (data : list reading) (skipped : nat) : M unit :=
  (match data with
   | [] => ret tt
   | _ :: _ =>
       execute_batch conn t data batch_size;;
       commit conn;;
       print (MsgFinalBatch (length data))
   end);;
  (if (0 <? skipped)%nat then print (MsgSkipped skipped) else ret tt);;
  print (MsgSheetCompleted sheet_name).

(** The common body of the three importers, which differ in the tuple
    they build and the table they insert into. *)
Definition import_sensor (t : table)
    (tuple_of : timestamp -> Z -> row -> result reading)
    (conn : nat) (sheet_name : string) (df : dataframe) (code : string)
    (batch_size : Z) : M unit :=
  do sensor_id <- get_sensor_id conn code;
  print (MsgImporting sheet_name code (length df));;
  do acc <- import_rows t tuple_of conn sensor_id batch_size (length df) 0 df [] 0;
  finish_sheet t conn sheet_name batch_size (fst acc) (snd acc).

Definition import_current_sensor := import_sensor CurrentReadings current_tuple.
Definition import_environmental_sensor :=
  import_sensor EnvironmentalReadings environmental_tuple.
Definition import_temperature_sensor :=
  import_sensor TemperatureReadings temperature_tuple.

(** The body of [for sheet_name in xls.sheet_names] on [total_rows].  A
    workbook has no two sheets of one name, so [pd.read_excel] by name
    returns the frame paired with the name. *)
Definition import_sheet (conn : nat) (batch_size : Z)
    (sheet : string * dataframe) (total_rows : nat) : M nat :=
  let sheet_name := fst sheet in
  match SENSOR_MAPPING !! sheet_name with
  | None => print (MsgUnknownSheet sheet_name);; ret total_rows
  | Some sensor_info =>
      let code := sensor_code sensor_info in
      let type := sensor_type sensor_info in
      let df := snd sheet in
      let total_rows := (total_rows + length df)%nat in
      (if String.eqb type "current" then
         import_current_sensor conn sheet_name df code batch_size
       else if String.eqb type "environmental" then
         import_environmental_sensor conn sheet_name df code batch_size
       else if String.eqb type "temperature" then
         import_temperature_sensor conn sheet_name df code batch_size
       else ret tt);;
      ret total_rows
  end.

Fixpoint import_sheets (conn : nat) (batch_size : Z) (sheets : workbook)
    (total_rows : nat) : M nat :=
  match sheets with
  | [] => ret total_rows
  | sheet :: rest =>
      do total_rows <- import_sheet conn batch_size sheet total_rows;
      import_sheets conn batch_size rest total_rows
  end.

(** The summary; [total_rows/duration] divides by the elapsed seconds. *)
Definition print_summary (w : world) (total_rows : nat) : M unit :=
  print (MsgSummaryRows total_rows);;
  (if elapsed_zero w then raise ZeroDivisionError else print MsgSummaryRate);;
  print MsgAllImported.

(** The [try] block of [import_all_data]. *)
Definition import_body (w : world) (conn : nat) (batch_size : Z)
    (xls : workbook) : M unit :=
  do total_rows <- import_sheets conn batch_size xls 0;
  print_summary w total_rows.

(** Its [except Exception as e] block. *)
Definition import_failed (conn : nat) (e : exn) : M unit :=
  print (MsgImportFailed e);;
  rollback conn;;
  raise (SystemExit 1).

Definition import_all_data (w : world) (excel_file_path : string)
    (batch_size : Z) : M unit :=
  match files w !! excel_file_path with
  | None => print (MsgFileNotFound excel_file_path);; raise (SystemExit 1)
  | Some xls =>
      print (MsgReadingFile excel_file_path);;
      print (MsgFoundSheets (length xls));;
      do conn <- connect_db w;
      try_except_finally
        (import_body w conn batch_size xls)
        (import_failed conn)
        (close conn)
  end.

Definition verify_import (conn : nat) : M unit :=
  print MsgVerification;;
  do sensor_count <- select_count conn Sensors;
  print (MsgCount Sensors sensor_count);;
  do current_count <- select_count conn CurrentReadings;
  print (MsgCount CurrentReadings current_count);;
  do env_count <- select_count conn EnvironmentalReadings;
  print (MsgCount EnvironmentalReadings env_count);;
  do temp_count <- select_count conn TemperatureReadings;
  print (MsgCount TemperatureReadings temp_count);;
  print (MsgTotalReadings (current_count + env_count + temp_count)).

(** The [__main__] block. *)
Definition main (w : world) (a : args) : M unit :=
  if verify_only a then
    do conn <- connect_db w;
    verify_import conn;;
    close conn
  else
    import_all_data w (excel_file a) (batch_size a);;
    do conn <- connect_db w;
    verify_import conn;;
    close conn.

(** One run of the process against the database [db]. *)
Definition run (w : world) (a : args) (db : database) :=
  main w a (initial_state db).

(* ===================================================================== *)
(** ** Notions used to state the properties *)
(* ===================================================================== *)

(** The three sensor types as a closed enumeration. *)
Inductive kind : Type :=
| Current
| Environmental
| Temperature.

Definition type_name (k : kind) : string :=
  match k with
  | Current => "current"
  | Environmental => "environmental"
  | Temperature => "temperature"
  end.

Definition table_of (k : kind) : table :=
  match k with
  | Current => CurrentReadings
  | Environmental => EnvironmentalReadings
  | Temperature => TemperatureReadings
  end.

Definition tuple_of (k : kind) : timestamp -> Z -> row -> result reading :=
  match k with
  | Current => current_tuple
  | Environmental => environmental_tuple
  | Temperature => temperature_tuple
  end.

Definition importer_of (k : kind)
    : nat -> string -> dataframe -> string -> Z -> M unit :=
  match k with
  | Current => import_current_sensor
  | Environmental => import_environmental_sensor
  | Temperature => import_temperature_sensor
  end.

(** The declared numeric type of a measurement column. *)
Inductive numeric : Type :=
| IntField
| FloatField.

(** The measurement columns of each sensor type with their declared type. *)
Definition fields (k : kind) : list (string * numeric) :=
  match k with
  | Current =>
      [("Batería (mV)", FloatField);
       ("Pinza amperimétrica 1 (A)", FloatField);
       ("Pinza amperimétrica 2 (A)", FloatField);
       ("Pinza amperimétrica 3 (A)", FloatField);
       ("Pinza amperimétrica 4 (A)", FloatField)]
  | Environmental =>
      [("Humedad relativa (%)", IntField);
       ("Luz (lux)", IntField);
       ("Movimiento", IntField);
       ("Ruido [Media] (dB)", IntField);
       ("Ruido [Pico Máx] (dB)", IntField);
       ("Temperatura (ºC)", FloatField);
       ("Tensión batería (mV)", IntField)]
  | Temperature =>
      [("Humedad relativa (%)", IntField);
       ("Temperatura (ºC)", FloatField);
       ("Tensión batería (mV)", IntField)]
  end.


(** The flushes in a run: the table and the rows of every executed batch. *)
Definition flush_of (e : event) : option (table * list reading) :=
  match e with
  | EExecuteBatch _ t rows => Some (t, rows)
  | _ => None
  end.

Definition flushes (evs : list event) : list (table * list reading) :=
  omap flush_of evs.

Definition batches (evs : list event) : list (list reading) :=
  snd <$> flushes evs.

(** The database after the flushes of [evs], in order. *)
Definition replay (evs : list event) (db : database) : database :=
  fold_left (fun acc f => insert_into (fst f) (snd f) acc) (flushes evs) db.

Definition is_print (e : event) : bool :=
  match e with
  | EPrint _ => true
  | _ => false
  end.

(** The driver calls in a run, without the prints. *)
Definition db_ops (evs : list event) : list event :=
  List.filter (fun e => negb (is_print e)) evs.

(** Every executed batch is directly followed by the commit of its
    connection. *)
Fixpoint commits_follow (evs : list event) : bool :=
  match evs with
  | [] => true
  | EExecuteBatch c _ _ :: rest =>
      match rest with
      | ECommit c' :: _ => Nat.eqb c c' && commits_follow rest
      | _ => false
      end
  | _ :: rest => commits_follow rest
  end.

(** The connection that is open after [evs] when [cur] was open before:
    [None] when a connection is opened while another one is open, or a
    call goes to a connection that is not the open one. *)
Fixpoint sessions (cur : option nat) (evs : list event) : option (option nat) :=
  match evs with
  | [] => Some cur
  | EPrint _ :: rest => sessions cur rest
  | EConnect c :: rest =>
      match cur with
      | None => sessions (Some c) rest
      | Some _ => None
      end
  | EClose c :: rest =>
      if bool_decide (cur = Some c) then sessions None rest else None
  | ESelectSensorId c _ :: rest
  | ESelectCount c _ :: rest
  | EExecuteBatch c _ _ :: rest
  | ECommit c :: rest
  | ERollback c :: rest =>
      if bool_decide (cur = Some c) then sessions cur rest else None
  end.

Definition is_connect (e : event) : bool :=
  match e with
  | EConnect _ => true
  | _ => false
  end.

Definition connections (evs : list event) : nat :=
  length (List.filter is_connect evs).

(** The four COUNT queries of the verification on connection [c]. *)
Definition count_queries (c : nat) : list event :=
  [ESelectCount c Sensors; ESelectCount c CurrentReadings;
   ESelectCount c EnvironmentalReadings; ESelectCount c TemperatureReadings].

(** The server rejects no statement. *)
Definition accepts_all : Prop := forall e, db_raises e = false.

(** No transaction is open: the session sees exactly the committed data. *)
Definition synced (st : state) : Prop := working st = committed st.

(** What one row contributes: nothing when its timestamp does not parse,
    its tuple otherwise; raises what the row access or a cast raises. *)
Definition row_tuple (f : timestamp -> Z -> row -> result reading)
    (sensor_id : Z) (r : row) : result (option reading) :=
  doR c <- getitem r FECHA;
  match pd_to_datetime c with
  | None => Ok None
  | Some ts => doR tup <- f ts sensor_id r; Ok (Some tup)
  end.

Definition parseable (r : row) : bool :=
  match getitem r FECHA with
  | Ok c => bool_decide (is_Some (pd_to_datetime c))
  | Raise _ => false
  end.

(** The tuples of the rows of a sheet, in order. *)
Definition tuples (f : timestamp -> Z -> row -> result reading)
    (sensor_id : Z) (rows : dataframe) : list reading :=
  omap (fun r => match row_tuple f sensor_id r with
                 | Ok o => o
                 | Raise _ => None
                 end) rows.

(** The sizes of the flushes of [n] rows in batches of [b]. *)
Definition flush_sizes (n b : nat) : list nat :=
  repeat b (n / b) ++ (if (n mod b =? 0)%nat then [] else [(n mod b)%nat]).

(** The state after a flush of [data] into [t] and its commit. *)
Definition flushed (t : table) (data : list reading) (st : state) : state :=
  {| committed := insert_into t data (working st);
     working := insert_into t data (working st);
     next_conn := next_conn st |}.

(** A computation that raises only what [except Exception] catches. *)
Definition raises_Exception {A} (r : result A) : Prop :=
  forall e, r = Raise e -> is_Exception e = true.

(** A computation on the connection [conn] that leaves no transaction
    open, commits exactly its flushes, opens and closes no connection and
    raises nothing that [except Exception] would miss. *)
Definition inner (conn : nat) {A} (m : M A) : Prop :=
  forall st, synced st ->
    synced (final (m st))
    /\ committed (final (m st)) = replay (events (m st)) (committed st)
    /\ commits_follow (events (m st)) = true
    /\ next_conn (final (m st)) = next_conn st
    /\ sessions (Some conn) (events (m st)) = Some (Some conn)
    /\ connections (events (m st)) = 0%nat
    /\ (forall e, outcome (m st) = Raise e -> is_Exception e = true).

(** A computation that starts and ends with no connection open, opens at
    most [n] connections, leaves no transaction open and commits exactly
    its flushes. *)
Definition closing (n : nat) {A} (m : M A) : Prop :=
  forall st, synced st ->
    synced (final (m st))
    /\ committed (final (m st)) = replay (events (m st)) (committed st)
    /\ commits_follow (events (m st)) = true
    /\ sessions None (events (m st)) = Some None
    /\ (connections (events (m st)) <= n)%nat.

(** The same, except that a connection may still be open when the
    computation raises. *)
Definition outer (n : nat) {A} (m : M A) : Prop :=
  forall st, synced st ->
    synced (final (m st))
    /\ committed (final (m st)) = replay (events (m st)) (committed st)
    /\ commits_follow (events (m st)) = true
    /\ (connections (events (m st)) <= n)%nat
    /\ exists cur,
         sessions None (events (m st)) = Some cur
         /\ (forall a, outcome (m st) = Ok a -> cur = None).

(** The session state when a connection has just been opened. *)
Definition opened (st : state) : state :=
  {| committed := committed st; working := committed st;
     next_conn := S (next_conn st) |}.

(** The session state after a failed connection attempt. *)
Definition refused (st : state) : state :=
  {| committed := committed st; working := working st;
     next_conn := S (next_conn st) |}.

(** The session state when the open connection has been closed or its
    transaction rolled back. *)
Definition closed (st : state) : state :=
  {| committed := committed st; working := committed st;
     next_conn := next_conn st |}.

(** What [verify_import] followed by [close] emits on connection [c]. *)
Definition verification (c : nat) (db : database) : list event :=
  [EPrint MsgVerification;
   ESelectCount c Sensors; EPrint (MsgCount Sensors (count_of Sensors db));
   ESelectCount c CurrentReadings;
   EPrint (MsgCount CurrentReadings (count_of CurrentReadings db));
   ESelectCount c EnvironmentalReadings;
   EPrint (MsgCount EnvironmentalReadings (count_of EnvironmentalReadings db));
   ESelectCount c TemperatureReadings;
   EPrint (MsgCount TemperatureReadings (count_of TemperatureReadings db));
   EPrint (MsgTotalReadings
             (count_of CurrentReadings db + count_of EnvironmentalReadings db
              + count_of TemperatureReadings db));
   EClose c].

(** Two runs of the loop that differ only in what they print and in the
    value of the skip counter, which is [n] ahead in the first. *)
Definition same_but_skipped (n : nat)
    (o o' : list event * state * result (list reading * nat)) : Prop :=
  db_ops (events o) = db_ops (events o')
  /\ final o = final o'
  /\ match outcome o, outcome o' with
     | Ok (d, s), Ok (d', s') => d = d' /\ s = (s' + n)%nat
     | Raise e, Raise e' => e = e'
     | _, _ => False
     end.

(** The eleven entries of [SENSOR_MAPPING]. *)
Definition recognized : list (string * (string * kind)) :=
  [("Sensor c1", ("c1", Current));
   ("Sensor s1", ("s1", Environmental));
   ("Sensor s2", ("s2", Environmental));
   ("Sensor s3", ("s3", Environmental));
   ("Sensor s4", ("s4", Environmental));
   ("Sensor s5", ("s5", Environmental));
   ("Sensor t1", ("t1", Temperature));
   ("Sensor t2", ("t2", Temperature));
   ("Sensor t3", ("t3", Temperature));
   ("Sensor t4", ("t4", Temperature));
   ("Sensor t5", ("t5", Temperature))].

(** The observable shape of an import run that was aborted. *)
Definition aborted (w : world) (o : list event * state * result unit) : Prop :=
  exit_status (outcome o) = 1
  /\ (connections (events o) <= 1)%nat
  /\ (connect_ok w 0%nat = true ->
      exists evs e,
        events o = evs ++ [EPrint (MsgImportFailed e); ERollback 0; EClose 0])
  /\ (connect_ok w 0%nat = false -> db_ops (events o) = []).

(** The registry seen by a session that has no transaction open and has
    only imported sheets. *)
Definition registry_is (db : database) (st : state) : Prop :=
  synced st /\ sensors (committed st) = sensors db.

(** Claim C8 as the specification states it: one connection per run,
    opened and closed. *)
Definition opened_once_then_closed (evs : list event) : Prop :=
  connections evs = 1%nat /\ sessions None evs = Some None.

(** *** Notions for the transformers, the registry and whole imports *)

(** The value of a measurement field of a tuple. *)
Inductive number : Type :=
| NInt (z : Z)
| NFloat (f : spec_float).

(** The field a measurement column gives: [None] for an absent cell, the
    cell cast to the declared type of the column otherwise. *)
Definition cast_field (r : row) (f : string * numeric) : result (option number) :=
  match snd f with
  | IntField => rmap (option_map NInt) (int_or_none r (fst f))
  | FloatField => rmap (option_map NFloat) (float_or_none r (fst f))
  end.

(** The fields of a list of columns, evaluated from left to right. *)
Fixpoint cast_fields (r : row) (fs : list (string * numeric))
    : result (list (option number)) :=
  match fs with
  | [] => Ok []
  | f :: rest =>
      doR v <- cast_field r f;
      doR vs <- cast_fields r rest;
      Ok (v :: vs)
  end.

(** The measurement fields of a tuple, in the column order of its INSERT
    statement. *)
Definition measurements (rd : reading) : list (option number) :=
  match rd with
  | CurrentReading _ _ b c1 c2 c3 c4 =>
      [NFloat <$> b; NFloat <$> c1; NFloat <$> c2; NFloat <$> c3; NFloat <$> c4]
  | EnvironmentalReading _ _ h l m na np t b =>
      [NInt <$> h; NInt <$> l; NInt <$> m; NInt <$> na; NInt <$> np;
       NFloat <$> t; NInt <$> b]
  | TemperatureReading _ _ h t b => [NInt <$> h; NFloat <$> t; NInt <$> b]
  end.

Definition reading_kind (rd : reading) : kind :=
  match rd with
  | CurrentReading _ _ _ _ _ _ _ => Current
  | EnvironmentalReading _ _ _ _ _ _ _ _ _ => Environmental
  | TemperatureReading _ _ _ _ _ => Temperature
  end.

(** The branch the driver takes for the type of a mapping entry. *)
Definition kind_of_type (type : string) : option kind :=
  if String.eqb type "current" then Some Current
  else if String.eqb type "environmental" then Some Environmental
  else if String.eqb type "temperature" then Some Temperature
  else None.

(** Rows whose timestamp does not parse. *)
Definition unparseable (rows : dataframe) : nat :=
  length (List.filter (fun r => negb (parseable r)) rows).

(** A sheet all of whose rows go through against the registry of [db]:
    an unknown sheet, or a recognised sheet whose sensor is registered
    and none of whose rows raises. *)
Definition sheet_ok (db : database) (sheet : string * dataframe) : Prop :=
  match SENSOR_MAPPING !! fst sheet with
  | None => True
  | Some info =>
      exists k sid,
        sensor_type info = type_name k
        /\ select_sensor_id (sensor_code info) db = Some sid
        /\ Forall (fun r => is_Ok (row_tuple (tuple_of k) sid r) = true)
             (snd sheet)
  end.

(** The database after a sheet has gone through: the tuples of its
    parseable rows are inserted, in row order, into the table of its
    sensor type. *)
Definition sheet_result (sheet : string * dataframe) (db : database) : database :=
  match SENSOR_MAPPING !! fst sheet with
  | None => db
  | Some info =>
      match kind_of_type (sensor_type info),
            select_sensor_id (sensor_code info) db with
      | Some k, Some sid =>
          insert_into (table_of k) (tuples (tuple_of k) sid (snd sheet)) db
      | _, _ => db
      end
  end.

Definition workbook_result (xls : workbook) (db : database) : database :=
  fold_left (fun acc sheet => sheet_result sheet acc) xls db.

(** The rows of the recognised sheets of a workbook. *)
Definition recognised_rows (xls : workbook) : nat :=
  sum_list_with
    (fun sheet => match SENSOR_MAPPING !! fst sheet with
                  | Some _ => length (snd sheet)
                  | None => 0%nat
                  end) xls.

(** A row that the uniqueness constraint keeps out of a table. *)
Definition absorbed (r : reading) (stored : list reading) : Prop :=
  existsb (conflicts r) stored = true.

(** A flush that changes nothing: each of its rows collides with a
    stored one. *)
Definition absorbed_flush (fl : table * list reading) (db : database) : Prop :=
  fst fl = Sensors \/ Forall (fun r => absorbed r (rows_of (fst fl) db)) (snd fl).

Definition is_skip_report (e : event) : bool :=
  match e with
  | EPrint (MsgSkipped _) => true
  | _ => false
  end.


(** The tuple is in the table, or the uniqueness constraint kept it out
    in favour of a stored row. *)
Definition stored_or_collides (tup : reading) (stored : list reading) : Prop :=
  tup ∈ stored \/ absorbed tup stored.

Ltac simpl_out := unfold events, final, outcome in *; cbn [fst snd] in *.

Ltac raise_in_chain He :=
  repeat match goal with
  | |- exists _, rbind ?x _ = Raise _ =>
      first [ rewrite He; eexists; reflexivity
            | destruct x as [?|?]; cbn [rbind]; [|eexists; reflexivity] ]
  end.

(* ===================================================================== *)
(** ** The loop over the rows *)
(* ===================================================================== *)

Lemma import_row_eq t f conn sid bs total idx r data skipped st :
  import_row t f conn sid bs total idx r data skipped st =
  match getitem r FECHA with
  | Raise e => ([], st, Raise e)
  | Ok c =>
      match pd_to_datetime c with
      | None => ([EPrint (MsgBadTimestamp c)], st, Ok (data, S skipped))
      | Some ts =>
          match f ts sid r with
          | Raise e => ([], st, Raise e)
          | Ok tup =>
              if Z.of_nat (length (data ++ [tup])) >=? bs then
                if bs <=? 0 then ([], st, Raise ProgrammingError)
                else if db_raises (EExecuteBatch conn t (data ++ [tup])) then
                  ([], st, Raise DatabaseError)
                else
                  ([EExecuteBatch conn t (data ++ [tup]); ECommit conn;
                    EPrint (MsgInserted (length (data ++ [tup])) (S idx) total)],
                   flushed t (data ++ [tup]) st, Ok ([], skipped))
              else ([], st, Ok (data ++ [tup], skipped))
          end
      end
  end.
Proof.
  unfold import_row, parse_timestamp, bind, lift, execute_batch, execute.
  destruct (getitem r FECHA) as [c|e]; [|reflexivity].
  destruct (pd_to_datetime c) as [ts|]; [|reflexivity].
  cbn. destruct (f ts sid r) as [tup|e]; [|reflexivity].
  destruct (Z.of_nat (length (data ++ [tup])) >=? bs); [|reflexivity].
  destruct (bs <=? 0); [reflexivity|].
  destruct (db_raises (EExecuteBatch conn t (data ++ [tup]))); reflexivity.
Qed.

Lemma import_rows_cons t f conn sid bs total idx r rest data skipped st :
  import_rows t f conn sid bs total idx (r :: rest) data skipped st =
  match import_row t f conn sid bs total idx r data skipped st with
  | (ev, st1, Ok acc) =>
      match import_rows t f conn sid bs total (S idx) rest (fst acc) (snd acc) st1 with
      | (ev', st2, res) => (ev ++ ev', st2, res)
      end
  | (ev, st1, Raise e) => (ev, st1, Raise e)
  end.
Proof. reflexivity. Qed.

Lemma flushes_app (a b : list event) : flushes (a ++ b) = flushes a ++ flushes b.
Proof. unfold flushes. apply omap_app. Qed.

Lemma batches_app (a b : list event) : batches (a ++ b) = batches a ++ batches b.
Proof. unfold batches. rewrite flushes_app. apply fmap_app. Qed.

(** The buffer stays below the batch size, and every batch flushed by the
    loop is full. *)
Lemma import_rows_bounded t f conn sid bs total rows :
  1 <= bs ->
  forall idx data skipped st,
    Z.of_nat (length data) < bs ->
    let o := import_rows t f conn sid bs total idx rows data skipped st in
    Forall (fun b => Z.of_nat (length b) = bs) (batches (events o))
    /\ (forall d s, outcome o = Ok (d, s) -> Z.of_nat (length d) < bs).
Proof.
  intros Hbs. induction rows as [|r rest IH]; intros idx data skipped st Hlen.
  - cbn. split; [constructor|]. intros d s [= <- <-]. exact Hlen.
  - cbv zeta. rewrite import_rows_cons, import_row_eq.
    destruct (getitem r FECHA) as [c|e]; [|cbn; split; [constructor|discriminate]].
    destruct (pd_to_datetime c) as [ts|].
    + destruct (f ts sid r) as [tup|e]; [|cbn; split; [constructor|discriminate]].
      destruct (Z.geb_spec (Z.of_nat (length (data ++ [tup]))) bs) as [Hge|Hge].
      * destruct (Z.leb_spec bs 0) as [Hle|Hle]; [lia|].
        destruct (db_raises (EExecuteBatch conn t (data ++ [tup])));
          [cbn; split; [constructor|discriminate]|].
        assert (Hfull : Z.of_nat (length (data ++ [tup])) = bs).
        { rewrite length_app in *. cbn in *. lia. }
        specialize (IH (S idx) [] skipped (flushed t (data ++ [tup]) st)).
        cbn [fst snd].
        destruct (import_rows t f conn sid bs total (S idx) rest [] skipped
                    (flushed t (data ++ [tup]) st)) as [[ev' st2] res] eqn:Hrest.
        cbn in IH. destruct IH as [IH1 IH2]; [lia|].
        cbn. split; [|exact IH2].
        constructor; [exact Hfull|exact IH1].
      * specialize (IH (S idx) (data ++ [tup]) skipped st).
        cbn [fst snd].
        destruct (import_rows t f conn sid bs total (S idx) rest (data ++ [tup])
                    skipped st) as [[ev' st2] res] eqn:Hrest.
        cbn in IH. destruct IH as [IH1 IH2]; [lia|].
        cbn. split; [exact IH1|exact IH2].
    + specialize (IH (S idx) data (S skipped) st).
      cbn [fst snd].
      destruct (import_rows t f conn sid bs total (S idx) rest data (S skipped) st)
        as [[ev' st2] res] eqn:Hrest.
      cbn in IH. destruct IH as [IH1 IH2]; [lia|].
      cbn. split; [exact IH1|exact IH2].
Qed.

Lemma batches_flush c t rows m evs :
  batches (EExecuteBatch c t rows :: ECommit c :: EPrint m :: evs)
  = rows :: batches evs.
Proof. reflexivity. Qed.

Lemma batches_print m evs : batches (EPrint m :: evs) = batches evs.
Proof. reflexivity. Qed.

Lemma tuples_cons f sid r rest :
  tuples f sid (r :: rest) =
  match row_tuple f sid r with
  | Ok (Some tup) => tup :: tuples f sid rest
  | _ => tuples f sid rest
  end.
Proof.
  unfold tuples. cbn. destruct (row_tuple f sid r) as [[tup|]|e]; reflexivity.
Qed.

(** On a sheet whose rows all go through, the loop flushes a full batch
    every [B] tuples and keeps the rest in the buffer. *)
Lemma import_rows_ok t f conn sid (B : nat) total rows :
  accepts_all ->
  (1 <= B)%nat ->
  Forall (fun r => is_Ok (row_tuple f sid r) = true) rows ->
  forall idx data skipped st,
    (length data < B)%nat ->
    exists evs st' data' skipped',
      import_rows t f conn sid (Z.of_nat B) total idx rows data skipped st
        = (evs, st', Ok (data', skipped'))
      /\ length <$> batches evs
         = repeat B ((length data + length (tuples f sid rows)) / B)
      /\ length data' = ((length data + length (tuples f sid rows)) mod B)%nat
      /\ concat (batches evs) ++ data' = data ++ tuples f sid rows
      /\ (skipped' + length (tuples f sid rows) = skipped + length rows)%nat.
Proof.
  intros Hdb HB Hall. induction Hall as [|r rest Hr Hrest IH];
    intros idx data skipped st Hlen.
  - exists [], st, data, skipped. cbn.
    rewrite Nat.add_0_r, Nat.div_small, Nat.mod_small, app_nil_r by lia.
    repeat split; lia.
  - rewrite import_rows_cons, import_row_eq, tuples_cons.
    unfold row_tuple in *. cbn in Hr.
    destruct (getitem r FECHA) as [c|e]; [cbn in *|discriminate].
    destruct (pd_to_datetime c) as [ts|].
    + destruct (f ts sid r) as [tup|e]; [cbn in *|discriminate].
      destruct (Z.geb_spec (Z.of_nat (length (data ++ [tup]))) (Z.of_nat B))
        as [Hge|Hlt].
      * destruct (Z.leb_spec (Z.of_nat B) 0) as [Hle|_]; [lia|].
        rewrite Hdb.
        assert (Hfull : length (data ++ [tup]) = B).
        { rewrite length_app in *. cbn in *. lia. }
        destruct (IH (S idx) [] skipped (flushed t (data ++ [tup]) st))
          as (evs & st' & data' & skipped' & Hrun & Hsz & Hrem & Hcat & Hsk);
          [cbn; lia|].
        cbn [fst snd]. rewrite Hrun. do 4 eexists. split; [reflexivity|].
        cbn in Hsz, Hrem, Hcat.
        assert (Harith : (length data + S (length (tuples f sid rest))
                          = 1 * B + length (tuples f sid rest))%nat).
        { rewrite length_app in Hfull. cbn in Hfull. lia. }
        rewrite Harith, Nat.div_add_l by lia.
        replace (1 * B + length (tuples f sid rest))%nat
          with (length (tuples f sid rest) + 1 * B)%nat by lia.
        rewrite Nat.Div0.mod_add.
        cbn [app]. rewrite batches_flush. cbn [fmap list_fmap concat].
        change (list_fmap _ _ length (batches evs)) with (length <$> batches evs).
        rewrite Hsz, Hfull, <- app_assoc, Hcat.
        repeat split; [exact Hrem|now rewrite <- app_assoc|lia].
      * destruct (IH (S idx) (data ++ [tup]) skipped st)
          as (evs & st' & data' & skipped' & Hrun & Hsz & Hrem & Hcat & Hsk).
        { rewrite length_app in *. cbn in *. lia. }
        cbn [fst snd]. rewrite Hrun. do 4 eexists. split; [reflexivity|].
        rewrite length_app in Hsz, Hrem. cbn in Hsz, Hrem.
        replace (length data + S (length (tuples f sid rest)))%nat
          with (length data + 1 + length (tuples f sid rest))%nat by lia.
        cbn [app]. repeat split; [exact Hsz|exact Hrem| |lia].
        rewrite Hcat, <- app_assoc. reflexivity.
    + destruct (IH (S idx) data (S skipped) st Hlen)
        as (evs & st' & data' & skipped' & Hrun & Hsz & Hrem & Hcat & Hsk).
      cbn [fst snd]. rewrite Hrun. do 4 eexists. split; [reflexivity|].
      cbn [app]. rewrite batches_print.
      repeat split; [exact Hsz|exact Hrem|exact Hcat|lia].
Qed.

Lemma tuples_length_parseable f sid rows :
  Forall (fun r => is_Ok (row_tuple f sid r) = true) rows ->
  length (tuples f sid rows) = length (List.filter parseable rows).
Proof.
  induction 1 as [|r rest Hr _ IH]; [reflexivity|].
  rewrite tuples_cons. cbn. unfold row_tuple, parseable in *.
  destruct (getitem r FECHA) as [c|e]; [cbn in *|discriminate].
  destruct (pd_to_datetime c) as [ts|].
  - destruct (f ts sid r) as [tup|e]; [|discriminate].
    rewrite bool_decide_eq_true_2 by eauto. cbn. now rewrite IH.
  - rewrite bool_decide_eq_false_2 by (intros [? [=]]). exact IH.
Qed.

Lemma ceil_div_count (n b : nat) :
  (1 <= b)%nat ->
  (n / b + (if (n mod b =? 0)%nat then 0 else 1) = (n + b - 1) / b)%nat.
Proof.
  intros Hb.
  pose proof (Nat.div_mod_eq n b) as Hdm.
  pose proof (Nat.mod_upper_bound n b ltac:(lia)) as Hlt.
  destruct (Nat.eqb_spec (n mod b) 0) as [H0|Hne].
  - rewrite Nat.add_0_r.
    apply (Nat.div_unique (n + b - 1) b (n / b) (b - 1)); lia.
  - apply (Nat.div_unique (n + b - 1) b (n / b + 1) (n mod b - 1)); lia.
Qed.

Lemma flush_sizes_length (n b : nat) :
  (1 <= b)%nat -> length (flush_sizes n b) = ((n + b - 1) / b)%nat.
Proof.
  intros Hb. unfold flush_sizes.
  rewrite length_app, repeat_length, <- ceil_div_count by exact Hb.
  destruct (n mod b =? 0)%nat; reflexivity.
Qed.

Lemma finish_sheet_eq t conn sheet bs data skipped st :
  finish_sheet t conn sheet bs data skipped st =
  let report :=
    (if (0 <? skipped)%nat then [EPrint (MsgSkipped skipped)] else [])
    ++ [EPrint (MsgSheetCompleted sheet)] in
  match data with
  | [] => (report, st, Ok tt)
  | _ :: _ =>
      if bs <=? 0 then ([], st, Raise ProgrammingError)
      else if db_raises (EExecuteBatch conn t data) then
        ([], st, Raise DatabaseError)
      else
        ([EExecuteBatch conn t data; ECommit conn;
          EPrint (MsgFinalBatch (length data))] ++ report,
         flushed t data st, Ok tt)
  end.
Proof.
  unfold finish_sheet, execute_batch, execute, bind.
  destruct data as [|x data]; destruct (bs <=? 0);
    try destruct (db_raises (EExecuteBatch conn t (x :: data)));
    destruct (0 <? skipped)%nat; reflexivity.
Qed.

Lemma get_sensor_id_eq conn code st :
  get_sensor_id conn code st =
  if db_raises (ESelectSensorId conn code) then ([], st, Raise DatabaseError)
  else
    ([ESelectSensorId conn code], st,
     match select_sensor_id code (working st) with
     | Some sensor_id => Ok sensor_id
     | None => Raise ValueError
     end).
Proof.
  unfold get_sensor_id, execute, bind.
  destruct (db_raises (ESelectSensorId conn code)); [reflexivity|]. cbn.
  destruct (select_sensor_id code (working st)); reflexivity.
Qed.

Lemma import_sensor_eq t f conn sheet df code bs st :
  import_sensor t f conn sheet df code bs st =
  if db_raises (ESelectSensorId conn code) then ([], st, Raise DatabaseError)
  else
  match select_sensor_id code (working st) with
  | None => ([ESelectSensorId conn code], st, Raise ValueError)
  | Some sid =>
      let head := [ESelectSensorId conn code;
                   EPrint (MsgImporting sheet code (length df))] in
      match import_rows t f conn sid bs (length df) 0 df [] 0 st with
      | (evs, st1, Ok acc) =>
          match finish_sheet t conn sheet bs (fst acc) (snd acc) st1 with
          | (evs', st2, res) => (head ++ evs ++ evs', st2, res)
          end
      | (evs, st1, Raise e) => (head ++ evs, st1, Raise e)
      end
  end.
Proof.
  unfold import_sensor. unfold bind at 1. rewrite get_sensor_id_eq.
  destruct (db_raises (ESelectSensorId conn code)); [reflexivity|].
  destruct (select_sensor_id code (working st)) as [sid|]; [|reflexivity].
  unfold bind. cbn.
  destruct (import_rows t f conn sid bs (length df) 0 df [] 0 st)
    as [[evs st1] [acc|e]]; [|reflexivity].
  destruct (finish_sheet t conn sheet bs (fst acc) (snd acc) st1)
    as [[evs' st2] res]. reflexivity.
Qed.

(* ===================================================================== *)
(** ** What every step inside a session preserves *)
(* ===================================================================== *)

Lemma replay_app a b db : replay (a ++ b) db = replay b (replay a db).
Proof. unfold replay. rewrite flushes_app. apply fold_left_app. Qed.

Lemma commits_follow_app a b :
  commits_follow a = true -> commits_follow b = true ->
  commits_follow (a ++ b) = true.
Proof.
  intros Ha Hb. induction a as [|e a IH]; [exact Hb|].
  destruct e; cbn in *; try (apply IH; exact Ha).
  destruct a as [|e' a]; [discriminate|].
  destruct e'; try discriminate. cbn in *.
  apply andb_true_iff in Ha as [Hc Ha].
  rewrite Hc. cbn. apply IH. exact Ha.
Qed.

Lemma sessions_app cur cur' a b :
  sessions cur a = Some cur' -> sessions cur (a ++ b) = sessions cur' b.
Proof.
  revert cur. induction a as [|e a IH]; intros cur H.
  - cbn in *. congruence.
  - destruct e; cbn in *;
      try (destruct (bool_decide _); [|discriminate]); try (apply IH; exact H).
    destruct cur; [discriminate|]. apply IH. exact H.
Qed.

Lemma connections_app a b :
  connections (a ++ b) = (connections a + connections b)%nat.
Proof. unfold connections. rewrite List.filter_app. apply length_app. Qed.

Lemma inner_ret conn {A} (a : A) : inner conn (ret a).
Proof. intros st Hs. cbn. repeat split; [exact Hs|discriminate]. Qed.

Lemma inner_print conn m : inner conn (print m).
Proof. intros st Hs. cbn. repeat split; [exact Hs|discriminate]. Qed.

Lemma inner_lift conn {A} (r : result A) :
  (forall e, r = Raise e -> is_Exception e = true) -> inner conn (lift r).
Proof. intros Hr st Hs. cbn. repeat split; [exact Hs|exact Hr]. Qed.

Lemma inner_bind conn {A B} (m : M A) (k : A -> M B) :
  inner conn m -> (forall a, inner conn (k a)) -> inner conn (bind m k).
Proof.
  intros Hm Hk st Hs. specialize (Hm st Hs). unfold bind.
  destruct (m st) as [[ev st1] [a|e]].
  2:{ simpl_out. destruct Hm as (? & ? & ? & ? & ? & ? & He).
      repeat split; try assumption.
      intros e0 [= <-]. apply He. reflexivity. }
  simpl_out. destruct Hm as (Hs1 & Hc1 & Hf1 & Hn1 & Hss1 & Hcn1 & _).
  specialize (Hk a st1 Hs1).
  destruct (k a st1) as [[ev' st2] r]. simpl_out.
  destruct Hk as (Hs2 & Hc2 & Hf2 & Hn2 & Hss2 & Hcn2 & He2).
  repeat split.
  - exact Hs2.
  - rewrite replay_app, <- Hc1. exact Hc2.
  - apply commits_follow_app; assumption.
  - congruence.
  - rewrite (sessions_app _ _ _ _ Hss1). exact Hss2.
  - rewrite connections_app. lia.
  - exact He2.
Qed.

Lemma replay_flush conn t data m db :
  replay [EExecuteBatch conn t data; ECommit conn; EPrint m] db
  = insert_into t data db.
Proof. reflexivity. Qed.

Lemma inner_flushed conn t data m st :
  synced st ->
  let evs := [EExecuteBatch conn t data; ECommit conn; EPrint m] in
  synced (flushed t data st)
  /\ committed (flushed t data st) = replay evs (committed st)
  /\ commits_follow evs = true
  /\ sessions (Some conn) evs = Some (Some conn)
  /\ connections evs = 0%nat.
Proof.
  intros Hs. cbn -[replay]. rewrite replay_flush, Nat.eqb_refl.
  rewrite !bool_decide_eq_true_2 by reflexivity.
  unfold synced in *. cbn. rewrite Hs. repeat split.
Qed.

Lemma rbind_raises {A B} (r : result A) (k : A -> result B) :
  raises_Exception r -> (forall a, raises_Exception (k a)) ->
  raises_Exception (rbind r k).
Proof.
  intros Hr Hk e. destruct r as [a|e0]; cbn.
  - apply Hk.
  - intros [= <-]. apply Hr. reflexivity.
Qed.

Lemma Ok_raises {A} (a : A) : raises_Exception (Ok a).
Proof. intros e. discriminate. Qed.

Lemma getitem_raises r label : raises_Exception (getitem r label).
Proof.
  intros e. unfold getitem. destruct (r !! label); [discriminate|].
  intros [= <-]. reflexivity.
Qed.

Lemma float_of_Z_raises z : raises_Exception (float_of_Z z).
Proof.
  intros e. unfold float_of_Z.
  destruct (binary_normalize 53 1024 z 0 false); try discriminate.
  intros [= <-]. reflexivity.
Qed.

Lemma py_int_raises c : raises_Exception (py_int c).
Proof.
  intros e. destruct c as [[| | |]| | | | |]; cbn; try discriminate;
    try (intros [= <-]; reflexivity).
  destruct (int_of_string s); [discriminate|]. intros [= <-]. reflexivity.
Qed.

Lemma py_float_raises c : raises_Exception (py_float c).
Proof.
  destruct c; cbn; try apply float_of_Z_raises; try apply Ok_raises;
    try (intros e [= <-]; reflexivity).
  intros e. destruct (float_of_string s); [discriminate|].
  intros [= <-]. reflexivity.
Qed.

Lemma cast_or_none_raises {A} (cast : cell -> result A) r label :
  (forall c, raises_Exception (cast c)) ->
  raises_Exception (cast_or_none cast r label).
Proof.
  intros Hc. unfold cast_or_none.
  apply rbind_raises; [apply getitem_raises|]. intros c.
  destruct (pd_notna c); [|apply Ok_raises].
  apply rbind_raises; [apply getitem_raises|]. intros c'.
  apply rbind_raises; [apply Hc|]. intros v. apply Ok_raises.
Qed.

Lemma tuple_of_raises k ts sid r : raises_Exception (tuple_of k ts sid r).
Proof.
  destruct k; cbn;
    unfold current_tuple, environmental_tuple, temperature_tuple,
      float_or_none, int_or_none;
    repeat (apply rbind_raises;
            [apply cast_or_none_raises;
             first [apply py_float_raises | apply py_int_raises]
            |intros ?]);
    apply Ok_raises.
Qed.

Lemma inner_import_row conn t f sid bs total idx r data skipped :
  (forall ts, raises_Exception (f ts sid r)) ->
  inner conn (import_row t f conn sid bs total idx r data skipped).
Proof.
  intros Hf st Hs. rewrite import_row_eq.
  destruct (getitem r FECHA) as [c|e] eqn:Hget.
  2:{ simpl_out. cbn. repeat split; [exact Hs|].
      intros e0 [= <-]. apply (getitem_raises _ _ _ Hget). }
  destruct (pd_to_datetime c) as [ts|].
  2:{ simpl_out. cbn. repeat split; [exact Hs|discriminate]. }
  destruct (f ts sid r) as [tup|e] eqn:Htup.
  2:{ simpl_out. cbn. repeat split; [exact Hs|].
      intros e0 [= <-]. apply (Hf _ _ Htup). }
  destruct (Z.of_nat (length (data ++ [tup])) >=? bs).
  2:{ simpl_out. cbn. repeat split; [exact Hs|discriminate]. }
  destruct (bs <=? 0).
  { simpl_out. cbn. repeat split; [exact Hs|]. intros e0 [= <-]. reflexivity. }
  destruct (db_raises (EExecuteBatch conn t (data ++ [tup]))).
  { simpl_out. cbn. repeat split; [exact Hs|]. intros e0 [= <-]. reflexivity. }
  simpl_out.
  destruct (inner_flushed conn t (data ++ [tup])
              (MsgInserted (length (data ++ [tup])) (S idx) total) st Hs)
    as (H1 & H2 & H3 & H4 & H5).
  repeat split; try assumption. discriminate.
Qed.

Lemma inner_import_rows conn t f sid bs total rows :
  (forall ts r, raises_Exception (f ts sid r)) ->
  forall idx data skipped,
    inner conn (import_rows t f conn sid bs total idx rows data skipped).
Proof.
  intros Hf. induction rows as [|r rest IH]; intros idx data skipped.
  - apply inner_ret.
  - cbn [import_rows]. apply inner_bind.
    + apply inner_import_row. intros ts. apply Hf.
    + intros acc. apply IH.
Qed.

Lemma inner_finish_sheet conn t sheet bs data skipped :
  inner conn (finish_sheet t conn sheet bs data skipped).
Proof.
  intros st Hs. rewrite finish_sheet_eq. cbv zeta.
  destruct data as [|x data].
  - simpl_out. destruct (0 <? skipped)%nat; cbn;
      repeat split; first [exact Hs|discriminate].
  - destruct (bs <=? 0).
    { simpl_out. cbn. repeat split; [exact Hs|]. intros e0 [= <-]. reflexivity. }
    destruct (db_raises (EExecuteBatch conn t (x :: data))).
    { simpl_out. cbn. repeat split; [exact Hs|]. intros e0 [= <-]. reflexivity. }
    simpl_out.
    destruct (inner_flushed conn t (x :: data)
                (MsgFinalBatch (length (x :: data))) st Hs)
      as (H1 & H2 & H3 & H4 & H5).
    repeat split; try assumption; try discriminate.
    + rewrite replay_app, <- H2. destruct (0 <? skipped)%nat; reflexivity.
    + apply commits_follow_app; [exact H3|].
      destruct (0 <? skipped)%nat; reflexivity.
    + rewrite (sessions_app _ _ _ _ H4).
      destruct (0 <? skipped)%nat; reflexivity.
    + rewrite connections_app, H5.
      destruct (0 <? skipped)%nat; reflexivity.
Qed.

Lemma inner_get_sensor_id conn code : inner conn (get_sensor_id conn code).
Proof.
  intros st Hs. rewrite get_sensor_id_eq.
  destruct (db_raises (ESelectSensorId conn code)).
  { simpl_out. cbn. repeat split; [exact Hs|]. intros e0 [= <-]. reflexivity. }
  simpl_out. cbn.
  rewrite bool_decide_eq_true_2 by reflexivity.
  repeat split; [exact Hs|].
  destruct (select_sensor_id code (working st)); [discriminate|].
  intros e [= <-]. reflexivity.
Qed.

Lemma inner_import_sensor conn t f sheet df code bs :
  (forall ts sid r, raises_Exception (f ts sid r)) ->
  inner conn (import_sensor t f conn sheet df code bs).
Proof.
  intros Hf. unfold import_sensor.
  apply inner_bind; [apply inner_get_sensor_id|]. intros sid.
  apply inner_bind; [apply inner_print|]. intros _.
  apply inner_bind; [apply inner_import_rows; intros; apply Hf|]. intros acc.
  apply inner_finish_sheet.
Qed.

Lemma inner_importer_of conn k sheet df code bs :
  inner conn (importer_of k conn sheet df code bs).
Proof.
  destruct k; apply inner_import_sensor; intros ts sid r.
  - apply (tuple_of_raises Current).
  - apply (tuple_of_raises Environmental).
  - apply (tuple_of_raises Temperature).
Qed.

Lemma inner_import_sheet conn bs sheet total :
  inner conn (import_sheet conn bs sheet total).
Proof.
  unfold import_sheet.
  destruct (SENSOR_MAPPING !! sheet.1) as [info|].
  2:{ apply inner_bind; [apply inner_print|]. intros _. apply inner_ret. }
  apply inner_bind; [|intros _; apply inner_ret].
  destruct (String.eqb (sensor_type info) "current");
    [apply (inner_importer_of conn Current)|].
  destruct (String.eqb (sensor_type info) "environmental");
    [apply (inner_importer_of conn Environmental)|].
  destruct (String.eqb (sensor_type info) "temperature");
    [apply (inner_importer_of conn Temperature)|].
  apply inner_ret.
Qed.

Lemma inner_import_sheets conn bs sheets :
  forall total, inner conn (import_sheets conn bs sheets total).
Proof.
  induction sheets as [|sheet rest IH]; intros total.
  - apply inner_ret.
  - cbn [import_sheets]. apply inner_bind; [apply inner_import_sheet|].
    intros total'. apply IH.
Qed.

Lemma inner_print_summary conn w total : inner conn (print_summary w total).
Proof.
  unfold print_summary.
  apply inner_bind; [apply inner_print|]. intros _.
  apply inner_bind; [|intros _; apply inner_print].
  destruct (elapsed_zero w); [|apply inner_print].
  intros st Hs. cbn. repeat split; [exact Hs|]. intros e [= <-]. reflexivity.
Qed.

Lemma inner_select_count conn t : inner conn (select_count conn t).
Proof.
  intros st Hs. unfold select_count, execute, bind.
  destruct (db_raises (ESelectCount conn t)); cbn.
  - repeat split; [exact Hs|]. intros e [= <-]. reflexivity.
  - rewrite bool_decide_eq_true_2 by reflexivity.
    repeat split; [exact Hs|discriminate].
Qed.

Lemma inner_verify_import conn : inner conn (verify_import conn).
Proof.
  unfold verify_import.
  repeat first
    [ apply inner_print
    | apply inner_bind; [first [apply inner_print|apply inner_select_count]|intros ?] ].
Qed.

(* ===================================================================== *)
(** ** The driver *)
(* ===================================================================== *)

Lemma connect_db_eq w st :
  connect_db w st =
  if connect_ok w (next_conn st) then
    ([EPrint MsgConnecting; EConnect (next_conn st); EPrint MsgConnected],
     opened st, Ok (next_conn st))
  else
    ([EPrint MsgConnecting; EPrint MsgConnectFailed], refused st,
     Raise (SystemExit 1)).
Proof.
  unfold connect_db, try_except, bind, psycopg2_connect. cbn.
  destruct (connect_ok w (next_conn st)); reflexivity.
Qed.

Lemma select_count_eq c t st :
  select_count c t st =
  if db_raises (ESelectCount c t) then ([], st, Raise DatabaseError)
  else ([ESelectCount c t], st, Ok (count_of t (working st))).
Proof.
  unfold select_count, execute, bind.
  destruct (db_raises (ESelectCount c t)); reflexivity.
Qed.

(** [verify_import] only reads: it leaves the session as it is, executes
    no batch, and its statements are the first of the four COUNT queries,
    up to the one the server rejects. *)
Lemma verify_import_reads c st :
  exists evs res,
    verify_import c st = (evs, st, res)
    /\ flushes evs = []
    /\ db_ops evs `prefix_of` count_queries c
    /\ (res = Ok tt /\ db_ops evs = count_queries c
        \/ res = Raise DatabaseError).
Proof.
  unfold verify_import, select_count, execute, bind, count_queries.
  cbn [print emit].
  destruct (db_raises (ESelectCount c Sensors));
    [do 2 eexists; repeat split; [eexists; reflexivity|now right]|].
  destruct (db_raises (ESelectCount c CurrentReadings));
    [do 2 eexists; repeat split; [eexists; reflexivity|now right]|].
  destruct (db_raises (ESelectCount c EnvironmentalReadings));
    [do 2 eexists; repeat split; [eexists; reflexivity|now right]|].
  destruct (db_raises (ESelectCount c TemperatureReadings));
    [do 2 eexists; repeat split; [eexists; reflexivity|now right]|].
  do 2 eexists. repeat split; [reflexivity|left; split; reflexivity].
Qed.

Lemma verify_import_eq c st :
  (forall t, db_raises (ESelectCount c t) = false) ->
  (verify_import c;; close c) st
  = (verification c (working st), closed st, Ok tt).
Proof.
  intros Hdb. unfold verify_import, select_count, execute, bind.
  rewrite !Hdb. reflexivity.
Qed.

Lemma verify_session_eq w st :
  (do conn <- connect_db w; verify_import conn;; close conn) st =
  if connect_ok w (next_conn st) then
    let c := next_conn st in
    let head := [EPrint MsgConnecting; EConnect c; EPrint MsgConnected] in
    match verify_import c (opened st) with
    | (evs, st1, Ok _) => (head ++ evs ++ [EClose c], closed st1, Ok tt)
    | (evs, st1, Raise e) => (head ++ evs, st1, Raise e)
    end
  else
    ([EPrint MsgConnecting; EPrint MsgConnectFailed], refused st,
     Raise (SystemExit 1)).
Proof.
  unfold bind at 1. rewrite connect_db_eq.
  destruct (connect_ok w (next_conn st)); [|reflexivity].
  cbv zeta. unfold bind.
  destruct (verify_import (next_conn st) (opened st)) as [[evs st1] [[]|e]];
    reflexivity.
Qed.

Lemma import_all_data_eq w path bs xls st :
  files w !! path = Some xls ->
  import_all_data w path bs st =
  let head := [EPrint (MsgReadingFile path); EPrint (MsgFoundSheets (length xls))] in
  if connect_ok w (next_conn st) then
    let c := next_conn st in
    let head := head ++ [EPrint MsgConnecting; EConnect c; EPrint MsgConnected] in
    match import_body w c bs xls (opened st) with
    | (evs, st1, Ok _) => (head ++ evs ++ [EClose c], closed st1, Ok tt)
    | (evs, st1, Raise e) =>
        if is_Exception e then
          (head ++ evs ++ [EPrint (MsgImportFailed e); ERollback c; EClose c],
           closed st1, Raise (SystemExit 1))
        else (head ++ evs ++ [EClose c], closed st1, Raise e)
    end
  else
    (head ++ [EPrint MsgConnecting; EPrint MsgConnectFailed], refused st,
     Raise (SystemExit 1)).
Proof.
  intros Hfile. unfold import_all_data. rewrite Hfile.
  unfold bind at 1. cbn [print emit]. unfold bind at 1. cbn [print emit].
  unfold bind at 1. rewrite connect_db_eq.
  destruct (connect_ok w (next_conn st)); [|reflexivity].
  unfold try_except_finally.
  destruct (import_body w (next_conn st) bs xls (opened st))
    as [[evs st1] [[]|e]]; [|destruct (is_Exception e)];
    cbn; rewrite <- ?app_assoc; reflexivity.
Qed.

Lemma import_all_data_missing w path bs st :
  files w !! path = None ->
  import_all_data w path bs st
  = ([EPrint (MsgFileNotFound path)], st, Raise (SystemExit 1)).
Proof. intros Hfile. unfold import_all_data. rewrite Hfile. reflexivity. Qed.

Lemma inner_import_body w conn bs xls : inner conn (import_body w conn bs xls).
Proof.
  unfold import_body. apply inner_bind; [apply inner_import_sheets|].
  intros total. apply inner_print_summary.
Qed.

Lemma importer_of_eq k :
  importer_of k = import_sensor (table_of k) (tuple_of k).
Proof. destruct k; reflexivity. Qed.

Lemma import_rows_commits t f conn sid bs total rows :
  forall idx data skipped st,
    commits_follow
      (events (import_rows t f conn sid bs total idx rows data skipped st)) = true.
Proof.
  induction rows as [|r rest IH]; intros idx data skipped st; [reflexivity|].
  rewrite import_rows_cons, import_row_eq.
  destruct (getitem r FECHA) as [c|e]; [|reflexivity].
  destruct (pd_to_datetime c) as [ts|].
  - destruct (f ts sid r) as [tup|e]; [|reflexivity].
    destruct (Z.of_nat (length (data ++ [tup])) >=? bs).
    + destruct (bs <=? 0); [reflexivity|].
      destruct (db_raises (EExecuteBatch conn t (data ++ [tup])));
        [reflexivity|].
      cbn [fst snd].
      specialize (IH (S idx) [] skipped (flushed t (data ++ [tup]) st)).
      destruct (import_rows t f conn sid bs total (S idx) rest [] skipped
                  (flushed t (data ++ [tup]) st)) as [[ev' st2] res].
      simpl_out. cbn. rewrite Nat.eqb_refl. exact IH.
    + cbn [fst snd].
      specialize (IH (S idx) (data ++ [tup]) skipped st).
      destruct (import_rows t f conn sid bs total (S idx) rest (data ++ [tup])
                  skipped st) as [[ev' st2] res].
      exact IH.
  - cbn [fst snd]. specialize (IH (S idx) data (S skipped) st).
    destruct (import_rows t f conn sid bs total (S idx) rest data (S skipped) st)
      as [[ev' st2] res].
    exact IH.
Qed.

Lemma batches_report skipped sheet :
  batches ((if (0 <? skipped)%nat then [EPrint (MsgSkipped skipped)] else [])
           ++ [EPrint (MsgSheetCompleted sheet)]) = [].
Proof. destruct (0 <? skipped)%nat; reflexivity. Qed.

Lemma commits_follow_report skipped sheet :
  commits_follow
    ((if (0 <? skipped)%nat then [EPrint (MsgSkipped skipped)] else [])
     ++ [EPrint (MsgSheetCompleted sheet)]) = true.
Proof. destruct (0 <? skipped)%nat; reflexivity. Qed.

(* ===================================================================== *)
(** ** Batching *)
(* ===================================================================== *)

(** What a sheet import flushes when every row goes through. *)
Lemma importer_batches (k : kind) (B : nat) conn sheet df code sid st :
  accepts_all ->
  (1 <= B)%nat ->
  select_sensor_id code (working st) = Some sid ->
  Forall (fun r => is_Ok (row_tuple (tuple_of k) sid r) = true) df ->
  let N := length (List.filter parseable df) in
  let o := importer_of k conn sheet df code (Z.of_nat B) st in
  outcome o = Ok tt
  /\ length <$> batches (events o) = flush_sizes N B
  /\ length (batches (events o)) = ((N + B - 1) / B)%nat
  /\ commits_follow (events o) = true
  /\ concat (batches (events o)) = tuples (tuple_of k) sid df.
Proof.
  intros Hdb HB Hsel Hall N o.
  assert (HN : length (tuples (tuple_of k) sid df) = N)
    by (apply tuples_length_parseable; exact Hall).
  destruct (import_rows_ok (table_of k) (tuple_of k) conn sid B (length df) df
              Hdb HB Hall 0%nat [] 0%nat st)
    as (evs & st' & data' & skipped' & Hrun & Hsz & Hrem & Hcat & Hsk);
    [cbn; lia|].
  cbn [length Nat.add app] in Hsz, Hrem, Hcat. rewrite HN in Hsz, Hrem.
  pose proof (import_rows_commits (table_of k) (tuple_of k) conn sid
                (Z.of_nat B) (length df) df 0%nat [] 0%nat st) as Hcom.
  rewrite Hrun in Hcom. simpl_out.
  assert (Ho : outcome o = Ok tt
               /\ batches (events o)
                  = batches evs ++ (if (N mod B =? 0)%nat then [] else [data'])
               /\ commits_follow (events o) = true).
  { subst o. rewrite importer_of_eq, import_sensor_eq, Hdb, Hsel. cbv zeta.
    rewrite Hrun. cbn [fst snd]. rewrite finish_sheet_eq. cbv zeta.
    destruct data' as [|x data'].
    - cbn in Hrem. rewrite <- Hrem. simpl_out.
      rewrite batches_app, (batches_app evs), batches_report, app_nil_r.
      split; [reflexivity|]. split; [cbn; now rewrite app_nil_r|].
      apply commits_follow_app; [reflexivity|].
      apply commits_follow_app; [exact Hcom|apply commits_follow_report].
    - destruct (Z.leb_spec (Z.of_nat B) 0) as [Hle|_]; [lia|].
      rewrite Hdb. simpl_out.
      rewrite batches_app, (batches_app evs), (batches_app [_; _; _]),
        batches_report.
      destruct (Nat.eqb_spec (N mod B) 0) as [H0|_];
        [rewrite H0 in Hrem; discriminate|].
      split; [reflexivity|]. split; [reflexivity|].
      apply commits_follow_app; [reflexivity|].
      apply commits_follow_app; [exact Hcom|].
      apply commits_follow_app; [|apply commits_follow_report].
      cbn. rewrite Nat.eqb_refl. reflexivity. }
  destruct Ho as (Hout & Hb & Hcf).
  assert (Hsizes : length <$> batches (events o) = flush_sizes N B).
  { rewrite Hb, fmap_app, Hsz. unfold flush_sizes. f_equal.
    destruct (N mod B =? 0)%nat; [reflexivity|]. cbn. now rewrite Hrem. }
  simpl_out. repeat split.
  - exact Hout.
  - exact Hsizes.
  - rewrite <- (length_fmap length (batches _)), Hsizes. apply flush_sizes_length, HB.
  - exact Hcf.
  - rewrite Hb, concat_app, <- Hcat. f_equal.
    destruct (Nat.eqb_spec (N mod B) 0) as [H0|_]; cbn.
    + rewrite H0 in Hrem. destruct data'; [reflexivity|discriminate].
    + now rewrite app_nil_r.
Qed.


(** C1: a sheet with N parseable rows imported with batch size B >= 1,
    no statement being rejected, is flushed (bulk insert directly
    followed by commit) once per B buffered rows and once more for a
    non-empty remainder: ceil(N / B) flushes, of sizes B, ..., B, N mod B,
    which together hold the tuples of the rows in order; 2500 rows with
    B = 1000 give flushes of 1000, 1000 and 500. *)
Theorem batch_flush_count (k : kind) (B : nat) conn sheet df code sid st :
  accepts_all ->
  (1 <= B)%nat ->
  select_sensor_id code (working st) = Some sid ->
  Forall (fun r => is_Ok (row_tuple (tuple_of k) sid r) = true) df ->
  let N := length (List.filter parseable df) in
  let o := importer_of k conn sheet df code (Z.of_nat B) st in
  outcome o = Ok tt
  /\ length <$> batches (events o) = flush_sizes N B
  /\ length (batches (events o)) = ((N + B - 1) / B)%nat
  /\ commits_follow (events o) = true
  /\ concat (batches (events o)) = tuples (tuple_of k) sid df
  /\ (N = 2500%nat -> B = 1000%nat ->
      length <$> batches (events o) = [1000; 1000; 500]%nat).
Proof.
  intros Hdb HB Hsel Hall N o.
  destruct (importer_batches k B conn sheet df code sid st Hdb HB Hsel Hall)
    as (Hout & Hsizes & Hlen & Hcf & Hcat).
  split; [exact Hout|]. split; [exact Hsizes|]. split; [exact Hlen|].
  split; [exact Hcf|]. split; [exact Hcat|].
  intros HN HB'. etransitivity; [exact Hsizes|].
  fold N. rewrite HN, HB'. reflexivity.
Qed.

(** C9: with batch size B >= 1 the buffer holds fewer than B rows after
    every row processed, every flush inside the loop inserts exactly B
    rows, and only the flush at the end of the sheet inserts fewer. *)
Theorem buffer_below_batch_size (k : kind) bs conn sheet df code st :
  1 <= bs ->
  (forall sid total processed data skipped st',
      outcome (import_rows (table_of k) (tuple_of k) conn sid bs total 0
                 processed [] 0 st') = Ok (data, skipped) ->
      Z.of_nat (length data) < bs)
  /\ (forall sid total rows st',
        Forall (fun b => Z.of_nat (length b) = bs)
          (batches (events (import_rows (table_of k) (tuple_of k) conn sid bs
                              total 0 rows [] 0 st'))))
  /\ (exists full last,
        batches (events (importer_of k conn sheet df code bs st)) = full ++ last
        /\ Forall (fun b => Z.of_nat (length b) = bs) full
        /\ (last = [] \/
            exists d, last = [d] /\ 0 < Z.of_nat (length d) < bs)).
Proof.
  intros Hbs.
  assert (Hloop : forall sid total rows st',
             let o := import_rows (table_of k) (tuple_of k) conn sid bs total 0
                        rows [] 0 st' in
             Forall (fun b => Z.of_nat (length b) = bs) (batches (events o))
             /\ (forall d s, outcome o = Ok (d, s) -> Z.of_nat (length d) < bs)).
  { intros sid total rows st'. apply import_rows_bounded; [exact Hbs|cbn; lia]. }
  split; [|split].
  - intros sid total processed data skipped st' H.
    exact (proj2 (Hloop sid total processed st') data skipped H).
  - intros sid total rows st'. exact (proj1 (Hloop sid total rows st')).
  - rewrite importer_of_eq, import_sensor_eq.
    destruct (db_raises (ESelectSensorId conn code)).
    { exists [], []. repeat split; [constructor|now left]. }
    destruct (select_sensor_id code (working st)) as [sid|].
    2:{ exists [], []. repeat split; [constructor|now left]. }
    cbv zeta. destruct (Hloop sid (length df) df st) as [Hfull Hbuf].
    destruct (import_rows (table_of k) (tuple_of k) conn sid bs (length df) 0
                df [] 0 st) as [[evs st1] [[data skipped]|e]]; simpl_out.
    2:{ exists (batches evs), []. rewrite batches_app, app_nil_r.
        repeat split; [exact Hfull|now left]. }
    specialize (Hbuf data skipped eq_refl).
    rewrite finish_sheet_eq. cbv zeta. destruct data as [|x data].
    + exists (batches evs), []. cbn [fst snd].
      rewrite batches_app, (batches_app evs), batches_report, !app_nil_r.
      repeat split; [exact Hfull|now left].
    + destruct (Z.leb_spec bs 0) as [Hle|_]; [lia|].
      destruct (db_raises (EExecuteBatch conn (table_of k) (x :: data))).
      { exists (batches evs), []. cbn [fst snd].
        rewrite batches_app, (batches_app evs), !app_nil_r.
        repeat split; [exact Hfull|now left]. }
      exists (batches evs), [x :: data]. cbn [fst snd].
      rewrite batches_app, (batches_app evs), (batches_app [_; _; _]),
        batches_report.
      repeat split; [exact Hfull|]. right. exists (x :: data).
      split; [reflexivity|]. cbn [length] in *. lia.
Qed.

(* ===================================================================== *)
(** ** Rows with a bad timestamp *)
(* ===================================================================== *)

Lemma db_ops_app a b : db_ops (a ++ b) = db_ops a ++ db_ops b.
Proof. unfold db_ops. apply List.filter_app. Qed.

Lemma import_rows_app t f conn sid bs total l1 l2 :
  forall idx data skipped st,
    import_rows t f conn sid bs total idx (l1 ++ l2) data skipped st =
    match import_rows t f conn sid bs total idx l1 data skipped st with
    | (ev, st1, Ok acc) =>
        match import_rows t f conn sid bs total (idx + length l1) l2
                (fst acc) (snd acc) st1 with
        | (ev', st2, res) => (ev ++ ev', st2, res)
        end
    | (ev, st1, Raise e) => (ev, st1, Raise e)
    end.
Proof.
  induction l1 as [|r l1 IH]; intros idx data skipped st.
  - cbn. rewrite Nat.add_0_r.
    destruct (import_rows t f conn sid bs total idx l2 data skipped st)
      as [[ev' st2] res]. reflexivity.
  - rewrite <- app_comm_cons, !import_rows_cons.
    destruct (import_row t f conn sid bs total idx r data skipped st)
      as [[ev st1] [acc|e]]; [|reflexivity].
    rewrite IH. cbn [length]. rewrite <- Nat.add_succ_comm.
    destruct (import_rows t f conn sid bs total (S idx) l1 (fst acc) (snd acc) st1)
      as [[ev1 st2] [acc1|e]]; [|reflexivity].
    destruct (import_rows t f conn sid bs total (S idx + length l1) l2
                (fst acc1) (snd acc1) st2) as [[ev2 st3] res].
    cbn. now rewrite app_assoc.
Qed.

Lemma import_rows_shift t f conn sid bs rows n :
  forall total total' idx idx' data skipped st,
    same_but_skipped n
      (import_rows t f conn sid bs total idx rows data (skipped + n) st)
      (import_rows t f conn sid bs total' idx' rows data skipped st).
Proof.
  induction rows as [|r rest IH]; intros total total' idx idx' data skipped st.
  - cbn. repeat split.
  - rewrite !import_rows_cons, !import_row_eq.
    destruct (getitem r FECHA) as [c|e]; [|repeat split].
    destruct (pd_to_datetime c) as [ts|].
    + destruct (f ts sid r) as [tup|e]; [|repeat split].
      destruct (Z.of_nat (length (data ++ [tup])) >=? bs).
      * destruct (bs <=? 0); [repeat split|].
        destruct (db_raises (EExecuteBatch conn t (data ++ [tup])));
          [repeat split|].
        cbn [fst snd].
        specialize (IH total total' (S idx) (S idx') [] skipped
                      (flushed t (data ++ [tup]) st)).
        destruct (import_rows t f conn sid bs total (S idx) rest [] (skipped + n)
                    (flushed t (data ++ [tup]) st)) as [[ev1 st1] r1].
        destruct (import_rows t f conn sid bs total' (S idx') rest [] skipped
                    (flushed t (data ++ [tup]) st)) as [[ev2 st2] r2].
        destruct IH as (H1 & H2 & H3). unfold same_but_skipped. simpl_out.
        rewrite !db_ops_app, H1. repeat split; assumption.
      * cbn [fst snd].
        specialize (IH total total' (S idx) (S idx') (data ++ [tup]) skipped st).
        destruct (import_rows t f conn sid bs total (S idx) rest (data ++ [tup])
                    (skipped + n) st) as [[ev1 st1] r1].
        destruct (import_rows t f conn sid bs total' (S idx') rest (data ++ [tup])
                    skipped st) as [[ev2 st2] r2].
        exact IH.
    + cbn [fst snd].
      specialize (IH total total' (S idx) (S idx') data (S skipped) st).
      change (S (skipped + n)) with (S skipped + n)%nat.
      destruct (import_rows t f conn sid bs total (S idx) rest data
                  (S skipped + n) st) as [[ev1 st1] r1].
      destruct (import_rows t f conn sid bs total' (S idx') rest data
                  (S skipped) st) as [[ev2 st2] r2].
      exact IH.
Qed.

(** C2: a row whose timestamp does not parse leaves the buffer and the
    database as they were and adds one to the skip counter without
    raising; the sheet is imported as if the row were not there, one skip
    apart; and any other failure of a row is raised, not tolerated. *)
Theorem bad_timestamp_row_skipped t f conn sid bs (bad : row) c :
  getitem bad FECHA = Ok c ->
  pd_to_datetime c = None ->
  (forall total idx data skipped st,
      import_row t f conn sid bs total idx bad data skipped st
      = ([EPrint (MsgBadTimestamp c)], st, Ok (data, S skipped)))
  /\ (forall total total' before after st,
        same_but_skipped 1
          (import_rows t f conn sid bs total 0 (before ++ bad :: after) [] 0 st)
          (import_rows t f conn sid bs total' 0 (before ++ after) [] 0 st))
  /\ (forall r total idx data skipped st,
        match row_tuple f sid r with
        | Raise e =>
            import_row t f conn sid bs total idx r data skipped st
            = ([], st, Raise e)
        | Ok None =>
            exists c', getitem r FECHA = Ok c' /\ pd_to_datetime c' = None
        | Ok (Some tup) =>
            forall d s,
              outcome (import_row t f conn sid bs total idx r data skipped st)
              = Ok (d, s) -> s = skipped
        end).
Proof.
  intros Hget Hparse.
  assert (Hstep : forall total idx data skipped st,
             import_row t f conn sid bs total idx bad data skipped st
             = ([EPrint (MsgBadTimestamp c)], st, Ok (data, S skipped))).
  { intros. rewrite import_row_eq, Hget, Hparse. reflexivity. }
  split; [exact Hstep|split].
  - intros total total' before after st.
    rewrite !import_rows_app.
    pose proof (import_rows_shift t f conn sid bs before 0 total total' 0%nat
                  0%nat [] 0%nat st) as Hpre.
    cbn [Nat.add] in Hpre.
    destruct (import_rows t f conn sid bs total 0 before [] 0 st)
      as [[ev1 st1] r1].
    destruct (import_rows t f conn sid bs total' 0 before [] 0 st)
      as [[ev2 st2] r2].
    destruct Hpre as (H1 & H2 & H3). simpl_out. subst st2.
    destruct r1 as [[d1 s1]|e1], r2 as [[d2 s2]|e2]; try contradiction.
    2:{ subst. repeat split. exact H1. }
    destruct H3 as [Hd Hs]. rewrite Nat.add_0_r in Hs. subst d1 s1.
    cbn [fst snd]. rewrite import_rows_cons, Hstep. cbn [fst snd].
    pose proof (import_rows_shift t f conn sid bs after 1 total total'
                  (S (0 + length before)) (0 + length before)%nat d2 s2 st1)
      as Hpost.
    replace (s2 + 1)%nat with (S s2) in Hpost by lia.
    destruct (import_rows t f conn sid bs total (S (0 + length before)) after d2
                (S s2) st1) as [[ev3 st3] r3].
    destruct (import_rows t f conn sid bs total' (0 + length before) after d2
                s2 st1) as [[ev4 st4] r4].
    destruct Hpost as (H4 & H5 & H6). unfold same_but_skipped. simpl_out.
    rewrite !db_ops_app, H1, H4. repeat split; assumption.
  - intros r total idx data skipped st. rewrite import_row_eq.
    unfold row_tuple.
    destruct (getitem r FECHA) as [c'|e]; cbn; [|reflexivity].
    destruct (pd_to_datetime c') as [ts|] eqn:Hp;
      [|exists c'; split; [reflexivity|exact Hp]].
    destruct (f ts sid r) as [tup|e]; cbn; [|reflexivity].
    intros d s.
    destruct (Z.of_nat (length (data ++ [tup])) >=? bs);
      [destruct (bs <=? 0);
       [|destruct (db_raises (EExecuteBatch conn t (data ++ [tup])))]|];
      simpl_out; congruence.
Qed.

(* ===================================================================== *)
(** ** Errors that end the run *)
(* ===================================================================== *)

Lemma import_row_raises t f conn sid bs total idx r data skipped st e :
  row_tuple f sid r = Raise e ->
  import_row t f conn sid bs total idx r data skipped st = ([], st, Raise e).
Proof.
  intros H. rewrite import_row_eq. unfold row_tuple in H.
  destruct (getitem r FECHA) as [c|e0]; cbn in H; [|congruence].
  destruct (pd_to_datetime c) as [ts|]; [|discriminate].
  destruct (f ts sid r) as [tup|e0]; cbn in H; congruence.
Qed.

Lemma import_rows_raises t f conn sid bs total rows r :
  r ∈ rows ->
  (exists e, row_tuple f sid r = Raise e) ->
  forall idx data skipped st,
    exists e,
      outcome (import_rows t f conn sid bs total idx rows data skipped st)
      = Raise e.
Proof.
  intros Hin [e0 Hr]. induction rows as [|r' rest IH];
    intros idx data skipped st.
  - apply elem_of_nil in Hin. contradiction.
  - rewrite import_rows_cons. apply elem_of_cons in Hin as [<-|Hin].
    + rewrite (import_row_raises _ _ _ _ _ _ _ _ _ _ _ _ Hr). eauto.
    + destruct (import_row t f conn sid bs total idx r' data skipped st)
        as [[ev st1] [acc|e]]; [|eauto].
      destruct (IH Hin (S idx) (fst acc) (snd acc) st1) as [e He].
      destruct (import_rows t f conn sid bs total (S idx) rest (fst acc)
                  (snd acc) st1) as [[ev' st2] res].
      simpl_out. eauto.
Qed.

Lemma import_sensor_raises t f conn sheet df code bs r st :
  r ∈ df ->
  (forall sid, exists e, row_tuple f sid r = Raise e) ->
  exists e, outcome (import_sensor t f conn sheet df code bs st) = Raise e.
Proof.
  intros Hin Hr. rewrite import_sensor_eq.
  destruct (db_raises (ESelectSensorId conn code)); [eauto|].
  destruct (select_sensor_id code (working st)) as [sid|]; [|eauto].
  cbv zeta.
  destruct (import_rows_raises t f conn sid bs (length df) df r Hin (Hr sid)
              0%nat [] 0%nat st) as [e He].
  destruct (import_rows t f conn sid bs (length df) 0 df [] 0 st)
    as [[evs st1] [acc|e']]; simpl_out; [discriminate|eauto].
Qed.

Lemma import_sensor_unregistered t f conn sheet df code bs st :
  select_sensor_id code (working st) = None ->
  exists e, outcome (import_sensor t f conn sheet df code bs st) = Raise e.
Proof.
  intros H. rewrite import_sensor_eq, H.
  destruct (db_raises (ESelectSensorId conn code)); eauto.
Qed.

Lemma import_sensor_not_found t f conn sheet df code bs st :
  db_raises (ESelectSensorId conn code) = false ->
  select_sensor_id code (working st) = None ->
  import_sensor t f conn sheet df code bs st
  = ([ESelectSensorId conn code], st, Raise ValueError).
Proof. intros Hdb H. rewrite import_sensor_eq, Hdb, H. reflexivity. Qed.

Lemma mapping_recognized name info :
  SENSOR_MAPPING !! name = Some info ->
  exists k,
    (name, (sensor_code info, k)) ∈ recognized
    /\ sensor_type info = type_name k.
Proof.
  intros H. apply elem_of_list_to_map_2 in H.
  apply list_elem_of_In in H. cbn in H.
  repeat destruct H as [H|H]; try contradiction; inversion H; subst; cbn;
    first [ exists Current; split; [|reflexivity]
          | exists Environmental; split; [|reflexivity]
          | exists Temperature; split; [|reflexivity] ];
    apply list_elem_of_In; cbn; tauto.
Qed.

Lemma import_sheet_dispatch conn bs name df total info k :
  SENSOR_MAPPING !! name = Some info ->
  sensor_type info = type_name k ->
  import_sheet conn bs (name, df) total
  = (importer_of k conn name df (sensor_code info) bs;;
     ret (total + length df)%nat).
Proof.
  intros Hmap Hty. unfold import_sheet. cbn [fst snd]. rewrite Hmap, Hty.
  destruct k; reflexivity.
Qed.

Lemma import_sheet_raises conn bs name df total info st :
  SENSOR_MAPPING !! name = Some info ->
  (forall k, sensor_type info = type_name k ->
     exists e, outcome (importer_of k conn name df (sensor_code info) bs st)
               = Raise e) ->
  exists e, outcome (import_sheet conn bs (name, df) total st) = Raise e.
Proof.
  intros Hmap Hk. destruct (mapping_recognized _ _ Hmap) as (k & _ & Hty).
  rewrite (import_sheet_dispatch _ _ _ _ _ _ _ Hmap Hty). unfold bind.
  destruct (Hk k Hty) as [e He].
  destruct (importer_of k conn name df (sensor_code info) bs st)
    as [[ev st1] [[]|e']]; simpl_out; [discriminate|eauto].
Qed.

(** A sheet that raises in every state satisfying an invariant of the
    sheet loop makes the loop raise. *)
Lemma import_sheets_raises conn bs (P : state -> Prop) sheets sheet :
  sheet ∈ sheets ->
  (forall s total st, P st -> P (final (import_sheet conn bs s total st))) ->
  (forall total st, P st ->
     exists e, outcome (import_sheet conn bs sheet total st) = Raise e) ->
  forall total st, P st ->
    exists e, outcome (import_sheets conn bs sheets total st) = Raise e.
Proof.
  intros Hin Hpres Hraise. induction sheets as [|s rest IH]; intros total st HP.
  - apply elem_of_nil in Hin. contradiction.
  - cbn [import_sheets]. unfold bind.
    apply elem_of_cons in Hin as [<-|Hin].
    + destruct (Hraise total st HP) as [e He].
      destruct (import_sheet conn bs sheet total st) as [[ev st1] [a|e']];
        simpl_out; [discriminate|eauto].
    + specialize (Hpres s total st HP).
      destruct (import_sheet conn bs s total st) as [[ev st1] [a|e']];
        simpl_out; [|eauto].
      destruct (IH Hin a st1 Hpres) as [e He].
      destruct (import_sheets conn bs rest a st1) as [[ev' st2] res].
      simpl_out. eauto.
Qed.

Lemma import_body_raises w conn bs xls st :
  (exists e, outcome (import_sheets conn bs xls 0 st) = Raise e) ->
  exists e, outcome (import_body w conn bs xls st) = Raise e.
Proof.
  intros [e He]. unfold import_body, bind.
  destruct (import_sheets conn bs xls 0 st) as [[ev st1] [a|e']];
    simpl_out; [discriminate|eauto].
Qed.

Lemma run_aborted w a db xls :
  verify_only a = false ->
  files w !! excel_file a = Some xls ->
  (exists e, outcome (import_body w 0 (batch_size a) xls
                        (opened (initial_state db))) = Raise e) ->
  aborted w (run w a db).
Proof.
  intros Hmode Hfile [e He]. unfold run, main. rewrite Hmode.
  unfold bind at 1. rewrite (import_all_data_eq _ _ _ _ _ Hfile).
  cbn [initial_state next_conn]. cbv zeta.
  destruct (connect_ok w 0%nat) eqn:Hconn.
  2:{ unfold aborted. simpl_out.
      split; [reflexivity|]. split; [cbn; lia|].
      split; [intros H; congruence|]. reflexivity. }
  pose proof (inner_import_body w 0%nat (batch_size a) xls
                (opened (initial_state db)) eq_refl)
    as (_ & _ & _ & _ & _ & Hcn & Hexn).
  destruct (import_body w 0 (batch_size a) xls (opened (initial_state db)))
    as [[evs st1] [[]|e']]; simpl_out; [discriminate|].
  rewrite (Hexn e' eq_refl). unfold aborted. simpl_out.
  split; [reflexivity|]. split; [|split; [|intros H; congruence]].
  - rewrite !connections_app, Hcn. cbn. lia.
  - intros _. eexists _, e'. rewrite app_assoc. reflexivity.
Qed.

(* ===================================================================== *)
(** ** Numeric fields *)
(* ===================================================================== *)












Lemma bind_Raise {A B} (m : M A) (k : A -> M B) st ev st1 e :
  m st = (ev, st1, Raise e) -> bind m k st = (ev, st1, Raise e).
Proof. intros H. unfold bind. rewrite H. reflexivity. Qed.

Lemma sensors_insert_into t rs db : sensors (insert_into t rs db) = sensors db.
Proof. destruct t; reflexivity. Qed.

Lemma sensors_replay evs db : sensors (replay evs db) = sensors db.
Proof.
  unfold replay. generalize (flushes evs) as fs. intros fs. revert db.
  induction fs as [|fl fs IH]; intros db; [reflexivity|].
  cbn. rewrite IH. apply sensors_insert_into.
Qed.

Lemma registry_import_sheet conn bs db s total st :
  registry_is db st ->
  registry_is db (final (import_sheet conn bs s total st)).
Proof.
  intros [Hs Hreg].
  destruct (inner_import_sheet conn bs s total st Hs) as (Hs' & Hc & _).
  split; [exact Hs'|]. rewrite Hc, sensors_replay. exact Hreg.
Qed.

(** The sheet loop stops at the first sheet that raises: the sheets after
    it are not looked at. *)
Lemma import_sheets_stop conn bs before sheet after :
  forall total st ev1 st1 total1 ev2 st2 e,
    import_sheets conn bs before total st = (ev1, st1, Ok total1) ->
    import_sheet conn bs sheet total1 st1 = (ev2, st2, Raise e) ->
    import_sheets conn bs (before ++ sheet :: after) total st
    = (ev1 ++ ev2, st2, Raise e).
Proof.
  induction before as [|s before IH];
    intros total st ev1 st1 total1 ev2 st2 e Hpre Hs.
  - cbn in Hpre. injection Hpre as <- <- <-.
    cbn [app import_sheets]. unfold bind. rewrite Hs. reflexivity.
  - cbn [app import_sheets] in *. unfold bind in *.
    destruct (import_sheet conn bs s total st) as [[ev0 st0] [t0|e0]];
      [|discriminate].
    destruct (import_sheets conn bs before t0 st0) as [[ev1' st1'] r1] eqn:Hb.
    injection Hpre as <- <- ->.
    rewrite (IH _ _ _ _ _ _ _ _ Hb Hs). now rewrite app_assoc.
Qed.

(** C6: the lookup of a sensor code that is not in the registry raises;
    nothing catches it before the driver, so a run over a workbook with a
    recognised sheet of an unregistered sensor is aborted: the sheet
    loop stops at that sheet, the handler rolls back, the connection is
    closed, the exit status is 1.  A missing input file and a refused
    connection give exit status 1 as well. *)
Theorem unregistered_sensor_aborts :
  (forall conn code st,
      db_raises (ESelectSensorId conn code) = false ->
      select_sensor_id code (working st) = None ->
      get_sensor_id conn code st
      = ([ESelectSensorId conn code], st, Raise ValueError))
  /\ (forall w a db xls name df info,
        verify_only a = false ->
        files w !! excel_file a = Some xls ->
        (name, df) ∈ xls ->
        SENSOR_MAPPING !! name = Some info ->
        select_sensor_id (sensor_code info) db = None ->
        aborted w (run w a db))
  /\ (forall conn bs before name df after info total st ev1 st1 total1,
        SENSOR_MAPPING !! name = Some info ->
        import_sheets conn bs before total st = (ev1, st1, Ok total1) ->
        db_raises (ESelectSensorId conn (sensor_code info)) = false ->
        select_sensor_id (sensor_code info) (working st1) = None ->
        import_sheets conn bs (before ++ (name, df) :: after) total st
        = (ev1 ++ [ESelectSensorId conn (sensor_code info)], st1,
           Raise ValueError))
  /\ (forall w a db,
        verify_only a = false ->
        files w !! excel_file a = None ->
        exit_status (outcome (run w a db)) = 1
        /\ events (run w a db) = [EPrint (MsgFileNotFound (excel_file a))])
  /\ (forall w a db,
        connect_ok w 0%nat = false ->
        exit_status (outcome (run w a db)) = 1
        /\ db_ops (events (run w a db)) = []).
Proof.
  split.
  { intros conn code st Hdb H. rewrite get_sensor_id_eq, Hdb, H. reflexivity. }
  split.
  { intros w a db xls name df info Hmode Hfile Hsheet Hmap Hreg.
    apply (run_aborted w a db xls Hmode Hfile).
    apply import_body_raises.
    apply (import_sheets_raises 0%nat (batch_size a) (registry_is db) xls
             (name, df)); [exact Hsheet| | |split; reflexivity].
    - intros s total st. apply registry_import_sheet.
    - intros total st [Hs Hsens].
      apply (import_sheet_raises _ _ _ _ _ info); [exact Hmap|].
      intros k _. rewrite importer_of_eq. apply import_sensor_unregistered.
      unfold select_sensor_id in *. rewrite Hs, Hsens. exact Hreg. }
  split.
  { intros conn bs before name df after info total st ev1 st1 total1
      Hmap Hpre Hdb Hreg.
    apply (import_sheets_stop _ _ _ _ _ _ _ _ _ _ _ _ _ Hpre).
    destruct (mapping_recognized _ _ Hmap) as (k & _ & Hty).
    rewrite (import_sheet_dispatch _ _ _ _ _ _ _ Hmap Hty), importer_of_eq.
    unfold bind. rewrite (import_sensor_not_found _ _ _ _ _ _ _ _ Hdb Hreg).
    reflexivity. }
  split.
  { intros w a db Hmode Hfile. unfold run, main. rewrite Hmode.
    unfold bind. rewrite (import_all_data_missing _ _ _ _ Hfile).
    split; reflexivity. }
  intros w a db Hconn. unfold run, main.
  destruct (verify_only a).
  - rewrite verify_session_eq. cbn [initial_state next_conn].
    rewrite Hconn. split; reflexivity.
  - destruct (files w !! excel_file a) as [xls|] eqn:Hfile.
    + erewrite bind_Raise;
        [|rewrite (import_all_data_eq _ _ _ _ _ Hfile);
          cbn [initial_state next_conn]; rewrite Hconn; reflexivity].
      split; reflexivity.
    + erewrite bind_Raise;
        [|rewrite (import_all_data_missing _ _ _ _ Hfile); reflexivity].
      split; reflexivity.
Qed.

(* ===================================================================== *)
(** ** Dispatch on the sheet name *)
(* ===================================================================== *)

Lemma flushes_import_rows t f conn sid bs total rows :
  forall idx data skipped st,
    Forall (fun fl => fst fl = t)
      (flushes (events (import_rows t f conn sid bs total idx rows data skipped st))).
Proof.
  induction rows as [|r rest IH]; intros idx data skipped st; [constructor|].
  rewrite import_rows_cons, import_row_eq.
  destruct (getitem r FECHA) as [c|e]; [|constructor].
  destruct (pd_to_datetime c) as [ts|].
  - destruct (f ts sid r) as [tup|e]; [|constructor].
    destruct (Z.of_nat (length (data ++ [tup])) >=? bs).
    + destruct (bs <=? 0); [constructor|].
      destruct (db_raises (EExecuteBatch conn t (data ++ [tup])));
        [constructor|].
      cbn [fst snd].
      specialize (IH (S idx) [] skipped (flushed t (data ++ [tup]) st)).
      destruct (import_rows t f conn sid bs total (S idx) rest [] skipped
                  (flushed t (data ++ [tup]) st)) as [[ev' st2] res].
      simpl_out. cbn. constructor; [reflexivity|exact IH].
    + cbn [fst snd].
      specialize (IH (S idx) (data ++ [tup]) skipped st).
      destruct (import_rows t f conn sid bs total (S idx) rest (data ++ [tup])
                  skipped st) as [[ev' st2] res].
      exact IH.
  - cbn [fst snd]. specialize (IH (S idx) data (S skipped) st).
    destruct (import_rows t f conn sid bs total (S idx) rest data (S skipped) st)
      as [[ev' st2] res].
    exact IH.
Qed.

Lemma flushes_report skipped sheet :
  flushes ((if (0 <? skipped)%nat then [EPrint (MsgSkipped skipped)] else [])
           ++ [EPrint (MsgSheetCompleted sheet)]) = [].
Proof. destruct (0 <? skipped)%nat; reflexivity. Qed.

Lemma flushes_import_sensor t f conn sheet df code bs st :
  Forall (fun fl => fst fl = t)
    (flushes (events (import_sensor t f conn sheet df code bs st))).
Proof.
  rewrite import_sensor_eq.
  destruct (db_raises (ESelectSensorId conn code)); [constructor|].
  destruct (select_sensor_id code (working st)) as [sid|]; [|constructor].
  cbv zeta.
  pose proof (flushes_import_rows t f conn sid bs (length df) df 0%nat [] 0%nat st)
    as Hloop.
  destruct (import_rows t f conn sid bs (length df) 0 df [] 0 st)
    as [[evs st1] [acc|e]]; simpl_out.
  2:{ rewrite flushes_app. exact Hloop. }
  rewrite finish_sheet_eq. cbv zeta.
  destruct (fst acc) as [|x data];
    [|destruct (bs <=? 0);
      [|destruct (db_raises (EExecuteBatch conn t (x :: data)))]];
    destruct (0 <? snd acc)%nat; cbn [fst snd];
    rewrite ?flushes_app; repeat (apply Forall_app; split);
    first [exact Hloop | repeat constructor].
Qed.

(** C4: a sheet whose name is one of the eleven recognised names is
    handed to the importer of the sensor type registered for it, which
    writes only to the table of that type; a sheet with any other name is
    skipped with a warning, adds nothing to the row total, touches
    nothing and raises nothing. *)
Theorem sheet_dispatch :
  (forall name info,
      SENSOR_MAPPING !! name = Some info ->
      exists k,
        (name, (sensor_code info, k)) ∈ recognized
        /\ sensor_type info = type_name k
        /\ forall conn bs df total,
             import_sheet conn bs (name, df) total
             = (importer_of k conn name df (sensor_code info) bs;;
                ret (total + length df)%nat))
  /\ (forall name code k,
        (name, (code, k)) ∈ recognized ->
        exists info,
          SENSOR_MAPPING !! name = Some info
          /\ sensor_code info = code /\ sensor_type info = type_name k)
  /\ length recognized = 11%nat
  /\ (forall k conn name df code bs st,
        Forall (fun fl => fst fl = table_of k)
          (flushes (events (importer_of k conn name df code bs st))))
  /\ (forall conn bs name df total st,
        SENSOR_MAPPING !! name = None ->
        import_sheet conn bs (name, df) total st
        = ([EPrint (MsgUnknownSheet name)], st, Ok total))
  /\ SENSOR_MAPPING !! "Sensor unknown9" = None.
Proof.
  split.
  { intros name info Hmap.
    destruct (mapping_recognized name info Hmap) as (k & Hin & Hty).
    exists k. repeat split; [exact Hin|exact Hty|].
    intros conn bs df total. apply import_sheet_dispatch; assumption. }
  split.
  { intros name code k Hin. apply list_elem_of_In in Hin. cbn in Hin.
    repeat destruct Hin as [Hin|Hin]; try contradiction;
      inversion Hin; subst; eexists; (split; [reflexivity|split; reflexivity]). }
  split; [reflexivity|].
  split.
  { intros k conn name df code bs st. rewrite importer_of_eq.
    apply flushes_import_sensor. }
  split; [|reflexivity].
  intros conn bs name df total st Hmap. unfold import_sheet. cbn [fst snd].
  rewrite Hmap. reflexivity.
Qed.

(* ===================================================================== *)
(** ** Whole runs *)
(* ===================================================================== *)

Lemma bind_eq {A B} (m : M A) (k : A -> M B) st :
  bind m k st =
  match m st with
  | (ev, st1, Ok a) =>
      match k a st1 with
      | (ev', st2, r) => (ev ++ ev', st2, r)
      end
  | (ev, st1, Raise e) => (ev, st1, Raise e)
  end.
Proof. reflexivity. Qed.

Lemma closing_outer n {A} (m : M A) : closing n m -> outer n m.
Proof.
  intros Hm st Hs. destruct (Hm st Hs) as (H1 & H2 & H3 & H4 & H5).
  repeat split; try assumption. exists None. split; [exact H4|reflexivity].
Qed.

Lemma outer_bind n n' {A B} (m : M A) (k : A -> M B) :
  outer n m -> (forall a, outer n' (k a)) -> outer (n + n') (bind m k).
Proof.
  intros Hm Hk st Hs. specialize (Hm st Hs). unfold bind.
  destruct (m st) as [[ev st1] [a|e]]; simpl_out.
  2:{ destruct Hm as (? & ? & ? & ? & cur & ? & ?).
      repeat split; try assumption; [lia|].
      exists cur. split; [assumption|discriminate]. }
  destruct Hm as (Hs1 & Hc1 & Hf1 & Hcn1 & cur1 & Hss1 & Hcur1).
  rewrite (Hcur1 a eq_refl) in Hss1.
  specialize (Hk a st1 Hs1).
  destruct (k a st1) as [[ev' st2] r]. simpl_out.
  destruct Hk as (Hs2 & Hc2 & Hf2 & Hcn2 & cur2 & Hss2 & Hcur2).
  repeat split.
  - exact Hs2.
  - rewrite replay_app, <- Hc1. exact Hc2.
  - apply commits_follow_app; assumption.
  - rewrite connections_app. lia.
  - exists cur2. split; [|exact Hcur2].
    rewrite (sessions_app _ _ _ _ Hss1). exact Hss2.
Qed.

Lemma sessions_close c : sessions (Some c) [EClose c] = Some None.
Proof. cbn. now rewrite bool_decide_eq_true_2. Qed.

Lemma outer_verify_session w :
  outer 1 (do conn <- connect_db w; verify_import conn;; close conn).
Proof.
  intros st Hs. rewrite verify_session_eq.
  destruct (connect_ok w (next_conn st)); simpl_out.
  2:{ repeat split; [exact Hs|cbn; lia|].
      exists None. split; [reflexivity|discriminate]. }
  cbv zeta.
  pose proof (inner_verify_import (next_conn st) (opened st) eq_refl)
    as (Hs1 & Hc1 & Hf1 & Hn1 & Hss1 & Hcn1 & _).
  set (c := next_conn st) in *.
  set (head := [EPrint MsgConnecting; EConnect c; EPrint MsgConnected]).
  assert (Hhead : sessions None head = Some (Some c)) by reflexivity.
  assert (Hfhead : commits_follow head = true) by reflexivity.
  assert (Hrhead : forall db, replay head db = db) by reflexivity.
  assert (Hchead : connections head = 1%nat) by reflexivity.
  clearbody head.
  destruct (verify_import c (opened st)) as [[evs st1] [[]|e]]; simpl_out.
  - repeat split.
    + rewrite !replay_app, Hrhead. exact Hc1.
    + apply commits_follow_app; [exact Hfhead|].
      apply commits_follow_app; [exact Hf1|reflexivity].
    + rewrite !connections_app, Hchead, Hcn1. cbn. lia.
    + exists None. split; [|reflexivity].
      rewrite (sessions_app _ _ _ _ Hhead), (sessions_app _ _ _ _ Hss1).
      apply sessions_close.
  - repeat split.
    + exact Hs1.
    + rewrite replay_app, Hrhead. exact Hc1.
    + apply commits_follow_app; assumption.
    + rewrite connections_app, Hchead, Hcn1. cbn. lia.
    + exists (Some c). split; [|discriminate].
      rewrite (sessions_app _ _ _ _ Hhead). exact Hss1.
Qed.

(** [import_all_data] leaves no connection open, however it ends. *)
Lemma closing_import_all_data w path bs : closing 1 (import_all_data w path bs).
Proof.
  intros st Hs.
  destruct (files w !! path) as [xls|] eqn:Hfile.
  2:{ rewrite (import_all_data_missing _ _ _ _ Hfile). simpl_out.
      repeat split; [exact Hs|]. cbn. lia. }
  rewrite (import_all_data_eq _ _ _ _ _ Hfile). cbv zeta.
  destruct (connect_ok w (next_conn st)).
  2:{ simpl_out. repeat split; [exact Hs|]. cbn. lia. }
  pose proof (inner_import_body w (next_conn st) bs xls (opened st) eq_refl)
    as (Hs1 & Hc1 & Hf1 & Hn1 & Hss1 & Hcn1 & Hexn).
  set (c := next_conn st) in *.
  set (head := [EPrint (MsgReadingFile path); EPrint (MsgFoundSheets (length xls))]
               ++ [EPrint MsgConnecting; EConnect c; EPrint MsgConnected]).
  assert (Hhead : sessions None head = Some (Some c)) by reflexivity.
  assert (Hfhead : commits_follow head = true) by reflexivity.
  assert (Hrhead : forall db, replay head db = db) by reflexivity.
  assert (Hchead : connections head = 1%nat) by reflexivity.
  clearbody head.
  destruct (import_body w c bs xls (opened st)) as [[evs st1] [[]|e]]; simpl_out.
  - repeat split.
    + rewrite !replay_app, Hrhead. exact Hc1.
    + apply commits_follow_app; [exact Hfhead|].
      apply commits_follow_app; [exact Hf1|reflexivity].
    + rewrite (sessions_app _ _ _ _ Hhead), (sessions_app _ _ _ _ Hss1).
      apply sessions_close.
    + rewrite !connections_app, Hchead, Hcn1. cbn. lia.
  - rewrite (Hexn e eq_refl). simpl_out. repeat split.
    + rewrite !replay_app, Hrhead. exact Hc1.
    + apply commits_follow_app; [exact Hfhead|].
      apply commits_follow_app; [exact Hf1|reflexivity].
    + rewrite (sessions_app _ _ _ _ Hhead), (sessions_app _ _ _ _ Hss1).
      cbn. now rewrite !bool_decide_eq_true_2.
    + rewrite !connections_app, Hchead, Hcn1. cbn. lia.
Qed.

Lemma outer_main w a : outer 2 (main w a).
Proof.
  unfold main. destruct (verify_only a).
  - intros st Hs.
    destruct (outer_verify_session w st Hs) as (? & ? & ? & ? & ?).
    repeat split; try assumption. lia.
  - apply (outer_bind 1 1);
      [apply closing_outer, closing_import_all_data|].
    intros _. apply outer_verify_session.
Qed.

(** [import_all_data] returns or exits with status 1. *)
Lemma import_all_data_outcome w path bs st :
  outcome (import_all_data w path bs st) = Ok tt
  \/ outcome (import_all_data w path bs st) = Raise (SystemExit 1).
Proof.
  destruct (files w !! path) as [xls|] eqn:Hfile.
  2:{ rewrite (import_all_data_missing _ _ _ _ Hfile). now right. }
  rewrite (import_all_data_eq _ _ _ _ _ Hfile). cbv zeta.
  destruct (connect_ok w (next_conn st)); [|now right].
  pose proof (inner_import_body w (next_conn st) bs xls (opened st) eq_refl)
    as (_ & _ & _ & _ & _ & _ & Hexn).
  destruct (import_body w (next_conn st) bs xls (opened st))
    as [[evs st1] [[]|e]]; simpl_out; [now left|].
  rewrite (Hexn e eq_refl). now right.
Qed.

Lemma verify_session_outcome w st :
  let o := (do conn <- connect_db w; verify_import conn;; close conn) st in
  outcome o = Ok tt \/ exit_status (outcome o) = 1.
Proof.
  cbv zeta. rewrite verify_session_eq.
  destruct (connect_ok w (next_conn st)); [|now right]. cbv zeta.
  destruct (verify_import_reads (next_conn st) (opened st))
    as (evs & res & Hrun & _ & _ & [[-> _] | ->]); rewrite Hrun;
    [now left|now right].
Qed.

(** A run ends normally or with exit status 1. *)
Lemma main_outcome w a st :
  outcome (main w a st) = Ok tt \/ exit_status (outcome (main w a st)) = 1.
Proof.
  unfold main. destruct (verify_only a); [apply verify_session_outcome|].
  rewrite (bind_eq (import_all_data _ _ _)).
  destruct (import_all_data_outcome w (excel_file a) (batch_size a) st) as [H|H];
    destruct (import_all_data w (excel_file a) (batch_size a) st)
      as [[ev st1] r]; simpl_out; subst r; [|now right].
  pose proof (verify_session_outcome w st1) as Hv. cbv zeta in Hv.
  destruct ((do conn <- connect_db w; verify_import conn;; close conn) st1)
    as [[ev' st2] r']. exact Hv.
Qed.

Lemma insert_row_prefix r stored : stored `prefix_of` insert_row r stored.
Proof.
  unfold insert_row. destruct (existsb (conflicts r) stored);
    [reflexivity|apply prefix_app_r; reflexivity].
Qed.

Lemma insert_rows_prefix rs stored : stored `prefix_of` insert_rows rs stored.
Proof.
  unfold insert_rows. revert stored.
  induction rs as [|r rs IH]; intros stored; [reflexivity|].
  cbn. etransitivity; [apply (insert_row_prefix r)|apply IH].
Qed.

Lemma insert_into_prefix t t' rs db :
  rows_of t' db `prefix_of` rows_of t' (insert_into t rs db).
Proof.
  unfold insert_into.
  destruct t, t'; cbn; first [reflexivity | apply insert_rows_prefix].
Qed.

Lemma replay_prefix evs t db :
  rows_of t db `prefix_of` rows_of t (replay evs db).
Proof.
  unfold replay. generalize (flushes evs) as fs. intros fs. revert db.
  induction fs as [|fl fs IH]; intros db; [reflexivity|].
  cbn. etransitivity; [apply (insert_into_prefix (fst fl) t (snd fl))|apply IH].
Qed.

(** C5: in every run each executed batch is directly followed by the
    commit of its connection, so the database at the end holds exactly
    the flushed batches, also when the run is aborted: what had been
    flushed at any point of the run is still there at the end, and the
    rollback of the failure handler only resets the open transaction to
    the committed data. *)
Theorem flushed_batches_persist w a db :
  let o := run w a db in
  commits_follow (events o) = true
  /\ committed (final o) = replay (events o) db
  /\ (forall before after t,
        events o = before ++ after ->
        rows_of t (replay before db) `prefix_of` rows_of t (committed (final o)))
  /\ (forall conn t data bs st,
        0 < bs ->
        db_raises (EExecuteBatch conn t data) = false ->
        (execute_batch conn t data bs;; commit conn) st
        = ([EExecuteBatch conn t data; ECommit conn], flushed t data st, Ok tt))
  /\ (forall conn st,
        rollback conn st = ([ERollback conn], closed st, Ok tt)
        /\ committed (closed st) = committed st).
Proof.
  cbv zeta.
  destruct (outer_main w a (initial_state db) eq_refl) as (_ & Hc & Hf & _ & _).
  fold (run w a db) in Hc, Hf. cbn [initial_state committed] in Hc.
  split; [exact Hf|]. split; [exact Hc|]. split; [|split].
  - intros before after t Hev. rewrite Hc, Hev, replay_app.
    apply replay_prefix.
  - intros conn t data bs st Hbs Hdb. unfold execute_batch, execute, bind.
    destruct (Z.leb_spec bs 0) as [Hle|_]; [lia|]. rewrite Hdb. reflexivity.
  - intros conn st. split; reflexivity.
Qed.

(** C7: with [--verify-only] the process reads no workbook and writes
    nothing: its driver calls are the connect, the four COUNT queries and
    the close (or the first of them, up to a refused connection or a
    rejected query); it executes no batch, and the database and every
    count are as they were. *)
Theorem verify_only_reads w a db :
  verify_only a = true ->
  let o := run w a db in
  committed (final o) = db
  /\ working (final o) = db
  /\ flushes (events o) = []
  /\ db_ops (events o) `prefix_of` (EConnect 0 :: count_queries 0 ++ [EClose 0])
  /\ (forall t, count_of t (committed (final o)) = count_of t db)
  /\ (connect_ok w 0%nat = true ->
      (forall t, db_raises (ESelectCount 0 t) = false) ->
      db_ops (events o) = EConnect 0 :: count_queries 0 ++ [EClose 0]
      /\ exit_status (outcome o) = 0).
Proof.
  intros Hmode. cbv zeta. unfold run, main. rewrite Hmode.
  rewrite verify_session_eq. cbn [initial_state next_conn].
  destruct (connect_ok w 0%nat).
  2:{ simpl_out. repeat split; try discriminate. eexists; reflexivity. }
  cbv zeta.
  destruct (verify_import_reads 0%nat (opened (initial_state db)))
    as (evs & res & Hrun & Hfl & [rest Hpre] & Hres).
  rewrite Hrun. destruct Hres as [[-> Hall] | ->]; simpl_out.
  - split; [reflexivity|]. split; [reflexivity|].
    split; [rewrite flushes_app, (flushes_app evs), Hfl; reflexivity|].
    assert (Hops : db_ops ([EPrint MsgConnecting; EConnect 0; EPrint MsgConnected]
                           ++ evs ++ [EClose 0])
                   = EConnect 0 :: count_queries 0 ++ [EClose 0])
      by (rewrite db_ops_app, (db_ops_app evs), Hall; reflexivity).
    split; [rewrite Hops; reflexivity|].
    split; [reflexivity|]. intros _ _. split; [exact Hops|reflexivity].
  - assert (Hrej : (forall t, db_raises (ESelectCount 0 t) = false) -> False).
    { intros Hdb.
      pose proof (verify_import_eq 0%nat (opened (initial_state db)) Hdb) as Heq.
      unfold bind in Heq. rewrite Hrun in Heq. discriminate Heq. }
    split; [reflexivity|]. split; [reflexivity|].
    split; [rewrite flushes_app, Hfl; reflexivity|].
    split; [|split; [reflexivity|intros _ Hdb; destruct (Hrej Hdb)]].
    rewrite db_ops_app. exists (rest ++ [EClose 0]).
    rewrite Hpre, <- app_assoc. reflexivity.
Qed.

(** C8, amended: connections are open one at a time and all calls go to
    the open one.  [import_all_data] closes the connection it opened in
    its [finally] block, as its last action, whether the import
    succeeded or was aborted; the connection opened for the verification
    is closed once [verify_import] has returned.  A verify-only run opens
    at most one connection; an import run opens a second one for the
    verification: a run that exits with status 0 has opened one
    connection with [--verify-only] and two without, and has closed
    them. *)
Theorem connections_closed w a db :
  let o := run w a db in
  (connections (events o) <= 2)%nat
  /\ (verify_only a = true -> (connections (events o) <= 1)%nat)
  /\ (exists cur, sessions None (events o) = Some cur)
  /\ (exit_status (outcome o) = 0 ->
      sessions None (events o) = Some None
      /\ connections (events o) = (if verify_only a then 1 else 2)%nat)
  /\ (forall path bs st,
        sessions None (events (import_all_data w path bs st)) = Some None)
  /\ (forall path bs xls st,
        files w !! path = Some xls ->
        connect_ok w (next_conn st) = true ->
        exists evs,
          events (import_all_data w path bs st) = evs ++ [EClose (next_conn st)])
  /\ (forall c st,
        outcome ((verify_import c;; close c) st) = Ok tt ->
        exists evs,
          events ((verify_import c;; close c) st) = evs ++ [EClose c]).
Proof.
  cbv zeta.
  destruct (outer_main w a (initial_state db) eq_refl)
    as (_ & _ & _ & Hcn & cur & Hss & Hcur).
  fold (run w a db) in Hss, Hcn, Hcur.
  split; [exact Hcn|]. split; [|split; [eauto|split; [|split; [|split]]]].
  - intros Hmode. unfold run, main. rewrite Hmode.
    apply (outer_verify_session w (initial_state db) eq_refl).
  - intros Hexit.
    destruct (main_outcome w a (initial_state db)) as [Hok|Hone];
      fold (run w a db) in *; [|rewrite Hone in Hexit; discriminate].
    split; [rewrite Hss, (Hcur tt Hok); reflexivity|].
    revert Hok. unfold run, main. destruct (verify_only a).
    + rewrite verify_session_eq. cbn [initial_state next_conn].
      destruct (connect_ok w 0%nat); [|discriminate]. cbv zeta.
      pose proof (inner_verify_import 0%nat (opened (initial_state db)) eq_refl)
        as (_ & _ & _ & _ & _ & Hcn1 & _).
      destruct (verify_import 0 (opened (initial_state db)))
        as [[evs st1] [[]|e]]; simpl_out; [|discriminate].
      intros _. rewrite !connections_app, Hcn1. reflexivity.
    + rewrite (bind_eq (import_all_data _ _ _)).
      destruct (files w !! excel_file a) as [xls|] eqn:Hfile.
      2:{ rewrite (import_all_data_missing _ _ _ _ Hfile). discriminate. }
      rewrite (import_all_data_eq _ _ _ _ _ Hfile).
      cbn [initial_state next_conn]. cbv zeta.
      destruct (connect_ok w 0%nat); [|discriminate].
      pose proof (inner_import_body w 0%nat (batch_size a) xls
                    (opened (initial_state db)) eq_refl)
        as (_ & _ & _ & Hn1 & _ & Hcn1 & Hexn).
      destruct (import_body w 0 (batch_size a) xls (opened (initial_state db)))
        as [[evs st1] [[]|e]]; simpl_out.
      2:{ rewrite (Hexn e eq_refl). discriminate. }
      cbn beta. rewrite verify_session_eq. cbn [closed next_conn]. rewrite Hn1.
      cbn [opened initial_state next_conn].
      destruct (connect_ok w 1%nat); [|discriminate]. cbv zeta.
      pose proof (inner_verify_import 1%nat (opened (closed st1)) eq_refl)
        as (_ & _ & _ & _ & _ & Hcn2 & _).
      destruct (verify_import 1 (opened (closed st1)))
        as [[evs2 st2] [[]|e]]; simpl_out; [|discriminate].
      intros _. rewrite !connections_app, Hcn1, Hcn2. reflexivity.
  - intros path bs st.
    destruct (files w !! path) as [xls|] eqn:Hfile.
    2:{ rewrite (import_all_data_missing _ _ _ _ Hfile). reflexivity. }
    rewrite (import_all_data_eq _ _ _ _ _ Hfile). cbv zeta.
    destruct (connect_ok w (next_conn st)); [|reflexivity].
    pose proof (inner_import_body w (next_conn st) bs xls (opened st) eq_refl)
      as (_ & _ & _ & _ & Hss1 & _ & Hexn).
    assert (Hhead : sessions None
                      ([EPrint (MsgReadingFile path);
                        EPrint (MsgFoundSheets (length xls))]
                       ++ [EPrint MsgConnecting; EConnect (next_conn st);
                           EPrint MsgConnected])
                    = Some (Some (next_conn st))) by reflexivity.
    destruct (import_body w (next_conn st) bs xls (opened st))
      as [[evs st1] [[]|e]]; simpl_out.
    + rewrite (sessions_app _ _ _ _ Hhead), (sessions_app _ _ _ _ Hss1).
      apply sessions_close.
    + rewrite (Hexn e eq_refl). simpl_out.
      rewrite (sessions_app _ _ _ _ Hhead), (sessions_app _ _ _ _ Hss1).
      cbn. now rewrite !bool_decide_eq_true_2.
  - intros path bs xls st Hfile Hconn.
    rewrite (import_all_data_eq _ _ _ _ _ Hfile), Hconn. cbv zeta.
    destruct (import_body w (next_conn st) bs xls (opened st))
      as [[evs st1] [[]|e]]; [|destruct (is_Exception e)]; simpl_out.
    + eexists. rewrite app_assoc. reflexivity.
    + exists (([EPrint (MsgReadingFile path); EPrint (MsgFoundSheets (length xls))]
               ++ [EPrint MsgConnecting; EConnect (next_conn st);
                   EPrint MsgConnected])
              ++ evs ++ [EPrint (MsgImportFailed e); ERollback (next_conn st)]).
      rewrite <- !app_assoc. reflexivity.
    + eexists. rewrite app_assoc. reflexivity.
  - intros c st. unfold bind.
    destruct (verify_import c st) as [[evs st1] [[]|e]]; simpl_out;
      [|discriminate].
    intros _. exists evs. reflexivity.
Qed.

(* ===================================================================== *)
(** ** Rows with an empty timestamp cell *)
(* ===================================================================== *)

Lemma tuple_time k ts sid r tup :
  tuple_of k ts sid r = Ok tup -> reading_time tup = ts.
Proof.
  destruct k; cbn [tuple_of];
    unfold current_tuple, environmental_tuple, temperature_tuple; intros H;
    repeat match type of H with
    | rbind ?x _ = Ok _ => destruct x; cbn [rbind] in H; [|discriminate]
    end;
    injection H as <-; reflexivity.
Qed.

Lemma tuples_elem f sid rows r tup :
  r ∈ rows -> row_tuple f sid r = Ok (Some tup) -> tup ∈ tuples f sid rows.
Proof.
  intros Hin Hr. unfold tuples. apply list_elem_of_omap.
  exists r. split; [exact Hin|]. now rewrite Hr.
Qed.

(* ===================================================================== *)
(** ** The transformers against the table of their columns *)
(* ===================================================================== *)

(** X1: each of the three transformers evaluates the measurement columns
    of its sensor type from left to right, in the column order of its
    INSERT statement: it raises what the first column that raises does
    (a missing column its KeyError, a failed cast its error), and
    otherwise returns the tuple of its own type that carries the
    timestamp, the sensor id and the cast fields in that order. *)
Theorem tuple_of_fields k ts sid r :
  rmap (fun tup => (reading_kind tup, reading_time tup, reading_sensor_id tup,
                    measurements tup))
       (tuple_of k ts sid r)
  = rmap (fun vs => (k, ts, sid, vs)) (cast_fields r (fields k)).
Proof.
  destruct k; cbn [tuple_of fields cast_fields];
    unfold current_tuple, environmental_tuple, temperature_tuple, cast_field;
    cbn [fst snd];
    repeat (match goal with
            | |- context [int_or_none r ?l] => destruct (int_or_none r l)
            | |- context [float_or_none r ?l] => destruct (float_or_none r l)
            end; cbn [rmap rbind]; try reflexivity).
Qed.

(* ===================================================================== *)
(** ** The registry lookup *)
(* ===================================================================== *)

Lemma select_sensor_id_first code db :
  match select_sensor_id code db with
  | Some sid =>
      exists before after,
        sensors db = before ++ (code, sid) :: after /\ code ∉ before.*1
  | None => code ∉ (sensors db).*1
  end.
Proof.
  unfold select_sensor_id. generalize (sensors db) as l.
  induction l as [|[c i] l IH]; cbn [find fst snd].
  - apply not_elem_of_nil.
  - destruct (String.eqb_spec c code) as [->|Hne].
    + exists [], l. split; [reflexivity|apply not_elem_of_nil].
    + destruct (find (fun p => String.eqb (fst p) code) l) as [p|].
      * destruct IH as (before & after & -> & Hnot).
        exists ((c, i) :: before), after. split; [reflexivity|].
        cbn. apply not_elem_of_cons. split; [congruence|exact Hnot].
      * cbn. apply not_elem_of_cons. split; [congruence|exact IH].
Qed.

(** X2: when the server executes the query, [get_sensor_id] returns the
    id of the first registry row whose code is exactly the one asked
    for, and raises ValueError exactly when no row has that code; it
    leaves the session as it is. *)
Theorem get_sensor_id_lookup conn code st :
  db_raises (ESelectSensorId conn code) = false ->
  let o := get_sensor_id conn code st in
  final o = st
  /\ events o = [ESelectSensorId conn code]
  /\ match outcome o with
     | Ok sid =>
         exists before after,
           sensors (working st) = before ++ (code, sid) :: after
           /\ code ∉ before.*1
     | Raise e => e = ValueError /\ code ∉ (sensors (working st)).*1
     end.
Proof.
  intros Hdb. cbv zeta. rewrite get_sensor_id_eq, Hdb. simpl_out.
  split; [reflexivity|]. split; [reflexivity|].
  pose proof (select_sensor_id_first code (working st)) as H.
  destruct (select_sensor_id code (working st)); [exact H|].
  split; [reflexivity|exact H].
Qed.

(* ===================================================================== *)
(** ** A loop that completes *)
(* ===================================================================== *)

Lemma unparseable_cons r rest :
  unparseable (r :: rest)
  = ((if parseable r then 0 else 1) + unparseable rest)%nat.
Proof. unfold unparseable. cbn. destruct (parseable r); reflexivity. Qed.

Lemma parseable_true r c ts :
  getitem r FECHA = Ok c -> pd_to_datetime c = Some ts -> parseable r = true.
Proof.
  intros Hget Hts. unfold parseable. rewrite Hget, Hts.
  apply bool_decide_eq_true_2. eauto.
Qed.

Lemma parseable_false r c :
  getitem r FECHA = Ok c -> pd_to_datetime c = None -> parseable r = false.
Proof.
  intros Hget Hts. unfold parseable. rewrite Hget, Hts.
  apply bool_decide_eq_false_2. intros [? [=]].
Qed.

(** When the loop has gone through all the rows, none of them raised,
    every tuple is in a flushed batch or in the buffer, in row order, the
    skip counter has gone up by the number of rows whose timestamp does
    not parse, and nothing was said about skipped rows yet. *)
Lemma import_rows_completed t f conn sid bs total rows :
  forall idx data skipped st evs st' d s,
    import_rows t f conn sid bs total idx rows data skipped st
      = (evs, st', Ok (d, s)) ->
    Forall (fun r => is_Ok (row_tuple f sid r) = true) rows
    /\ concat (batches evs) ++ d = data ++ tuples f sid rows
    /\ s = (skipped + unparseable rows)%nat
    /\ List.filter is_skip_report evs = [].
Proof.
  induction rows as [|r rest IH]; intros idx data skipped st evs st' d s Hrun.
  - cbn in Hrun. injection Hrun as <- <- <- <-.
    split; [constructor|]. split; [cbn; now rewrite app_nil_r|].
    split; [unfold unparseable; cbn; lia|reflexivity].
  - rewrite import_rows_cons, import_row_eq in Hrun.
    rewrite tuples_cons, unparseable_cons. unfold row_tuple at 2.
    destruct (getitem r FECHA) as [c|e] eqn:Hget; [|discriminate].
    cbn [rbind].
    destruct (pd_to_datetime c) as [ts|] eqn:Hts.
    + rewrite (parseable_true _ _ _ Hget Hts).
      destruct (f ts sid r) as [tup|e] eqn:Hf; [|discriminate].
      assert (Hr : is_Ok (row_tuple f sid r) = true)
        by (unfold row_tuple; rewrite Hget; cbn; now rewrite Hts, Hf).
      cbn [rbind].
      destruct (Z.of_nat (length (data ++ [tup])) >=? bs).
      * destruct (bs <=? 0); [discriminate|].
        destruct (db_raises (EExecuteBatch conn t (data ++ [tup])));
          [discriminate|].
        cbn [fst snd] in Hrun.
        destruct (import_rows t f conn sid bs total (S idx) rest [] skipped
                    (flushed t (data ++ [tup]) st))
          as [[ev' st2] res] eqn:Hrest.
        injection Hrun as <- <- ->.
        destruct (IH _ _ _ _ _ _ _ _ Hrest) as (Hall & Hcat & Hs & Hsk).
        split; [constructor; assumption|].
        cbn [app]. rewrite batches_flush. cbn [concat].
        split; [rewrite <- !app_assoc, Hcat; reflexivity|].
        split; [lia|]. cbn. exact Hsk.
      * cbn [fst snd] in Hrun.
        destruct (import_rows t f conn sid bs total (S idx) rest (data ++ [tup])
                    skipped st) as [[ev' st2] res] eqn:Hrest.
        injection Hrun as <- <- ->.
        destruct (IH _ _ _ _ _ _ _ _ Hrest) as (Hall & Hcat & Hs & Hsk).
        split; [constructor; assumption|].
        split; [rewrite Hcat, <- app_assoc; reflexivity|].
        split; [lia|exact Hsk].
    + rewrite (parseable_false _ _ Hget Hts).
      assert (Hr : is_Ok (row_tuple f sid r) = true)
        by (unfold row_tuple; rewrite Hget; cbn; now rewrite Hts).
      cbn [fst snd] in Hrun.
      destruct (import_rows t f conn sid bs total (S idx) rest data (S skipped) st)
        as [[ev' st2] res] eqn:Hrest.
      injection Hrun as <- <- ->.
      destruct (IH _ _ _ _ _ _ _ _ Hrest) as (Hall & Hcat & Hs & Hsk).
      split; [constructor; assumption|].
      cbn [app]. rewrite batches_print.
      split; [exact Hcat|]. split; [lia|]. cbn. exact Hsk.
Qed.

(* ===================================================================== *)
(** ** A sheet that completes *)
(* ===================================================================== *)

Lemma insert_into_nil t db : insert_into t [] db = db.
Proof. destruct t, db; reflexivity. Qed.

Lemma insert_into_app t a b db :
  insert_into t (a ++ b) db = insert_into t b (insert_into t a db).
Proof.
  destruct t; unfold insert_into, insert_rows; cbn; rewrite ?fold_left_app;
    reflexivity.
Qed.

(** Flushes that all go to one table amount to one insert of their rows. *)
Lemma replay_one_table t evs db :
  Forall (fun fl => fst fl = t) (flushes evs) ->
  replay evs db = insert_into t (concat (batches evs)) db.
Proof.
  unfold replay, batches. generalize (flushes evs) as fs. intros fs H.
  revert db. induction H as [|[t' rs] fs Ht _ IH]; intros db; cbn.
  - symmetry. apply insert_into_nil.
  - cbn in Ht. subst t'. rewrite IH, insert_into_app. reflexivity.
Qed.

Lemma skip_report_events skipped sheet :
  List.filter is_skip_report
    ((if (0 <? skipped)%nat then [EPrint (MsgSkipped skipped)] else [])
     ++ [EPrint (MsgSheetCompleted sheet)])
  = if (0 <? skipped)%nat then [EPrint (MsgSkipped skipped)] else [].
Proof. destruct (0 <? skipped)%nat; reflexivity. Qed.

(** What a sheet import that returns has done: found the sensor, gone
    through every row without an exception, flushed the tuples of the
    rows in order, and reported the rows it skipped. *)
Lemma import_sensor_completed t f conn sheet df code bs st :
  let o := import_sensor t f conn sheet df code bs st in
  outcome o = Ok tt ->
  exists sid,
    select_sensor_id code (working st) = Some sid
    /\ Forall (fun r => is_Ok (row_tuple f sid r) = true) df
    /\ concat (batches (events o)) = tuples f sid df
    /\ List.filter is_skip_report (events o)
       = if (0 <? unparseable df)%nat
         then [EPrint (MsgSkipped (unparseable df))] else [].
Proof.
  cbv zeta. rewrite import_sensor_eq.
  destruct (db_raises (ESelectSensorId conn code)); [discriminate|].
  destruct (select_sensor_id code (working st)) as [sid|]; [|discriminate].
  cbv zeta.
  destruct (import_rows t f conn sid bs (length df) 0 df [] 0 st)
    as [[evs st1] [[d s]|e]] eqn:Hrun; [|discriminate].
  destruct (import_rows_completed _ _ _ _ _ _ _ _ _ _ _ _ _ _ _ Hrun)
    as (Hall & Hcat & Hs & Hsk).
  cbn [app Nat.add] in Hcat, Hs. subst s. cbn [fst snd].
  rewrite finish_sheet_eq. cbv zeta.
  destruct d as [|x d].
  - simpl_out. intros _. exists sid. split; [reflexivity|].
    split; [exact Hall|].
    rewrite batches_app, (batches_app evs), batches_report, app_nil_r.
    rewrite List.filter_app, (List.filter_app _ evs), Hsk, skip_report_events.
    rewrite app_nil_r in Hcat. split; [exact Hcat|reflexivity].
  - destruct (bs <=? 0); [discriminate|].
    destruct (db_raises (EExecuteBatch conn t (x :: d))); [discriminate|].
    simpl_out. intros _. exists sid. split; [reflexivity|].
    split; [exact Hall|].
    rewrite batches_app, (batches_app evs), (batches_app [_; _; _]),
      batches_report.
    rewrite List.filter_app, (List.filter_app _ evs),
      (List.filter_app _ [_; _; _]), Hsk, skip_report_events.
    split; [|reflexivity].
    change (batches [ESelectSensorId conn code;
                     EPrint (MsgImporting sheet code (length df))])
      with (@nil (list reading)).
    change (batches [EExecuteBatch conn t (x :: d); ECommit conn;
                     EPrint (MsgFinalBatch (length (x :: d)))])
      with [x :: d].
    cbn [app]. rewrite concat_app. cbn [concat]. rewrite app_nil_r. exact Hcat.
Qed.

Lemma importer_completed_result k conn sheet df code bs st sid :
  synced st ->
  let o := importer_of k conn sheet df code bs st in
  concat (batches (events o)) = tuples (tuple_of k) sid df ->
  synced (final o)
  /\ committed (final o)
     = insert_into (table_of k) (tuples (tuple_of k) sid df) (committed st).
Proof.
  intros Hs o Hcat.
  destruct (inner_importer_of conn k sheet df code bs st Hs) as (Hs' & Hc & _).
  fold o in Hs', Hc. split; [exact Hs'|].
  rewrite Hc, <- Hcat. apply replay_one_table.
  subst o. rewrite importer_of_eq. apply flushes_import_sensor.
Qed.

(** X3: a sheet import that returns has accounted for every row of the
    sheet, whatever the batch size: the flushed batches hold the tuples
    of the rows in row order, the rows in them and the rows whose
    timestamp does not parse add up to the rows of the sheet, and the
    skip report is printed exactly when some row was skipped, once, with
    their number. *)
Theorem completed_sheet_accounts_rows k conn sheet df code bs st :
  let o := importer_of k conn sheet df code bs st in
  outcome o = Ok tt ->
  exists sid,
    select_sensor_id code (working st) = Some sid
    /\ concat (batches (events o)) = tuples (tuple_of k) sid df
    /\ (length (concat (batches (events o))) + unparseable df = length df)%nat
    /\ List.filter is_skip_report (events o)
       = (if (0 <? unparseable df)%nat
          then [EPrint (MsgSkipped (unparseable df))] else [])
    /\ (forall n, EPrint (MsgSkipped n) ∈ events o
                  <-> n = unparseable df /\ (0 < n)%nat).
Proof.
  cbv zeta. rewrite importer_of_eq. intros Hout.
  destruct (import_sensor_completed _ _ _ _ _ _ _ _ Hout)
    as (sid & Hsel & Hall & Hcat & Hsk).
  exists sid. split; [exact Hsel|]. split; [exact Hcat|].
  split.
  { rewrite Hcat, (tuples_length_parseable _ _ _ Hall). apply filter_length. }
  split; [exact Hsk|].
  intros n. rewrite list_elem_of_In.
  assert (Hiff : In (EPrint (MsgSkipped n))
                   (events (import_sensor (table_of k) (tuple_of k) conn sheet
                              df code bs st))
                 <-> In (EPrint (MsgSkipped n))
                       (List.filter is_skip_report
                          (events (import_sensor (table_of k) (tuple_of k) conn
                                     sheet df code bs st)))).
  { rewrite filter_In. cbn. tauto. }
  rewrite Hiff, Hsk.
  destruct (Nat.ltb_spec 0 (unparseable df)) as [Hpos|Hz]; cbn.
  - split; [intros [[= <-]|[]]; split; [reflexivity|exact Hpos]
           |intros [-> _]; now left].
  - split; [intros []|intros [-> Hn]; lia].
Qed.

(** X4: a sheet import that returns leaves the tuples of the sheet's
    parseable rows inserted, in row order and under the conflict rule,
    into the table of the sheet's sensor type, committed, with no
    transaction open; the batch size does not show in the result. *)
Theorem completed_sheet_result k conn sheet df code bs st :
  synced st ->
  let o := importer_of k conn sheet df code bs st in
  outcome o = Ok tt ->
  exists sid,
    select_sensor_id code (committed st) = Some sid
    /\ committed (final o)
       = insert_into (table_of k) (tuples (tuple_of k) sid df) (committed st)
    /\ working (final o) = committed (final o)
    /\ next_conn (final o) = next_conn st.
Proof.
  intros Hs o Hout. subst o.
  pose proof Hout as Hout'. rewrite importer_of_eq in Hout'.
  destruct (import_sensor_completed _ _ _ _ _ _ _ _ Hout')
    as (sid & Hsel & _ & Hcat & _).
  rewrite <- importer_of_eq in Hcat.
  destruct (importer_completed_result k conn sheet df code bs st sid Hs Hcat)
    as (Hs' & Hc).
  destruct (inner_importer_of conn k sheet df code bs st Hs)
    as (_ & _ & _ & Hn & _).
  exists sid. split; [rewrite <- Hs; exact Hsel|].
  split; [exact Hc|]. split; [exact Hs'|exact Hn].
Qed.

(* ===================================================================== *)
(** ** A workbook that completes *)
(* ===================================================================== *)

Lemma kind_of_type_name k : kind_of_type (type_name k) = Some k.
Proof. destruct k; reflexivity. Qed.

Lemma select_sensor_id_registry code db db' :
  sensors db = sensors db' ->
  select_sensor_id code db = select_sensor_id code db'.
Proof. intros H. unfold select_sensor_id. now rewrite H. Qed.

Lemma sheet_result_sensors s db : sensors (sheet_result s db) = sensors db.
Proof.
  unfold sheet_result. destruct (SENSOR_MAPPING !! s.1) as [info|]; [|reflexivity].
  destruct (kind_of_type (sensor_type info)); [|reflexivity].
  destruct (select_sensor_id (sensor_code info) db); [|reflexivity].
  apply sensors_insert_into.
Qed.

Lemma sheet_ok_registry db db' s :
  sensors db = sensors db' -> sheet_ok db s -> sheet_ok db' s.
Proof.
  intros H. unfold sheet_ok.
  destruct (SENSOR_MAPPING !! s.1) as [info|]; [|trivial].
  intros (k & sid & Hty & Hsel & Hall). exists k, sid.
  rewrite <- (select_sensor_id_registry _ _ _ H). auto.
Qed.

(** The rows a sheet adds to the total of the summary. *)
Lemma import_sheet_completed conn bs s total st evs st' n :
  synced st ->
  import_sheet conn bs s total st = (evs, st', Ok n) ->
  sheet_ok (committed st) s
  /\ committed st' = sheet_result s (committed st)
  /\ synced st'
  /\ next_conn st' = next_conn st
  /\ n = (total + recognised_rows [s])%nat.
Proof.
  intros Hs Hrun. destruct s as [name df].
  unfold sheet_ok, sheet_result, recognised_rows. cbn [fst snd sum_list_with].
  destruct (SENSOR_MAPPING !! name) as [info|] eqn:Hmap.
  2:{ unfold import_sheet in Hrun. cbn [fst snd] in Hrun. rewrite Hmap in Hrun.
      injection Hrun as <- <- <-.
      split; [trivial|]. split; [reflexivity|]. split; [exact Hs|].
      split; [reflexivity|lia]. }
  destruct (mapping_recognized _ _ Hmap) as (k & _ & Hty).
  rewrite (import_sheet_dispatch _ _ _ _ _ _ _ Hmap Hty), bind_eq in Hrun.
  rewrite Hty, kind_of_type_name.
  destruct (importer_of k conn name df (sensor_code info) bs st)
    as [[ev1 st1] [[]|e]] eqn:Himp; [|discriminate].
  injection Hrun as <- <- <-.
  assert (Hout : outcome (importer_of k conn name df (sensor_code info) bs st)
                 = Ok tt) by (rewrite Himp; reflexivity).
  pose proof Hout as Hout'. rewrite importer_of_eq in Hout'.
  destruct (import_sensor_completed _ _ _ _ _ _ _ _ Hout')
    as (sid & Hsel & Hall & Hcat & _).
  rewrite <- importer_of_eq in Hcat. rewrite Hs in Hsel.
  destruct (importer_completed_result k conn name df (sensor_code info) bs st
              sid Hs Hcat) as (Hs' & Hc).
  destruct (inner_importer_of conn k name df (sensor_code info) bs st Hs)
    as (_ & _ & _ & Hn & _).
  rewrite Himp in Hs', Hc, Hn. simpl_out. rewrite Hsel.
  split; [exists k, sid; auto|]. split; [exact Hc|]. split; [exact Hs'|].
  split; [exact Hn|lia].
Qed.

Lemma recognised_rows_cons s xls :
  recognised_rows (s :: xls)
  = (recognised_rows [s] + recognised_rows xls)%nat.
Proof. unfold recognised_rows. cbn. lia. Qed.

(** A sheet loop that returns has seen every sheet go through and leaves
    the database the sheets give one after the other. *)
Lemma import_sheets_completed conn bs xls :
  forall total st evs st' n,
    synced st ->
    import_sheets conn bs xls total st = (evs, st', Ok n) ->
    Forall (sheet_ok (committed st)) xls
    /\ committed st' = workbook_result xls (committed st)
    /\ synced st'
    /\ next_conn st' = next_conn st
    /\ n = (total + recognised_rows xls)%nat.
Proof.
  induction xls as [|s xls IH]; intros total st evs st' n Hs Hrun.
  - cbn in Hrun. injection Hrun as <- <- <-.
    split; [constructor|]. split; [reflexivity|]. split; [exact Hs|].
    split; [reflexivity|]. unfold recognised_rows. cbn. lia.
  - cbn [import_sheets] in Hrun. rewrite bind_eq in Hrun.
    destruct (import_sheet conn bs s total st) as [[ev1 st1] [n1|e]] eqn:H1;
      [|discriminate].
    destruct (import_sheets conn bs xls n1 st1) as [[ev2 st2] r2] eqn:H2.
    injection Hrun as <- <- ->.
    destruct (import_sheet_completed _ _ _ _ _ _ _ _ Hs H1)
      as (Hok & Hc1 & Hs1 & Hn1 & Ht1).
    destruct (IH _ _ _ _ _ Hs1 H2) as (Hall & Hc2 & Hs2 & Hn2 & Ht2).
    split.
    { constructor; [exact Hok|].
      eapply Forall_impl; [exact Hall|]. intros s'.
      apply sheet_ok_registry. rewrite Hc1. apply sheet_result_sensors. }
    split; [cbn; rewrite Hc2, Hc1; reflexivity|]. split; [exact Hs2|].
    split; [congruence|]. rewrite recognised_rows_cons. lia.
Qed.

(** With a server that rejects nothing and a batch size of at least 1, a
    sheet that can go through does. *)
Lemma import_sheet_goes_through conn bs s total st :
  accepts_all -> 1 <= bs -> synced st ->
  sheet_ok (committed st) s ->
  exists n, outcome (import_sheet conn bs s total st) = Ok n.
Proof.
  intros Hdb Hbs Hs Hok. destruct s as [name df].
  unfold sheet_ok in Hok. cbn [fst snd] in Hok.
  destruct (SENSOR_MAPPING !! name) as [info|] eqn:Hmap.
  2:{ unfold import_sheet. cbn [fst snd]. rewrite Hmap. eexists. reflexivity. }
  destruct Hok as (k & sid & Hty & Hsel & Hall).
  rewrite (import_sheet_dispatch _ _ _ _ _ _ _ Hmap Hty), bind_eq.
  rewrite <- Hs in Hsel.
  destruct (importer_batches k (Z.to_nat bs) conn name df (sensor_code info) sid
              st Hdb ltac:(lia) Hsel Hall) as (Hout & _).
  rewrite Z2Nat.id in Hout by lia.
  destruct (importer_of k conn name df (sensor_code info) bs st)
    as [[ev1 st1] [[]|e]]; simpl_out; [|discriminate].
  eexists. reflexivity.
Qed.

Lemma import_sheets_go_through conn bs xls :
  accepts_all -> 1 <= bs ->
  forall total st,
    synced st ->
    Forall (sheet_ok (committed st)) xls ->
    exists n, outcome (import_sheets conn bs xls total st) = Ok n.
Proof.
  intros Hdb Hbs. induction xls as [|s xls IH]; intros total st Hs Hall.
  - eexists. reflexivity.
  - apply Forall_cons in Hall as [Hok Hall].
    cbn [import_sheets]. rewrite bind_eq.
    destruct (import_sheet_goes_through conn bs s total st Hdb Hbs Hs Hok)
      as [n1 H1].
    destruct (import_sheet conn bs s total st) as [[ev1 st1] [n1'|e]] eqn:Hrun;
      simpl_out; [|discriminate].
    destruct (import_sheet_completed _ _ _ _ _ _ _ _ Hs Hrun)
      as (_ & Hc1 & Hs1 & _).
    destruct (IH n1' st1 Hs1) as [n2 H2].
    { eapply Forall_impl; [exact Hall|]. intros s'.
      apply sheet_ok_registry. rewrite Hc1. symmetry. apply sheet_result_sensors. }
    destruct (import_sheets conn bs xls n1' st1) as [[ev2 st2] r2].
    simpl_out. eauto.
Qed.

(* ===================================================================== *)
(** ** Runs that complete *)
(* ===================================================================== *)

Lemma print_summary_eq w n st :
  print_summary w n st =
  if elapsed_zero w then
    ([EPrint (MsgSummaryRows n)], st, Raise ZeroDivisionError)
  else
    ([EPrint (MsgSummaryRows n); EPrint MsgSummaryRate; EPrint MsgAllImported],
     st, Ok tt).
Proof. unfold print_summary, bind. destruct (elapsed_zero w); reflexivity. Qed.

(** [import_all_data] once the sheet loop has returned. *)
Lemma import_all_data_sheets_done w path bs xls st evs st1 n :
  files w !! path = Some xls ->
  connect_ok w (next_conn st) = true ->
  import_sheets (next_conn st) bs xls 0 (opened st) = (evs, st1, Ok n) ->
  import_all_data w path bs st =
  let c := next_conn st in
  let head := [EPrint (MsgReadingFile path); EPrint (MsgFoundSheets (length xls));
               EPrint MsgConnecting; EConnect c; EPrint MsgConnected] in
  if elapsed_zero w then
    (head ++ evs ++ [EPrint (MsgSummaryRows n);
                     EPrint (MsgImportFailed ZeroDivisionError);
                     ERollback c; EClose c],
     closed st1, Raise (SystemExit 1))
  else
    (head ++ evs ++ [EPrint (MsgSummaryRows n); EPrint MsgSummaryRate;
                     EPrint MsgAllImported; EClose c],
     closed st1, Ok tt).
Proof.
  intros Hfile Hconn Hrun.
  rewrite (import_all_data_eq _ _ _ _ _ Hfile), Hconn. cbv zeta.
  unfold import_body. rewrite bind_eq, Hrun, print_summary_eq.
  destruct (elapsed_zero w); cbn [is_Exception app];
    rewrite <- ?app_assoc; reflexivity.
Qed.

(** What an import that returns has done. *)
Lemma import_all_data_completed w path bs xls st :
  files w !! path = Some xls ->
  synced st ->
  let o := import_all_data w path bs st in
  outcome o = Ok tt ->
  connect_ok w (next_conn st) = true
  /\ elapsed_zero w = false
  /\ Forall (sheet_ok (committed st)) xls
  /\ committed (final o) = workbook_result xls (committed st)
  /\ synced (final o)
  /\ next_conn (final o) = S (next_conn st)
  /\ EPrint (MsgSummaryRows (recognised_rows xls)) ∈ events o.
Proof.
  intros Hfile Hs o Hout. subst o.
  destruct (connect_ok w (next_conn st)) eqn:Hconn.
  2:{ rewrite (import_all_data_eq _ _ _ _ _ Hfile), Hconn in Hout.
      discriminate Hout. }
  destruct (import_sheets (next_conn st) bs xls 0 (opened st))
    as [[evs st1] [n|e]] eqn:Hrun.
  2:{ rewrite (import_all_data_eq _ _ _ _ _ Hfile), Hconn in Hout.
      cbv zeta in Hout. unfold import_body in Hout.
      rewrite bind_eq, Hrun in Hout.
      destruct (is_Exception e); discriminate Hout. }
  rewrite (import_all_data_sheets_done _ _ _ _ _ _ _ _ Hfile Hconn Hrun) in *.
  cbv zeta in *.
  destruct (elapsed_zero w); [discriminate Hout|].
  assert (Ho : synced (opened st)) by reflexivity.
  destruct (import_sheets_completed _ _ _ _ _ _ _ _ Ho Hrun)
    as (Hall & Hc & Hs1 & Hn & Ht).
  simpl_out. cbn [opened committed next_conn] in *.
  split; [reflexivity|]. split; [reflexivity|]. split; [exact Hall|].
  split; [exact Hc|]. split; [reflexivity|]. split; [exact Hn|].
  subst n. rewrite !elem_of_app. right. right. cbn [Nat.add]. left.
Qed.

(** With a server that rejects nothing and a batch size of at least 1,
    an import over sheets that can go through returns, unless the clock
    stands still. *)
Lemma import_all_data_goes_through w path bs xls st :
  accepts_all -> 1 <= bs ->
  files w !! path = Some xls ->
  synced st ->
  connect_ok w (next_conn st) = true ->
  elapsed_zero w = false ->
  Forall (sheet_ok (committed st)) xls ->
  outcome (import_all_data w path bs st) = Ok tt.
Proof.
  intros Hdb Hbs Hfile Hs Hconn Hclock Hall.
  destruct (import_sheets_go_through (next_conn st) bs xls Hdb Hbs 0%nat
              (opened st) eq_refl Hall) as [n Hn].
  destruct (import_sheets (next_conn st) bs xls 0 (opened st))
    as [[evs st1] [n'|e]] eqn:Hrun; simpl_out; [|discriminate].
  rewrite (import_all_data_sheets_done _ _ _ _ _ _ _ _ Hfile Hconn Hrun), Hclock.
  reflexivity.
Qed.

Lemma verify_import_Ok c st :
  outcome (verify_import c st) = Ok tt ->
  forall t, db_raises (ESelectCount c t) = false.
Proof.
  unfold verify_import, select_count, execute, bind.
  destruct (db_raises (ESelectCount c Sensors)) eqn:H1; [discriminate|].
  destruct (db_raises (ESelectCount c CurrentReadings)) eqn:H2; [discriminate|].
  destruct (db_raises (ESelectCount c EnvironmentalReadings)) eqn:H3;
    [discriminate|].
  destruct (db_raises (ESelectCount c TemperatureReadings)) eqn:H4;
    [discriminate|].
  intros _ []; assumption.
Qed.

(** The verification session: it leaves the committed data as they are,
    and when it returns it has printed the counts of those data. *)
Lemma verify_session_completed w st :
  synced st ->
  let o := (do conn <- connect_db w; verify_import conn;; close conn) st in
  committed (final o) = committed st
  /\ (outcome o = Ok tt ->
      connect_ok w (next_conn st) = true
      /\ (forall t, db_raises (ESelectCount (next_conn st) t) = false)
      /\ working (final o) = committed st
      /\ events o
         = [EPrint MsgConnecting; EConnect (next_conn st); EPrint MsgConnected]
           ++ verification (next_conn st) (committed st)).
Proof.
  intros Hs. cbv zeta. rewrite verify_session_eq.
  destruct (connect_ok w (next_conn st)); [|split; [reflexivity|discriminate]].
  cbv zeta.
  destruct (verify_import_reads (next_conn st) (opened st))
    as (evs & res & Hrun & _ & _ & Hres).
  pose proof (verify_import_Ok (next_conn st) (opened st)) as Hok.
  rewrite Hrun in *. simpl_out.
  destruct Hres as [[-> _] | ->]; [|split; [reflexivity|discriminate]].
  simpl_out. split; [reflexivity|]. intros _.
  specialize (Hok eq_refl).
  split; [reflexivity|]. split; [exact Hok|]. split; [reflexivity|].
  pose proof (verify_import_eq (next_conn st) (opened st) Hok) as Heq.
  rewrite bind_eq, Hrun in Heq. cbn in Heq. injection Heq as Heq.
  rewrite Heq. reflexivity.
Qed.

Lemma verify_session_goes_through w st :
  connect_ok w (next_conn st) = true ->
  (forall t, db_raises (ESelectCount (next_conn st) t) = false) ->
  outcome ((do conn <- connect_db w; verify_import conn;; close conn) st) = Ok tt.
Proof.
  intros Hconn Hdb. rewrite verify_session_eq, Hconn. cbv zeta.
  pose proof (verify_import_eq (next_conn st) (opened st) Hdb) as Heq.
  rewrite bind_eq in Heq.
  destruct (verify_import (next_conn st) (opened st)) as [[evs st1] [[]|e]];
    [reflexivity|discriminate Heq].
Qed.

Lemma exit_status_main w a st :
  exit_status (outcome (main w a st)) = 0 -> outcome (main w a st) = Ok tt.
Proof.
  intros H. destruct (main_outcome w a st) as [Hok|H1]; [exact Hok|].
  rewrite H in H1. discriminate.
Qed.

(** An import run that exits with status 0, taken apart. *)
Lemma run_import_completed w a db :
  verify_only a = false ->
  outcome (run w a db) = Ok tt ->
  let imp := import_all_data w (excel_file a) (batch_size a) (initial_state db) in
  outcome imp = Ok tt
  /\ committed (final (run w a db)) = committed (final imp)
  /\ working (final (run w a db)) = committed (final imp)
  /\ connect_ok w (next_conn (final imp)) = true
  /\ (forall t, db_raises (ESelectCount (next_conn (final imp)) t) = false)
  /\ events (run w a db)
     = events imp
       ++ [EPrint MsgConnecting; EConnect (next_conn (final imp));
           EPrint MsgConnected]
       ++ verification (next_conn (final imp)) (committed (final imp)).
Proof.
  intros Hmode Hout imp. unfold run, main in *. rewrite Hmode in *.
  rewrite bind_eq in *. fold imp in Hout |- *.
  destruct (closing_import_all_data w (excel_file a) (batch_size a)
              (initial_state db) eq_refl) as (Hs & _).
  fold imp in Hs.
  destruct imp as [[ev1 st1] [[]|e]]; simpl_out; [|discriminate].
  pose proof (verify_session_completed w st1 Hs) as Hv. cbv zeta in Hv.
  destruct ((do conn <- connect_db w; verify_import conn;; close conn) st1)
    as [[ev2 st2] r2]. simpl_out. subst r2.
  destruct Hv as (Hc & Hv). destruct (Hv eq_refl) as (Hconn & Hdb & Hw & Hev).
  split; [reflexivity|]. split; [exact Hc|]. split; [exact Hw|].
  split; [exact Hconn|]. split; [exact Hdb|]. now rewrite Hev.
Qed.

(** X5: an import run that exits with status 0 leaves in the database,
    committed and with no transaction open, what the sheets of the
    workbook give one after the other in workbook order: for every
    recognised sheet the tuples of its parseable rows, inserted in row
    order into the table of its sensor type; every recognised sheet had
    its sensor registered and no row that raises. *)
Theorem successful_import_result w a db xls :
  verify_only a = false ->
  files w !! excel_file a = Some xls ->
  exit_status (outcome (run w a db)) = 0 ->
  committed (final (run w a db)) = workbook_result xls db
  /\ working (final (run w a db)) = workbook_result xls db
  /\ Forall (sheet_ok db) xls.
Proof.
  intros Hmode Hfile Hexit. apply exit_status_main in Hexit.
  destruct (run_import_completed w a db Hmode Hexit)
    as (Himp & Hc & Hw & _).
  destruct (import_all_data_completed w (excel_file a) (batch_size a) xls
              (initial_state db) Hfile eq_refl Himp)
    as (_ & _ & Hall & Hres & _).
  rewrite Hc, Hw. auto.
Qed.

(** What a successful import run needed. *)
Lemma run_import_succeeded w a db :
  verify_only a = false ->
  exit_status (outcome (run w a db)) = 0 ->
  exists xls,
    files w !! excel_file a = Some xls
    /\ Forall (sheet_ok db) xls
    /\ connect_ok w 0%nat = true
    /\ connect_ok w 1%nat = true
    /\ elapsed_zero w = false.
Proof.
  intros Hmode Hexit. apply exit_status_main in Hexit.
  destruct (run_import_completed w a db Hmode Hexit)
    as (Himp & _ & _ & Hconn1 & _).
  destruct (files w !! excel_file a) as [xls|] eqn:Hfile.
  2:{ rewrite (import_all_data_missing _ _ _ _ Hfile) in Himp.
      discriminate Himp. }
  destruct (import_all_data_completed w (excel_file a) (batch_size a) xls
              (initial_state db) Hfile eq_refl Himp)
    as (Hconn0 & Hclock & Hall & _ & _ & Hn & _).
  rewrite Hn in Hconn1. exists xls. auto.
Qed.

(** What is enough for an import run to succeed. *)
Lemma run_import_succeeds w a db xls :
  accepts_all -> 1 <= batch_size a -> verify_only a = false ->
  files w !! excel_file a = Some xls ->
  Forall (sheet_ok db) xls ->
  connect_ok w 0%nat = true ->
  connect_ok w 1%nat = true ->
  elapsed_zero w = false ->
  outcome (run w a db) = Ok tt.
Proof.
  intros Hdb Hbs Hmode Hfile Hall Hconn0 Hconn1 Hclock.
  pose proof (import_all_data_goes_through w (excel_file a) (batch_size a) xls
                (initial_state db) Hdb Hbs Hfile eq_refl Hconn0 Hclock Hall)
    as Himp.
  destruct (import_all_data_completed w (excel_file a) (batch_size a) xls
              (initial_state db) Hfile eq_refl Himp)
    as (_ & _ & _ & _ & Hs & Hn & _).
  unfold run, main. rewrite Hmode, bind_eq.
  destruct (import_all_data w (excel_file a) (batch_size a) (initial_state db))
    as [[ev1 st1] [[]|e]]; simpl_out; [|discriminate].
  cbn [initial_state next_conn] in Hn.
  assert (Hv : outcome ((do conn <- connect_db w;
                         verify_import conn;; close conn) st1) = Ok tt).
  { apply verify_session_goes_through; [now rewrite Hn|]. intros t. apply Hdb. }
  destruct ((do conn <- connect_db w; verify_import conn;; close conn) st1)
    as [[ev2 st2] r2]. simpl_out. now subst r2.
Qed.

(** X6: for an input file that pandas opens and reads as the workbook
    [xls], with a server that rejects no statement and a batch size of
    at least 1, an import run exits with status 0 exactly when both
    connection attempts succeed, every recognised sheet has its sensor
    registered and no row that raises, and the clock has advanced
    between the start and the summary.  (A file that exists without
    being a workbook pandas can read is outside the model.) *)
Theorem run_succeeds_iff w a db xls :
  accepts_all -> 1 <= batch_size a -> verify_only a = false ->
  files w !! excel_file a = Some xls ->
  exit_status (outcome (run w a db)) = 0
  <-> Forall (sheet_ok db) xls
      /\ connect_ok w 0%nat = true
      /\ connect_ok w 1%nat = true
      /\ elapsed_zero w = false.
Proof.
  intros Hdb Hbs Hmode Hfile. split.
  - intros Hexit.
    destruct (run_import_succeeded w a db Hmode Hexit)
      as (xls' & Hfile' & Hall & Hconn0 & Hconn1 & Hclock).
    assert (xls' = xls) as -> by congruence. auto.
  - intros (Hall & Hconn0 & Hconn1 & Hclock).
    rewrite (run_import_succeeds w a db xls Hdb Hbs Hmode Hfile Hall Hconn0
               Hconn1 Hclock).
    reflexivity.
Qed.

(** X7: the batch size changes how often the importer flushes, not what
    it imports: with a server that rejects no statement, two import runs
    over the same file and database with batch sizes of at least 1
    succeed or fail together, and when they succeed they leave the same
    database. *)
Theorem batch_size_irrelevant w a a' db :
  accepts_all ->
  1 <= batch_size a -> 1 <= batch_size a' ->
  verify_only a = false -> verify_only a' = false ->
  excel_file a' = excel_file a ->
  (exit_status (outcome (run w a db)) = 0
   <-> exit_status (outcome (run w a' db)) = 0)
  /\ (exit_status (outcome (run w a db)) = 0 ->
      committed (final (run w a' db)) = committed (final (run w a db))).
Proof.
  intros Hdb Hbs Hbs' Hmode Hmode' Hfile.
  assert (Hiff : exit_status (outcome (run w a db)) = 0
                 <-> exit_status (outcome (run w a' db)) = 0).
  { split; intros Hexit.
    - destruct (run_import_succeeded w a db Hmode Hexit)
        as (xls & Hf & Hall & Hc0 & Hc1 & Hclock).
      rewrite <- Hfile in Hf.
      now rewrite (run_import_succeeds w a' db xls Hdb Hbs' Hmode' Hf Hall
                     Hc0 Hc1 Hclock).
    - destruct (run_import_succeeded w a' db Hmode' Hexit)
        as (xls & Hf & Hall & Hc0 & Hc1 & Hclock).
      rewrite Hfile in Hf.
      now rewrite (run_import_succeeds w a db xls Hdb Hbs Hmode Hf Hall
                     Hc0 Hc1 Hclock). }
  split; [exact Hiff|]. intros Hexit.
  pose proof (proj1 Hiff Hexit) as Hexit'.
  apply exit_status_main in Hexit, Hexit'.
  destruct (run_import_completed w a db Hmode Hexit) as (Himp & Hc & _).
  destruct (run_import_completed w a' db Hmode' Hexit') as (Himp' & Hc' & _).
  destruct (files w !! excel_file a) as [xls|] eqn:Hf.
  2:{ rewrite (import_all_data_missing _ _ _ _ Hf) in Himp. discriminate Himp. }
  destruct (import_all_data_completed w (excel_file a) (batch_size a) xls
              (initial_state db) Hf eq_refl Himp) as (_ & _ & _ & Hres & _).
  rewrite <- Hfile in Hf.
  destruct (import_all_data_completed w (excel_file a') (batch_size a') xls
              (initial_state db) Hf eq_refl Himp') as (_ & _ & _ & Hres' & _).
  rewrite Hc, Hc', Hres, Hres'. reflexivity.
Qed.

(** X8: the total of the summary counts the rows of the sheets, not the
    rows inserted: an import run that exits with status 0 has printed as
    total the number of rows of the recognised sheets of the workbook,
    the rows skipped for their timestamp and the rows the conflict rule
    ignores included; unknown sheets add nothing. *)
Theorem summary_counts_sheet_rows w a db xls :
  verify_only a = false ->
  files w !! excel_file a = Some xls ->
  exit_status (outcome (run w a db)) = 0 ->
  EPrint (MsgSummaryRows (recognised_rows xls)) ∈ events (run w a db)
  /\ forall conn bs total st evs st' n,
       synced st ->
       import_sheets conn bs xls total st = (evs, st', Ok n) ->
       n = (total + recognised_rows xls)%nat.
Proof.
  intros Hmode Hfile Hexit. apply exit_status_main in Hexit.
  destruct (run_import_completed w a db Hmode Hexit)
    as (Himp & _ & _ & _ & _ & Hev).
  destruct (import_all_data_completed w (excel_file a) (batch_size a) xls
              (initial_state db) Hfile eq_refl Himp)
    as (_ & _ & _ & _ & _ & _ & Hin).
  split; [rewrite Hev, elem_of_app; now left|].
  intros conn bs total st evs st' n Hs Hrun.
  now destruct (import_sheets_completed _ _ _ _ _ _ _ _ Hs Hrun)
    as (_ & _ & _ & _ & ->).
Qed.

(** X9: a run that exits with status 0 ends with the verification of
    the database as the run leaves it: on the connection opened last,
    the four counts printed are the numbers of rows of the registry and
    of the three reading tables after the import, the total is the sum
    of the three reading tables, and the connection is closed. *)
Theorem verification_reports_committed w a db :
  exit_status (outcome (run w a db)) = 0 ->
  exists evs c,
    events (run w a db)
    = evs ++ verification c (committed (final (run w a db)))
    /\ c = (if verify_only a then 0 else 1)%nat.
Proof.
  intros Hexit. apply exit_status_main in Hexit.
  destruct (verify_only a) eqn:Hmode.
  - unfold run, main in *. rewrite Hmode in *.
    pose proof (verify_session_completed w (initial_state db) eq_refl) as Hv.
    cbv zeta in Hv. destruct Hv as (Hc & Hv).
    destruct (Hv Hexit) as (_ & _ & _ & Hev).
    rewrite Hev, Hc. eexists _, _. split; reflexivity.
  - destruct (run_import_completed w a db Hmode Hexit)
      as (Himp & Hc & _ & _ & _ & Hev).
    assert (Hn : next_conn (final (import_all_data w (excel_file a)
                                     (batch_size a) (initial_state db)))
                 = 1%nat).
    { destruct (files w !! excel_file a) as [xls|] eqn:Hfile.
      - now destruct (import_all_data_completed w (excel_file a) (batch_size a)
                        xls (initial_state db) Hfile eq_refl Himp)
          as (_ & _ & _ & _ & _ & -> & _).
      - rewrite (import_all_data_missing _ _ _ _ Hfile) in Himp.
        discriminate Himp. }
    rewrite Hev, Hc, Hn, app_assoc. eexists _, _. split; reflexivity.
Qed.

(** X10: the throughput line of the summary divides by the elapsed
    seconds.  When the clock has not advanced since the start of the
    import, that division raises after every sheet has been imported and
    committed: the run is reported as failed and exits with status 1
    without a verification, yet the database holds the whole import. *)
Theorem stalled_clock_fails_after_commit w a db xls :
  accepts_all -> 1 <= batch_size a -> verify_only a = false ->
  files w !! excel_file a = Some xls ->
  connect_ok w 0%nat = true ->
  Forall (sheet_ok db) xls ->
  elapsed_zero w = true ->
  exit_status (outcome (run w a db)) = 1
  /\ committed (final (run w a db)) = workbook_result xls db
  /\ exists evs,
       events (run w a db)
       = evs ++ [EPrint (MsgSummaryRows (recognised_rows xls));
                 EPrint (MsgImportFailed ZeroDivisionError);
                 ERollback 0; EClose 0].
Proof.
  intros Hdb Hbs Hmode Hfile Hconn Hall Hclock.
  destruct (import_sheets_go_through 0%nat (batch_size a) xls Hdb Hbs 0%nat
              (opened (initial_state db)) eq_refl Hall) as [n Hn].
  destruct (import_sheets 0 (batch_size a) xls 0 (opened (initial_state db)))
    as [[evs st1] [n'|e]] eqn:Hrun; simpl_out; [|discriminate].
  assert (Ho : synced (opened (initial_state db))) by reflexivity.
  destruct (import_sheets_completed _ _ _ _ _ _ _ _ Ho Hrun)
    as (_ & Hc & _ & _ & Ht).
  unfold run, main. rewrite Hmode, bind_eq.
  rewrite (import_all_data_sheets_done w (excel_file a) (batch_size a) xls
             (initial_state db) evs st1 n' Hfile Hconn Hrun), Hclock.
  cbv zeta. simpl_out. cbn [initial_state next_conn closed committed].
  split; [reflexivity|]. split; [exact Hc|].
  subst n'. cbn [Nat.add]. eexists. rewrite app_assoc. reflexivity.
Qed.

(* ===================================================================== *)
(** ** Importing twice *)
(* ===================================================================== *)

Lemma absorbed_prefix r stored stored' :
  stored `prefix_of` stored' -> absorbed r stored -> absorbed r stored'.
Proof.
  intros [k ->]. unfold absorbed. rewrite existsb_app. intros ->. reflexivity.
Qed.

Lemma insert_row_absorbs r stored :
  conflicts r r = true -> absorbed r (insert_row r stored).
Proof.
  intros Hr. unfold absorbed, insert_row.
  destruct (existsb (conflicts r) stored) eqn:H; [exact H|].
  rewrite existsb_app. cbn. rewrite Hr. apply orb_true_r.
Qed.

Lemma insert_rows_cons x rs stored :
  insert_rows (x :: rs) stored = insert_rows rs (insert_row x stored).
Proof. reflexivity. Qed.

Lemma insert_rows_absorbs rs :
  (forall r, conflicts r r = true) ->
  forall stored, Forall (fun r => absorbed r (insert_rows rs stored)) rs.
Proof.
  intros Hrefl. induction rs as [|x rs IH]; intros stored; [constructor|].
  rewrite insert_rows_cons. constructor; [|apply IH].
  eapply absorbed_prefix; [apply insert_rows_prefix|].
  apply insert_row_absorbs, Hrefl.
Qed.

Lemma insert_rows_absorbed rs stored :
  Forall (fun r => absorbed r stored) rs -> insert_rows rs stored = stored.
Proof.
  induction 1 as [|x rs Hx _ IH]; [reflexivity|].
  rewrite insert_rows_cons. unfold insert_row. unfold absorbed in Hx.
  rewrite Hx. exact IH.
Qed.

Lemma set_rows_same t db : set_rows t (rows_of t db) db = db.
Proof. destruct t, db; reflexivity. Qed.

Lemma absorbed_flush_noop fl db :
  absorbed_flush fl db -> insert_into (fst fl) (snd fl) db = db.
Proof.
  intros [Ht|Hall]; [rewrite Ht; reflexivity|].
  unfold insert_into. rewrite (insert_rows_absorbed _ _ Hall).
  apply set_rows_same.
Qed.

Lemma absorbed_flush_insert fl t rs db :
  absorbed_flush fl db -> absorbed_flush fl (insert_into t rs db).
Proof.
  intros [Ht|Hall]; [now left|right].
  eapply Forall_impl; [exact Hall|]. intros r.
  apply absorbed_prefix, insert_into_prefix.
Qed.

Lemma absorbed_flush_after fl db :
  (forall r, conflicts r r = true) ->
  absorbed_flush fl (insert_into (fst fl) (snd fl) db).
Proof.
  intros Hrefl. destruct fl as [t rs]. cbn [fst snd].
  destruct t; [now left|right..]; cbn; apply insert_rows_absorbs, Hrefl.
Qed.

Lemma absorbed_flush_fold fl fs :
  forall db,
    absorbed_flush fl db ->
    absorbed_flush fl
      (fold_left (fun acc f => insert_into (fst f) (snd f) acc) fs db).
Proof.
  induction fs as [|f fs IH]; intros db H; [exact H|].
  cbn. apply IH, absorbed_flush_insert, H.
Qed.

Lemma flushes_absorbed_after fs :
  (forall r, conflicts r r = true) ->
  forall db,
    Forall (fun fl =>
              absorbed_flush fl
                (fold_left (fun acc f => insert_into (fst f) (snd f) acc) fs db))
      fs.
Proof.
  intros Hrefl. induction fs as [|fl fs IH]; intros db; [constructor|].
  cbn. constructor; [|apply IH].
  apply absorbed_flush_fold, absorbed_flush_after, Hrefl.
Qed.

Lemma flushes_noop fs db :
  Forall (fun fl => absorbed_flush fl db) fs ->
  fold_left (fun acc f => insert_into (fst f) (snd f) acc) fs db = db.
Proof.
  induction 1 as [|fl fs Hfl _ IH]; [reflexivity|].
  cbn. rewrite (absorbed_flush_noop _ _ Hfl). exact IH.
Qed.

(** Under a constraint that makes a stored row collide with itself,
    flushing the same batches a second time changes nothing. *)
Lemma replay_idempotent evs db :
  (forall r, conflicts r r = true) ->
  replay evs (replay evs db) = replay evs db.
Proof.
  intros Hrefl. unfold replay. apply flushes_noop, flushes_absorbed_after, Hrefl.
Qed.

(** What the loop, the final flush and the sheet loop emit and return
    does not depend on the rows the database holds, only on its
    registry. *)
Lemma import_rows_state_free t f conn sid bs total rows :
  forall idx data skipped st st2,
    events (import_rows t f conn sid bs total idx rows data skipped st)
    = events (import_rows t f conn sid bs total idx rows data skipped st2)
    /\ outcome (import_rows t f conn sid bs total idx rows data skipped st)
       = outcome (import_rows t f conn sid bs total idx rows data skipped st2).
Proof.
  induction rows as [|r rest IH]; intros idx data skipped st st2;
    [split; reflexivity|].
  rewrite !import_rows_cons, !import_row_eq.
  destruct (getitem r FECHA) as [c|e]; [|split; reflexivity].
  destruct (pd_to_datetime c) as [ts|].
  - destruct (f ts sid r) as [tup|e]; [|split; reflexivity].
    destruct (Z.of_nat (length (data ++ [tup])) >=? bs).
    + destruct (bs <=? 0); [split; reflexivity|].
      destruct (db_raises (EExecuteBatch conn t (data ++ [tup])));
        [split; reflexivity|].
      cbn [fst snd].
      specialize (IH (S idx) [] skipped (flushed t (data ++ [tup]) st)
                    (flushed t (data ++ [tup]) st2)).
      destruct (import_rows t f conn sid bs total (S idx) rest [] skipped
                  (flushed t (data ++ [tup]) st)) as [[ev1 s1] r1].
      destruct (import_rows t f conn sid bs total (S idx) rest [] skipped
                  (flushed t (data ++ [tup]) st2)) as [[ev2 s2] r2].
      simpl_out. destruct IH as [-> ->]. split; reflexivity.
    + cbn [fst snd].
      specialize (IH (S idx) (data ++ [tup]) skipped st st2).
      destruct (import_rows t f conn sid bs total (S idx) rest (data ++ [tup])
                  skipped st) as [[ev1 s1] r1].
      destruct (import_rows t f conn sid bs total (S idx) rest (data ++ [tup])
                  skipped st2) as [[ev2 s2] r2].
      simpl_out. destruct IH as [-> ->]. split; reflexivity.
  - cbn [fst snd]. specialize (IH (S idx) data (S skipped) st st2).
    destruct (import_rows t f conn sid bs total (S idx) rest data (S skipped) st)
      as [[ev1 s1] r1].
    destruct (import_rows t f conn sid bs total (S idx) rest data (S skipped) st2)
      as [[ev2 s2] r2].
    simpl_out. destruct IH as [-> ->]. split; reflexivity.
Qed.

Lemma import_sensor_state_free t f conn sheet df code bs st st2 :
  sensors (working st) = sensors (working st2) ->
  events (import_sensor t f conn sheet df code bs st)
  = events (import_sensor t f conn sheet df code bs st2)
  /\ outcome (import_sensor t f conn sheet df code bs st)
     = outcome (import_sensor t f conn sheet df code bs st2).
Proof.
  intros Hreg. rewrite !import_sensor_eq.
  rewrite (select_sensor_id_registry code _ _ Hreg).
  destruct (db_raises (ESelectSensorId conn code)); [split; reflexivity|].
  destruct (select_sensor_id code (working st2)) as [sid|];
    [|split; reflexivity].
  cbv zeta.
  pose proof (import_rows_state_free t f conn sid bs (length df) df 0%nat []
                0%nat st st2) as Hloop.
  destruct (import_rows t f conn sid bs (length df) 0 df [] 0 st)
    as [[ev1 s1] r1].
  destruct (import_rows t f conn sid bs (length df) 0 df [] 0 st2)
    as [[ev2 s2] r2].
  simpl_out. destruct Hloop as [-> ->].
  destruct r2 as [acc|e]; [|split; reflexivity].
  rewrite !finish_sheet_eq. cbv zeta.
  destruct (fst acc) as [|x d]; [split; reflexivity|].
  destruct (bs <=? 0); [split; reflexivity|].
  destruct (db_raises (EExecuteBatch conn t (x :: d))); split; reflexivity.
Qed.

Lemma import_sheet_state_free conn bs s total st st2 :
  sensors (working st) = sensors (working st2) ->
  events (import_sheet conn bs s total st)
  = events (import_sheet conn bs s total st2)
  /\ outcome (import_sheet conn bs s total st)
     = outcome (import_sheet conn bs s total st2).
Proof.
  intros Hreg. destruct s as [name df].
  destruct (SENSOR_MAPPING !! name) as [info|] eqn:Hmap.
  2:{ unfold import_sheet. cbn [fst snd]. rewrite Hmap. split; reflexivity. }
  destruct (mapping_recognized _ _ Hmap) as (k & _ & Hty).
  rewrite (import_sheet_dispatch _ _ _ _ _ _ _ Hmap Hty), !bind_eq,
    importer_of_eq.
  pose proof (import_sensor_state_free (table_of k) (tuple_of k) conn name df
                (sensor_code info) bs st st2 Hreg) as H.
  destruct (import_sensor (table_of k) (tuple_of k) conn name df
              (sensor_code info) bs st) as [[ev1 s1] r1].
  destruct (import_sensor (table_of k) (tuple_of k) conn name df
              (sensor_code info) bs st2) as [[ev2 s2] r2].
  simpl_out. destruct H as [-> ->]. destruct r2 as [[]|e]; split; reflexivity.
Qed.

Lemma import_sheets_state_free conn bs db xls :
  forall total st st2,
    registry_is db st -> registry_is db st2 ->
    events (import_sheets conn bs xls total st)
    = events (import_sheets conn bs xls total st2)
    /\ outcome (import_sheets conn bs xls total st)
       = outcome (import_sheets conn bs xls total st2).
Proof.
  induction xls as [|s xls IH]; intros total st st2 Hr Hr2;
    [split; reflexivity|].
  cbn [import_sheets]. rewrite !bind_eq.
  assert (Hreg : sensors (working st) = sensors (working st2)).
  { destruct Hr as [-> ->], Hr2 as [-> ->]. reflexivity. }
  pose proof (import_sheet_state_free conn bs s total st st2 Hreg) as H.
  pose proof (registry_import_sheet conn bs db s total st Hr) as Hr'.
  pose proof (registry_import_sheet conn bs db s total st2 Hr2) as Hr2'.
  destruct (import_sheet conn bs s total st) as [[ev1 s1] r1].
  destruct (import_sheet conn bs s total st2) as [[ev2 s2] r2].
  simpl_out. destruct H as [-> ->].
  destruct r2 as [n|e]; [|split; reflexivity].
  specialize (IH n s1 s2 Hr' Hr2').
  destruct (import_sheets conn bs xls n s1) as [[ev1' s1'] r1'].
  destruct (import_sheets conn bs xls n s2) as [[ev2' s2'] r2'].
  simpl_out. destruct IH as [-> ->]. split; reflexivity.
Qed.

Lemma import_all_data_state_free w path bs db db' :
  sensors db' = sensors db ->
  events (import_all_data w path bs (initial_state db'))
  = events (import_all_data w path bs (initial_state db))
  /\ outcome (import_all_data w path bs (initial_state db'))
     = outcome (import_all_data w path bs (initial_state db)).
Proof.
  intros Hreg. destruct (files w !! path) as [xls|] eqn:Hfile.
  2:{ rewrite !(import_all_data_missing _ _ _ _ Hfile). split; reflexivity. }
  rewrite !(import_all_data_eq _ _ _ _ _ Hfile). cbn [initial_state next_conn].
  destruct (connect_ok w 0%nat); [|split; reflexivity]. cbv zeta.
  unfold import_body. rewrite !bind_eq.
  pose proof (import_sheets_state_free 0%nat bs db xls 0%nat
                (opened (initial_state db')) (opened (initial_state db))) as H.
  destruct H as [H1 H2]; [split; [reflexivity|exact Hreg]|split; reflexivity|].
  destruct (import_sheets 0 bs xls 0 (opened (initial_state db')))
    as [[ev1 s1] r1].
  destruct (import_sheets 0 bs xls 0 (opened (initial_state db)))
    as [[ev2 s2] r2].
  simpl_out. subst ev1 r1.
  destruct r2 as [n|e].
  - rewrite !print_summary_eq. destruct (elapsed_zero w); split; reflexivity.
  - destruct (is_Exception e); split; reflexivity.
Qed.

Lemma verify_session_flushes w st :
  flushes (events ((do conn <- connect_db w; verify_import conn;; close conn) st))
  = [].
Proof.
  rewrite verify_session_eq.
  destruct (connect_ok w (next_conn st)); [|reflexivity]. cbv zeta.
  destruct (verify_import_reads (next_conn st) (opened st))
    as (evs & res & Hrun & Hfl & _).
  rewrite Hrun. destruct res as [[]|e]; simpl_out;
    rewrite ?flushes_app, ?(flushes_app evs), Hfl; reflexivity.
Qed.

Lemma run_flushes w a db :
  flushes (events (run w a db))
  = if verify_only a then []
    else flushes (events (import_all_data w (excel_file a) (batch_size a)
                            (initial_state db))).
Proof.
  unfold run, main. destruct (verify_only a); [apply verify_session_flushes|].
  rewrite bind_eq.
  destruct (import_all_data w (excel_file a) (batch_size a) (initial_state db))
    as [[ev1 st1] [[]|e]]; simpl_out; [|reflexivity].
  pose proof (verify_session_flushes w st1) as Hv.
  destruct ((do conn <- connect_db w; verify_import conn;; close conn) st1)
    as [[ev2 st2] r2]. simpl_out.
  rewrite flushes_app, Hv, app_nil_r. reflexivity.
Qed.

Lemma run_committed w a db :
  committed (final (run w a db)) = replay (events (run w a db)) db.
Proof.
  now destruct (outer_main w a (initial_state db) eq_refl) as (_ & Hc & _).
Qed.

(** X11: importing twice is importing once.  Under a uniqueness
    constraint that makes a row collide with itself, a second run in the
    same environment, started on the database the first run left, sends
    the same batches and leaves the database as it found it, whether the
    first run succeeded or was aborted. *)
Theorem reimport_idempotent w a db :
  (forall r, conflicts r r = true) ->
  let db1 := committed (final (run w a db)) in
  flushes (events (run w a db1)) = flushes (events (run w a db))
  /\ committed (final (run w a db1)) = db1
  /\ forall t, count_of t (committed (final (run w a db1))) = count_of t db1.
Proof.
  intros Hrefl db1.
  assert (Hreg : sensors db1 = sensors db)
    by (subst db1; rewrite run_committed; apply sensors_replay).
  assert (Hfl : flushes (events (run w a db1)) = flushes (events (run w a db))).
  { rewrite !run_flushes. destruct (verify_only a); [reflexivity|].
    now destruct (import_all_data_state_free w (excel_file a) (batch_size a)
                    db db1 Hreg) as [-> _]. }
  assert (Hc : committed (final (run w a db1)) = db1).
  { rewrite run_committed. unfold replay. rewrite Hfl.
    subst db1. rewrite run_committed. apply replay_idempotent, Hrefl. }
  split; [exact Hfl|]. split; [exact Hc|]. intros t. now rewrite Hc.
Qed.

(* ===================================================================== *)
(** ** Missing columns *)
(* ===================================================================== *)

Lemma field_missing r label ty :
  r !! label = None ->
  match ty with
  | IntField => exists e, int_or_none r label = Raise e
  | FloatField => exists e, float_or_none r label = Raise e
  end.
Proof.
  intros H. unfold int_or_none, float_or_none, cast_or_none, getitem.
  rewrite H. destruct ty; eexists; reflexivity.
Qed.

Lemma tuple_missing_column k label ty r ts sid :
  (label, ty) ∈ fields k ->
  r !! label = None ->
  exists e, tuple_of k ts sid r = Raise e.
Proof.
  intros Hin Hget.
  pose proof (field_missing r label ty Hget) as He.
  apply list_elem_of_In in Hin.
  destruct k; cbn in Hin;
    repeat destruct Hin as [Hin|Hin]; try contradiction;
    inversion Hin; subst label ty;
    destruct He as [e He];
    cbn [tuple_of];
    unfold current_tuple, environmental_tuple, temperature_tuple;
    raise_in_chain He.
Qed.

(** X13: a column that is missing is found at the first access.  A row
    of a recognised sheet without the timestamp column raises the
    KeyError of that column before anything else is looked at; a row
    whose timestamp parses and which lacks one of the measurement
    columns of its sensor type raises as well; either row aborts the
    run.  (A row whose timestamp does not parse is skipped before its
    measurement columns are accessed.) *)
Theorem missing_column_aborts w a db xls name df info k r :
  verify_only a = false ->
  files w !! excel_file a = Some xls ->
  (name, df) ∈ xls ->
  SENSOR_MAPPING !! name = Some info ->
  sensor_type info = type_name k ->
  r ∈ df ->
  (r !! FECHA = None
   \/ exists c ts label ty,
        r !! FECHA = Some c /\ pd_to_datetime c = Some ts
        /\ (label, ty) ∈ fields k /\ r !! label = None) ->
  aborted w (run w a db)
  /\ (r !! FECHA = None ->
      forall t conn sid bs total idx data skipped st,
        import_row t (tuple_of k) conn sid bs total idx r data skipped st
        = ([], st, Raise (KeyError FECHA))).
Proof.
  intros Hmode Hfile Hsheet Hmap Hty Hrow Hmiss. split.
  - apply (run_aborted w a db xls Hmode Hfile).
    apply import_body_raises.
    apply (import_sheets_raises 0%nat (batch_size a) (fun _ => True) xls
             (name, df)); [exact Hsheet|trivial| |trivial].
    intros total st _. apply (import_sheet_raises _ _ _ _ _ info); [exact Hmap|].
    intros k' Hty'.
    assert (k' = k) as -> by
      (rewrite Hty in Hty'; destruct k, k'; cbn in Hty'; congruence).
    rewrite importer_of_eq. apply (import_sensor_raises _ _ _ _ _ _ _ r);
      [exact Hrow|].
    intros sid. unfold row_tuple, getitem.
    destruct Hmiss as [Hts|(c & ts & label & ty & Hget & Hts & Hin & Hlab)].
    + rewrite Hts. eexists. reflexivity.
    + rewrite Hget. cbn [rbind]. rewrite Hts.
      destruct (tuple_missing_column k label ty r ts sid Hin Hlab) as [e He].
      rewrite He. eexists. reflexivity.
  - intros Hts t conn sid bs total idx data skipped st.
    apply import_row_raises. unfold row_tuple, getitem. rewrite Hts. reflexivity.
Qed.

(* ===================================================================== *)
(** ** Tables no sheet of the workbook feeds *)
(* ===================================================================== *)

Lemma rows_of_insert_into_other t t' rs db :
  t' <> t -> rows_of t (insert_into t' rs db) = rows_of t db.
Proof. intros H. destruct t, t'; try reflexivity; congruence. Qed.

Lemma replay_other_tables t evs db :
  Forall (fun fl => fst fl <> t) (flushes evs) ->
  rows_of t (replay evs db) = rows_of t db.
Proof.
  unfold replay. generalize (flushes evs) as fs. intros fs H. revert db.
  induction H as [|fl fs Hfl _ IH]; intros db; [reflexivity|].
  cbn. rewrite IH. apply rows_of_insert_into_other, Hfl.
Qed.

Lemma flushes_import_sheet conn bs name df total st t :
  (forall info k, SENSOR_MAPPING !! name = Some info ->
                  sensor_type info = type_name k -> table_of k <> t) ->
  Forall (fun fl => fst fl <> t)
    (flushes (events (import_sheet conn bs (name, df) total st))).
Proof.
  intros Hno. destruct (SENSOR_MAPPING !! name) as [info|] eqn:Hmap.
  2:{ unfold import_sheet. cbn [fst snd]. rewrite Hmap. repeat constructor. }
  destruct (mapping_recognized _ _ Hmap) as (k & _ & Hty).
  rewrite (import_sheet_dispatch _ _ _ _ _ _ _ Hmap Hty), bind_eq,
    importer_of_eq.
  pose proof (flushes_import_sensor (table_of k) (tuple_of k) conn name df
                (sensor_code info) bs st) as H.
  destruct (import_sensor (table_of k) (tuple_of k) conn name df
              (sensor_code info) bs st) as [[ev1 s1] [[]|e]]; unfold ret;
    simpl_out; rewrite ?app_nil_r;
    (eapply Forall_impl; [exact H|]; intros fl ->; exact (Hno info k eq_refl Hty)).
Qed.

Lemma flushes_import_sheets conn bs xls t :
  (forall name df info k,
      (name, df) ∈ xls -> SENSOR_MAPPING !! name = Some info ->
      sensor_type info = type_name k -> table_of k <> t) ->
  forall total st,
    Forall (fun fl => fst fl <> t)
      (flushes (events (import_sheets conn bs xls total st))).
Proof.
  induction xls as [|[name df] xls IH]; intros Hno total st; [constructor|].
  cbn [import_sheets]. rewrite bind_eq.
  pose proof (flushes_import_sheet conn bs name df total st t) as H1.
  destruct (import_sheet conn bs (name, df) total st) as [[ev1 s1] [n|e]];
    simpl_out.
  2:{ apply H1. intros info k. apply (Hno name df). left. }
  specialize (IH (fun name' df' info k Hin => Hno name' df' info k
                    (list_elem_of_further _ _ _ Hin)) n s1).
  destruct (import_sheets conn bs xls n s1) as [[ev2 s2] r2]. simpl_out.
  rewrite flushes_app. apply Forall_app. split; [|exact IH].
  apply H1. intros info k. apply (Hno name df). left.
Qed.

(** X14: a run writes only the tables its workbook feeds: a reading
    table that is the table of no recognised sheet of the workbook holds
    after the run, however it ends, the rows it held before. *)
Theorem unfed_table_untouched w a db xls t :
  files w !! excel_file a = Some xls ->
  (forall name df info k,
      (name, df) ∈ xls -> SENSOR_MAPPING !! name = Some info ->
      sensor_type info = type_name k -> table_of k <> t) ->
  rows_of t (committed (final (run w a db))) = rows_of t db.
Proof.
  intros Hfile Hno. rewrite run_committed. apply replay_other_tables.
  rewrite run_flushes. destruct (verify_only a); [constructor|].
  rewrite (import_all_data_eq _ _ _ _ _ Hfile). cbn [initial_state next_conn].
  destruct (connect_ok w 0%nat); [|repeat constructor]. cbv zeta.
  unfold import_body. rewrite bind_eq.
  pose proof (flushes_import_sheets 0%nat (batch_size a) xls t Hno 0%nat
                (opened (initial_state db))) as H.
  destruct (import_sheets 0 (batch_size a) xls 0 (opened (initial_state db)))
    as [[evs st1] [n|e]]; simpl_out.
  - rewrite print_summary_eq.
    destruct (elapsed_zero w); cbn [is_Exception]; simpl_out;
      rewrite ?flushes_app; repeat (apply Forall_app; split);
      first [exact H | repeat constructor].
  - destruct (is_Exception e); simpl_out;
      rewrite ?flushes_app; repeat (apply Forall_app; split);
      first [exact H | repeat constructor].
Qed.

(* ===================================================================== *)
(** ** A sheet that is aborted *)
(* ===================================================================== *)

(** X16: what an aborted sheet leaves behind.  When the rows before the
    first row that raises give N tuples, the importer has flushed and
    committed the first B * (N / B) of them, in full batches of B; the
    N mod B tuples that were in the buffer when the row raised are never
    sent, and the rows after it are not looked at. *)
Theorem aborted_sheet_keeps_full_batches (k : kind) (B : nat) conn sheet
    before r after code sid st e :
  accepts_all ->
  (1 <= B)%nat ->
  synced st ->
  select_sensor_id code (working st) = Some sid ->
  Forall (fun r => is_Ok (row_tuple (tuple_of k) sid r) = true) before ->
  row_tuple (tuple_of k) sid r = Raise e ->
  let sent := take (B * (length (tuples (tuple_of k) sid before) / B))
                (tuples (tuple_of k) sid before) in
  let o := importer_of k conn sheet (before ++ r :: after) code (Z.of_nat B) st in
  outcome o = Raise e
  /\ length <$> batches (events o)
     = repeat B (length (tuples (tuple_of k) sid before) / B)
  /\ concat (batches (events o)) = sent
  /\ committed (final o) = insert_into (table_of k) sent (committed st)
  /\ working (final o) = committed (final o).
Proof.
  intros Hdb HB Hs Hsel Hall Hr sent o.
  set (N := length (tuples (tuple_of k) sid before)) in *.
  destruct (import_rows_ok (table_of k) (tuple_of k) conn sid B
              (length (before ++ r :: after)) before Hdb HB Hall 0%nat [] 0%nat st)
    as (evs & st' & data' & skipped' & Hrun & Hsz & Hrem & Hcat & _);
    [cbn; lia|].
  cbn [length Nat.add app] in Hsz, Hrem, Hcat. fold N in Hsz, Hrem.
  assert (Ho : o = ([ESelectSensorId conn code;
                     EPrint (MsgImporting sheet code
                               (length (before ++ r :: after)))] ++ evs,
                    st', Raise e)).
  { subst o. rewrite importer_of_eq, import_sensor_eq, Hdb, Hsel. cbv zeta.
    rewrite import_rows_app, Hrun, import_rows_cons. cbn [fst snd].
    rewrite (import_row_raises _ _ _ _ _ _ _ _ _ _ _ _ Hr).
    rewrite app_nil_r. reflexivity. }
  assert (Hsent : concat (batches evs) = sent).
  { subst sent. rewrite <- Hcat. symmetry. apply take_app_length'.
    assert (Hlen : (length (concat (batches evs)) + length data' = N)%nat)
      by (subst N; rewrite <- Hcat, length_app; reflexivity).
    pose proof (Nat.div_mod_eq N B). lia. }
  destruct (inner_importer_of conn k sheet (before ++ r :: after) code
              (Z.of_nat B) st Hs) as (Hs' & Hc & _).
  fold o in Hs', Hc.
  assert (Hone : replay (events o) (committed st)
                 = insert_into (table_of k) (concat (batches (events o)))
                     (committed st)).
  { apply replay_one_table. subst o. rewrite importer_of_eq.
    apply flushes_import_sensor. }
  rewrite Hone in Hc. rewrite Ho in *. simpl_out.
  change (batches ([ESelectSensorId conn code;
                    EPrint (MsgImporting sheet code
                              (length (before ++ r :: after)))] ++ evs))
    with (batches evs) in *.
  rewrite Hsent in Hc.
  split; [reflexivity|]. split; [exact Hsz|]. split; [exact Hsent|].
  split; [exact Hc|exact Hs'].
Qed.

(* ===================================================================== *)
(** ** Rows with an empty timestamp cell, and the server *)
(* ===================================================================== *)

Lemma elem_of_stored_prefix (x : reading) l l' :
  l `prefix_of` l' -> x ∈ l -> x ∈ l'.
Proof. intros [k ->] H. apply elem_of_app. now left. Qed.

(** After an insert under the conflict rule, each row of the batch is in
    the table or was kept out by a stored row. *)
Lemma insert_rows_covers rs :
  forall stored tup,
    tup ∈ rs -> stored_or_collides tup (insert_rows rs stored).
Proof.
  induction rs as [|x rs IH]; intros stored tup Hin.
  - apply elem_of_nil in Hin. contradiction.
  - rewrite insert_rows_cons.
    apply elem_of_cons in Hin as [->|Hin]; [|apply IH, Hin].
    unfold insert_row. destruct (existsb (conflicts x) stored) eqn:Hc.
    + right. eapply absorbed_prefix; [apply insert_rows_prefix|exact Hc].
    + left. eapply elem_of_stored_prefix; [apply insert_rows_prefix|].
      apply elem_of_app. right. apply list_elem_of_here.
Qed.

Lemma rows_of_insert_into k rs db :
  rows_of (table_of k) (insert_into (table_of k) rs db)
  = insert_rows rs (rows_of (table_of k) db).
Proof. destruct k; reflexivity. Qed.

Lemma has_nat_time_app data tup :
  has_nat_time data = true \/ is_nat_time tup = true ->
  has_nat_time (data ++ [tup]) = true.
Proof.
  unfold has_nat_time. rewrite existsb_app. cbn.
  intros [->| ->]; [reflexivity|]. now rewrite orb_true_r.
Qed.

(** Under a server that rejects every batch holding a not-a-time tuple,
    such a tuple never leaves the buffer: the loop raises, or returns
    with the tuple still buffered. *)
Lemma import_rows_nat_buffer t f conn sid bs total rows :
  (forall c t' rs, has_nat_time rs = true ->
                   db_raises (EExecuteBatch c t' rs) = true) ->
  forall idx data skipped st,
    has_nat_time data = true ->
    match outcome (import_rows t f conn sid bs total idx rows data skipped st) with
    | Ok acc => has_nat_time (fst acc) = true
    | Raise _ => True
    end.
Proof.
  intros Hrej. induction rows as [|r rest IH]; intros idx data skipped st Hn;
    [exact Hn|].
  rewrite import_rows_cons, import_row_eq.
  destruct (getitem r FECHA) as [c|e]; [|exact I].
  destruct (pd_to_datetime c) as [ts|].
  - destruct (f ts sid r) as [tup|e]; [|exact I].
    assert (Hn' : has_nat_time (data ++ [tup]) = true)
      by (apply has_nat_time_app; now left).
    destruct (Z.of_nat (length (data ++ [tup])) >=? bs).
    + destruct (bs <=? 0); [exact I|]. rewrite (Hrej _ _ _ Hn'). exact I.
    + cbn [fst snd]. specialize (IH (S idx) (data ++ [tup]) skipped st Hn').
      destruct (import_rows t f conn sid bs total (S idx) rest (data ++ [tup])
                  skipped st) as [[ev' st2] res]. exact IH.
  - cbn [fst snd]. specialize (IH (S idx) data (S skipped) st Hn).
    destruct (import_rows t f conn sid bs total (S idx) rest data (S skipped) st)
      as [[ev' st2] res]. exact IH.
Qed.

Lemma import_rows_nat_row t f conn sid bs total rows r c :
  (forall c' t' rs, has_nat_time rs = true ->
                    db_raises (EExecuteBatch c' t' rs) = true) ->
  (forall tup, f NaT sid r = Ok tup -> reading_time tup = NaT) ->
  getitem r FECHA = Ok c ->
  pd_to_datetime c = Some NaT ->
  r ∈ rows ->
  forall idx data skipped st,
    match outcome (import_rows t f conn sid bs total idx rows data skipped st) with
    | Ok acc => has_nat_time (fst acc) = true
    | Raise _ => True
    end.
Proof.
  intros Hrej Htime Hget Hts. induction rows as [|r' rest IH];
    intros Hin idx data skipped st.
  - apply elem_of_nil in Hin. contradiction.
  - rewrite import_rows_cons. apply elem_of_cons in Hin as [<-|Hin].
    + rewrite import_row_eq, Hget, Hts.
      destruct (f NaT sid r) as [tup|e] eqn:Hf; [|exact I].
      assert (Hn : has_nat_time (data ++ [tup]) = true).
      { apply has_nat_time_app. right. unfold is_nat_time.
        now rewrite (Htime _ eq_refl). }
      destruct (Z.of_nat (length (data ++ [tup])) >=? bs).
      * destruct (bs <=? 0); [exact I|]. rewrite (Hrej _ _ _ Hn). exact I.
      * cbn [fst snd].
        pose proof (import_rows_nat_buffer t f conn sid bs total rest Hrej
                      (S idx) (data ++ [tup]) skipped st Hn) as H.
        destruct (import_rows t f conn sid bs total (S idx) rest (data ++ [tup])
                    skipped st) as [[ev' st2] res]. exact H.
    + destruct (import_row t f conn sid bs total idx r' data skipped st)
        as [[ev st1] [acc|e]]; [|exact I].
      specialize (IH Hin (S idx) (fst acc) (snd acc) st1).
      destruct (import_rows t f conn sid bs total (S idx) rest (fst acc)
                  (snd acc) st1) as [[ev' st2] res]. exact IH.
Qed.

(** So a sheet with a row whose timestamp parses to not-a-time cannot be
    imported into such a server. *)
Lemma import_sensor_nat_row t f conn sheet df code bs st r c :
  (forall c' t' rs, has_nat_time rs = true ->
                    db_raises (EExecuteBatch c' t' rs) = true) ->
  (forall sid tup, f NaT sid r = Ok tup -> reading_time tup = NaT) ->
  getitem r FECHA = Ok c ->
  pd_to_datetime c = Some NaT ->
  r ∈ df ->
  exists e, outcome (import_sensor t f conn sheet df code bs st) = Raise e.
Proof.
  intros Hrej Htime Hget Hts Hin. rewrite import_sensor_eq.
  destruct (db_raises (ESelectSensorId conn code)); [eauto|].
  destruct (select_sensor_id code (working st)) as [sid|]; [|eauto].
  cbv zeta.
  pose proof (import_rows_nat_row t f conn sid bs (length df) df r c Hrej
                (Htime sid) Hget Hts Hin 0%nat [] 0%nat st) as H.
  destruct (import_rows t f conn sid bs (length df) 0 df [] 0 st)
    as [[evs st1] [acc|e]]; simpl_out; [|eauto].
  rewrite finish_sheet_eq. cbv zeta.
  destruct (fst acc) as [|x d]; [discriminate H|].
  destruct (bs <=? 0); [eauto|]. rewrite (Hrej _ _ _ H). eauto.
Qed.

(** C10, amended: a row whose timestamp cell is empty is not skipped,
    but whether it is inserted is for the server to decide.  The parser
    returns the absent marker exactly when [pd.to_datetime] raises; for
    an empty cell pandas returns [NaT] without raising, so the row gets
    past the skip check and its tuple, with time [NaT], is appended to
    the buffer and sent with the batch of that buffer.  When the server
    executes the batch, the tuple is in the table afterwards, or a
    stored row has kept it out; when the server rejects the batch,
    nothing of it is inserted.  A server that rejects every batch with a
    not-a-time tuple makes every import of a sheet with such a row
    raise, and the run abort. *)
Theorem empty_timestamp_not_skipped (k : kind) conn sid bs total idx
    (r : row) data skipped st c tup :
  getitem r FECHA = Ok c ->
  pd_notna c = false ->
  pd_to_datetime c = Some NaT ->
  tuple_of k NaT sid r = Ok tup ->
  1 <= bs ->
  parse_timestamp c st = ([], st, Ok (Some NaT))
  /\ (forall c' st',
        outcome (parse_timestamp c' st') = Ok None <-> pd_to_datetime c' = None)
  /\ reading_time tup = NaT
  /\ (let o := import_row (table_of k) (tuple_of k) conn sid bs total
                 idx r data skipped st in
      if Z.of_nat (length (data ++ [tup])) >=? bs then
        if db_raises (EExecuteBatch conn (table_of k) (data ++ [tup])) then
          o = ([], st, Raise DatabaseError)
        else
          outcome o = Ok ([], skipped)
          /\ batches (events o) = [data ++ [tup]]
          /\ stored_or_collides tup
               (rows_of (table_of k) (committed (final o)))
      else o = ([], st, Ok (data ++ [tup], skipped)))
  /\ (forall sheet df code st',
        synced st' ->
        r ∈ df ->
        select_sensor_id code (working st') = Some sid ->
        let o := importer_of k conn sheet df code bs st' in
        outcome o = Ok tt ->
        tup ∈ concat (batches (events o))
        /\ stored_or_collides tup
             (rows_of (table_of k) (committed (final o))))
  /\ ((forall c' t rs, has_nat_time rs = true ->
                       db_raises (EExecuteBatch c' t rs) = true) ->
      (forall sheet df code st',
          r ∈ df ->
          exists e,
            outcome (importer_of k conn sheet df code bs st') = Raise e)
      /\ (forall w a db xls name df info,
            verify_only a = false ->
            files w !! excel_file a = Some xls ->
            (name, df) ∈ xls ->
            SENSOR_MAPPING !! name = Some info ->
            r ∈ df ->
            aborted w (run w a db))).
Proof.
  intros Hget Hna Hts Htup Hbs.
  split; [unfold parse_timestamp; now rewrite Hts|].
  split.
  { intros c' st'. unfold parse_timestamp.
    destruct (pd_to_datetime c'); cbn; split; congruence. }
  split; [exact (tuple_time _ _ _ _ _ Htup)|].
  split.
  { cbv zeta. rewrite import_row_eq, Hget, Hts, Htup.
    destruct (Z.of_nat (length (data ++ [tup])) >=? bs); [|reflexivity].
    destruct (Z.leb_spec bs 0) as [Hle|_]; [lia|].
    destruct (db_raises (EExecuteBatch conn (table_of k) (data ++ [tup])));
      [reflexivity|].
    simpl_out. split; [reflexivity|]. split; [reflexivity|].
    cbn [flushed committed]. rewrite rows_of_insert_into.
    apply insert_rows_covers, elem_of_app. right. apply list_elem_of_here. }
  split.
  { intros sheet df code st' Hs Hin Hsel o Hout. subst o.
    pose proof Hout as Hout'. rewrite importer_of_eq in Hout'.
    destruct (import_sensor_completed _ _ _ _ _ _ _ _ Hout')
      as (sid' & Hsel' & _ & Hcat & _).
    assert (sid' = sid) as -> by congruence.
    rewrite <- importer_of_eq in Hcat.
    assert (Htup' : tup ∈ tuples (tuple_of k) sid df).
    { apply (tuples_elem _ _ _ r); [exact Hin|].
      unfold row_tuple. rewrite Hget. cbn. now rewrite Hts, Htup. }
    destruct (importer_completed_result k conn sheet df code bs st' sid Hs Hcat)
      as (_ & Hc).
    split; [now rewrite Hcat|].
    rewrite Hc, rows_of_insert_into. apply insert_rows_covers, Htup'. }
  intros Hrej.
  assert (Hraise : forall k' conn' sheet df code bs' st',
             r ∈ df ->
             exists e, outcome (importer_of k' conn' sheet df code bs' st')
                       = Raise e).
  { intros k' conn' sheet df code bs' st' Hin. rewrite importer_of_eq.
    apply (import_sensor_nat_row _ _ _ _ _ _ _ _ r c Hrej); try assumption.
    intros sid' tup'. apply tuple_time. }
  split; [intros sheet df code st'; apply Hraise|].
  intros w a db xls name df info Hmode Hfile Hsheet Hmap Hrow.
  apply (run_aborted w a db xls Hmode Hfile).
  apply import_body_raises.
  apply (import_sheets_raises 0%nat (batch_size a) (fun _ => True) xls (name, df));
    [exact Hsheet|trivial| |trivial].
  intros total' st' _. apply (import_sheet_raises _ _ _ _ _ info); [exact Hmap|].
  intros k' _. apply Hraise, Hrow.
Qed.

End Importer.

(* ===================================================================== *)
(** ** The connection parameters *)
(* ===================================================================== *)

Lemma DB_CONFIG_lookup env key :
  DB_CONFIG env !! key =
  if decide ("host" = key) then Some (getenv env "DB_HOST" "localhost")
  else if decide ("port" = key) then Some (getenv env "DB_PORT" "5432")
  else if decide ("database" = key) then Some (getenv env "DB_NAME" "madison_iot")
  else if decide ("user" = key) then Some (getenv env "DB_USER" "postgres")
  else if decide ("password" = key)
       then Some (getenv env "DB_PASSWORD" "postgres")
  else None.
Proof.
  unfold DB_CONFIG. cbn [list_to_map foldr fst snd uncurry].
  rewrite !lookup_insert, lookup_empty. reflexivity.
Qed.

Lemma getenv_insert env var v name d :
  getenv (<[var:=v]> env) name d
  = if decide (var = name) then v else getenv env name d.
Proof. unfold getenv. rewrite lookup_insert. now destruct (decide (var = name)). Qed.

(** X15: the connection parameters come from the environment, one
    variable per key: the configuration always has its five keys, each
    holding the value of its variable when that is set (also to the
    empty string) and its default otherwise; setting one variable
    changes the key of that variable and no other; variables other than
    the five do not matter. *)
Theorem DB_CONFIG_from_environment env :
  (forall key var d,
      (key, (var, d)) ∈ DB_SETTINGS ->
      DB_CONFIG env !! key = Some (default d (env !! var)))
  /\ (forall key, DB_CONFIG env !! key = None <-> key ∉ DB_SETTINGS.*1)
  /\ (forall key var d v,
        (key, (var, d)) ∈ DB_SETTINGS ->
        DB_CONFIG (<[var:=v]> env) = <[key:=v]> (DB_CONFIG env))
  /\ (forall env',
        (forall key var d, (key, (var, d)) ∈ DB_SETTINGS ->
                           env' !! var = env !! var) ->
        DB_CONFIG env' = DB_CONFIG env).
Proof.
  split; [|split; [|split]].
  - intros key var d Hin. apply list_elem_of_In in Hin. cbn in Hin.
    repeat destruct Hin as [Hin|Hin]; try contradiction;
      injection Hin as <- <- <-; rewrite DB_CONFIG_lookup;
      repeat case_decide; try congruence; unfold getenv;
      match goal with |- context [env !! ?v] => destruct (env !! v) end;
      reflexivity.
  - intros key. rewrite DB_CONFIG_lookup, list_elem_of_In. cbn.
    repeat case_decide; split; intros Hkey; try discriminate; try tauto;
      try (intros [?|[?|[?|[?|[?|[]]]]]]; congruence).
  - intros key var d v Hin. apply list_elem_of_In in Hin. cbn in Hin.
    apply map_eq. intros k.
    rewrite lookup_insert, !DB_CONFIG_lookup, !getenv_insert.
    repeat destruct Hin as [Hin|Hin]; try contradiction;
      injection Hin as <- <- <-;
      repeat case_decide; try congruence; reflexivity.
  - intros env' Henv. apply map_eq. intros k. rewrite !DB_CONFIG_lookup.
    unfold getenv.
    rewrite (Henv "host" "DB_HOST" "localhost"),
      (Henv "port" "DB_PORT" "5432"),
      (Henv "database" "DB_NAME" "madison_iot"),
      (Henv "user" "DB_USER" "postgres"),
      (Henv "password" "DB_PASSWORD" "postgres");
      [reflexivity|apply list_elem_of_In; cbn; tauto..].
Qed.

(* ===================================================================== *)
(** ** Worked examples in the sample environment *)
(* ===================================================================== *)

(** The scenario of the specification: 2500 rows in "Sensor t1", batches
    of 1000. *)
Example sensor_t1_2500_rows :
  let o := import_temperature_sensor sample_to_datetime sample_int_of_string
             sample_float_of_string unique_time_sensor sample_accepts
             0 "Sensor t1"
             (good_row <$> (Z.of_nat <$> seq 0 2500)) "t1" 1000 sample_state in
  outcome o = Ok tt
  /\ length <$> batches (events o) = [1000; 1000; 500]%nat
  /\ length (temperature_readings (committed (final o))) = 2500%nat.
Proof. vm_compute. repeat split. Qed.

(** A cast error in the third row: the batch flushed before it stays in
    the database, the process exits with status 1. *)
Example aborted_run_keeps_flushed_batch :
  let o := run sample_to_datetime sample_int_of_string sample_float_of_string
             unique_time_sensor sample_accepts
             (sample_world [("Sensor t1", [good_row 1; good_row 2;
                                           text_humidity_row; good_row 3])])
             (sample_args 2 false) sample_db in
  exit_status (outcome o) = 1
  /\ db_ops (events o)
     = [EConnect 0; ESelectSensorId 0 "t1";
        EExecuteBatch 0 TemperatureReadings
          [TemperatureReading (Timestamp 1) 7 (Some 40) (Some f_2_75) (Some 3000);
           TemperatureReading (Timestamp 2) 7 (Some 40) (Some f_2_75) (Some 3000)];
        ECommit 0; ERollback 0; EClose 0]
  /\ length (temperature_readings (committed (final o))) = 2%nat.
Proof. vm_compute. repeat split. Qed.

(** [int] drops the fraction towards zero; an empty cell becomes [None]. *)
Example int_or_none_examples :
  int_or_none sample_int_of_string
    (temperature_row (CTimestamp 1) (CFloat f_2_75)) "Humedad relativa (%)"
  = Ok (Some 2)
  /\ int_or_none sample_int_of_string
       (temperature_row (CTimestamp 1) (CFloat f_neg_2_75)) "Humedad relativa (%)"
     = Ok (Some (-2))
  /\ int_or_none sample_int_of_string empty_humidity_row "Humedad relativa (%)"
     = Ok None
  /\ int_or_none sample_int_of_string text_humidity_row "Humedad relativa (%)"
     = Raise ValueError
  /\ int_or_none sample_int_of_string
       (temperature_row (CTimestamp 1) (CStr "41")) "Humedad relativa (%)"
     = Ok (Some 41).
Proof. vm_compute. repeat split. Qed.

(** The scenario of the specification: a sheet "Sensor unknown9" is
    skipped with a warning and adds nothing to the total or the database. *)
Example unknown_sheet_run :
  let o := run sample_to_datetime sample_int_of_string sample_float_of_string
             unique_time_sensor sample_accepts
             (sample_world [("Sensor unknown9", sample_sheet)])
             (sample_args 1000 false) sample_db in
  exit_status (outcome o) = 0
  /\ In (EPrint (MsgUnknownSheet "Sensor unknown9")) (events o)
  /\ In (EPrint (MsgSummaryRows 0)) (events o)
  /\ flushes (events o) = []
  /\ committed (final o) = sample_db.
Proof. vm_compute. repeat split; tauto. Qed.

(** A COUNT query the server rejects ends a verify-only run with status
    1 while its connection is still open: the [close] after
    [verify_import] is not reached. *)
Example rejected_count_leaves_connection_open :
  let o := run sample_to_datetime sample_int_of_string sample_float_of_string
             unique_time_sensor rejects_current_count (sample_world [])
             (sample_args 1000 true) sample_db in
  exit_status (outcome o) = 1
  /\ db_ops (events o) = [EConnect 0; ESelectCount 0 Sensors]
  /\ sessions None (events o) = Some (Some 0%nat).
Proof. vm_compute. repeat split. Qed.

(** Five parseable rows and one bad timestamp, batches of two: flushes of
    2, 2 and 1. *)
Lemma batch_flush_count_witness :
  let o := import_temperature_sensor sample_to_datetime sample_int_of_string
             sample_float_of_string unique_time_sensor sample_accepts
             0 "Sensor t1"
             sample_sheet "t1" 2 sample_state in
  select_sensor_id "t1" (working sample_state) = Some 7
  /\ outcome o = Ok tt
  /\ length <$> batches (events o) = [2; 2; 1]%nat
  /\ length (batches (events o)) = 3%nat.
Proof.
  split; [reflexivity|].
  destruct (batch_flush_count sample_to_datetime sample_int_of_string
              sample_float_of_string unique_time_sensor sample_accepts
              Temperature 2 0
              "Sensor t1" sample_sheet "t1" 7 sample_state)
    as (H1 & H2 & H3 & _);
    [intros e; reflexivity|lia|reflexivity|repeat constructor|].
  split; [exact H1|]. split; [exact H2|exact H3].
Defined.

Lemma bad_timestamp_row_skipped_witness :
  getitem bad_timestamp_row FECHA = Ok (CStr "n/a")
  /\ sample_to_datetime (CStr "n/a") = None
  /\ import_row sample_to_datetime unique_time_sensor sample_accepts
  TemperatureReadings
       (temperature_tuple sample_int_of_string sample_float_of_string)
       0 7 2 6 1 bad_timestamp_row [] 0 sample_state
     = ([EPrint (MsgBadTimestamp (CStr "n/a"))], sample_state, Ok ([], 1%nat)).
Proof.
  split; [reflexivity|]. split; [reflexivity|].
  apply (proj1 (bad_timestamp_row_skipped sample_to_datetime unique_time_sensor sample_accepts
                  TemperatureReadings
                  (temperature_tuple sample_int_of_string sample_float_of_string)
                  0 7 2 bad_timestamp_row (CStr "n/a") eq_refl eq_refl)).
Defined.


Lemma sheet_dispatch_witness :
  import_sheet sample_to_datetime sample_int_of_string sample_float_of_string
    unique_time_sensor sample_accepts
    0 1000 ("Sensor unknown9", sample_sheet) 0 sample_state
  = ([EPrint (MsgUnknownSheet "Sensor unknown9")], sample_state, Ok 0%nat).
Proof.
  destruct (sheet_dispatch sample_to_datetime sample_int_of_string
              sample_float_of_string unique_time_sensor sample_accepts)
    as (_ & _ & _ & _ & H & Hunknown).
  apply H. exact Hunknown.
Defined.

(** The registry of [sample_db] has no sensor [s1]. *)
Lemma unregistered_sensor_aborts_witness :
  select_sensor_id "s1" sample_db = None
  /\ aborted (sample_world [("Sensor t1", sample_sheet); ("Sensor s1", [])])
       (run sample_to_datetime sample_int_of_string sample_float_of_string
          unique_time_sensor sample_accepts
          (sample_world [("Sensor t1", sample_sheet); ("Sensor s1", [])])
          (sample_args 2 false) sample_db).
Proof.
  split; [reflexivity|].
  destruct (unregistered_sensor_aborts sample_to_datetime sample_int_of_string
              sample_float_of_string unique_time_sensor sample_accepts
              ) as (_ & H & _).
  apply (H _ _ _ [("Sensor t1", sample_sheet); ("Sensor s1", [])] "Sensor s1" []
           {| sensor_code := "s1"; sensor_type := "environmental" |});
    try reflexivity.
  apply list_elem_of_further, list_elem_of_here.
Defined.

Lemma verify_only_reads_witness :
  let o := run sample_to_datetime sample_int_of_string sample_float_of_string
             unique_time_sensor sample_accepts
             (sample_world []) (sample_args 1000 true)
             sample_db in
  verify_only (sample_args 1000 true) = true
  /\ committed (final o) = sample_db
  /\ flushes (events o) = []
  /\ exit_status (outcome o) = 0.
Proof.
  split; [reflexivity|].
  destruct (verify_only_reads sample_to_datetime sample_int_of_string
              sample_float_of_string unique_time_sensor sample_accepts
              (sample_world []) (sample_args 1000 true) sample_db eq_refl)
    as (H1 & _ & H3 & _ & _ & H6).
  split; [exact H1|]. split; [exact H3|].
  exact (proj2 (H6 eq_refl (fun _ => eq_refl))).
Defined.

Lemma buffer_below_batch_size_witness :
  1 <= 2
  /\ exists full last,
       batches (events (import_temperature_sensor sample_to_datetime
                          sample_int_of_string sample_float_of_string
                          unique_time_sensor sample_accepts
                          0 "Sensor t1" sample_sheet "t1" 2
                          sample_state)) = full ++ last
       /\ Forall (fun b => Z.of_nat (length b) = 2) full
       /\ (last = [] \/ exists d, last = [d] /\ 0 < Z.of_nat (length d) < 2).
Proof.
  split; [lia|].
  exact (proj2 (proj2 (buffer_below_batch_size sample_to_datetime
                         sample_int_of_string sample_float_of_string
                         unique_time_sensor sample_accepts
                         Temperature 2 0 "Sensor t1"
                         sample_sheet "t1" sample_state ltac:(lia)))).
Defined.

(** C8 as stated fails on a successful import: the driver opens one
    connection for the import and a second one for the verification. *)
Lemma connection_opened_twice :
  connections
    (events (run sample_to_datetime sample_int_of_string sample_float_of_string
               unique_time_sensor sample_accepts
               (sample_world [("Sensor t1", sample_sheet)])
               (sample_args 2 false) sample_db)) = 2%nat
  /\ ~ opened_once_then_closed
       (events (run sample_to_datetime sample_int_of_string
                  sample_float_of_string unique_time_sensor sample_accepts
                  (sample_world [("Sensor t1", sample_sheet)])
                  (sample_args 2 false) sample_db)).
Proof.
  split; [vm_compute; reflexivity|].
  intros [H _]. vm_compute in H. discriminate H.
Qed.

(* ===================================================================== *)
(** ** The further properties on the sample environment *)
(* ===================================================================== *)

Lemma get_sensor_id_lookup_witness :
  let o := get_sensor_id sample_accepts 0 "t1" sample_state in
  sample_accepts (ESelectSensorId 0 "t1") = false
  /\ final o = sample_state
  /\ events o = [ESelectSensorId 0 "t1"]
  /\ outcome o = Ok 7.
Proof.
  split; [reflexivity|].
  destruct (get_sensor_id_lookup sample_accepts 0 "t1" sample_state eq_refl)
    as (H1 & H2 & _).
  split; [exact H1|]. split; [exact H2|reflexivity].
Defined.

Lemma completed_sheet_accounts_rows_witness :
  let o := importer_of sample_to_datetime sample_int_of_string
             sample_float_of_string unique_time_sensor sample_accepts
             Temperature 0 "Sensor t1" sample_sheet "t1" 2 sample_state in
  outcome o = Ok tt
  /\ (length (concat (batches (events o)))
      + unparseable sample_to_datetime sample_sheet = length sample_sheet)%nat
  /\ (EPrint (MsgSkipped 1) ∈ events o
      <-> 1%nat = unparseable sample_to_datetime sample_sheet /\ (0 < 1)%nat).
Proof.
  cbv zeta. split; [reflexivity|].
  destruct (completed_sheet_accounts_rows sample_to_datetime sample_int_of_string
              sample_float_of_string unique_time_sensor sample_accepts
              Temperature 0 "Sensor t1" sample_sheet "t1" 2 sample_state eq_refl)
    as (sid & _ & _ & Hlen & _ & Hin).
  split; [exact Hlen|exact (Hin 1%nat)].
Defined.

Lemma completed_sheet_result_witness :
  let o := importer_of sample_to_datetime sample_int_of_string
             sample_float_of_string unique_time_sensor sample_accepts
             Temperature 0 "Sensor t1" sample_sheet "t1" 2 sample_state in
  synced sample_state
  /\ outcome o = Ok tt
  /\ exists sid,
       select_sensor_id "t1" (committed sample_state) = Some sid
       /\ committed (final o)
          = insert_into unique_time_sensor TemperatureReadings
              (tuples sample_to_datetime
                 (tuple_of sample_int_of_string sample_float_of_string
                    Temperature) sid sample_sheet)
              (committed sample_state).
Proof.
  cbv zeta. split; [reflexivity|]. split; [reflexivity|].
  destruct (completed_sheet_result sample_to_datetime sample_int_of_string
              sample_float_of_string unique_time_sensor sample_accepts
              Temperature 0 "Sensor t1" sample_sheet "t1" 2 sample_state
              eq_refl eq_refl)
    as (sid & Hsel & Hc & _).
  exists sid. split; [exact Hsel|exact Hc].
Defined.

Lemma successful_import_result_witness :
  let o := run sample_to_datetime sample_int_of_string sample_float_of_string
             unique_time_sensor sample_accepts
             (sample_world sample_workbook) (sample_args 2 false) sample_db in
  verify_only (sample_args 2 false) = false
  /\ files (sample_world sample_workbook) !! excel_file (sample_args 2 false)
     = Some sample_workbook
  /\ exit_status (outcome o) = 0
  /\ committed (final o)
     = workbook_result sample_to_datetime sample_int_of_string
         sample_float_of_string unique_time_sensor sample_workbook sample_db.
Proof.
  cbv zeta. split; [reflexivity|]. split; [reflexivity|].
  split; [reflexivity|].
  now destruct (successful_import_result sample_to_datetime sample_int_of_string
                  sample_float_of_string unique_time_sensor sample_accepts
                  (sample_world sample_workbook) (sample_args 2 false) sample_db
                  sample_workbook eq_refl eq_refl eq_refl) as (H & _).
Defined.

Lemma run_succeeds_iff_witness :
  let o := run sample_to_datetime sample_int_of_string sample_float_of_string
             unique_time_sensor sample_accepts
             (sample_world sample_workbook) (sample_args 2 false) sample_db in
  (forall e, sample_accepts e = false)
  /\ 1 <= batch_size (sample_args 2 false)
  /\ verify_only (sample_args 2 false) = false
  /\ files (sample_world sample_workbook) !! excel_file (sample_args 2 false)
     = Some sample_workbook
  /\ (exit_status (outcome o) = 0
      <-> Forall (sheet_ok sample_to_datetime sample_int_of_string
                    sample_float_of_string sample_db) sample_workbook
          /\ connect_ok (sample_world sample_workbook) 0%nat = true
          /\ connect_ok (sample_world sample_workbook) 1%nat = true
          /\ elapsed_zero (sample_world sample_workbook) = false).
Proof.
  cbv zeta. split; [intros e; reflexivity|]. split; [cbn; lia|].
  split; [reflexivity|]. split; [reflexivity|].
  apply (run_succeeds_iff sample_to_datetime sample_int_of_string
           sample_float_of_string unique_time_sensor sample_accepts);
    [intros e; reflexivity|cbn; lia|reflexivity|reflexivity].
Defined.

Lemma batch_size_irrelevant_witness :
  let o := run sample_to_datetime sample_int_of_string sample_float_of_string
             unique_time_sensor sample_accepts
             (sample_world sample_workbook) (sample_args 2 false) sample_db in
  let o' := run sample_to_datetime sample_int_of_string sample_float_of_string
              unique_time_sensor sample_accepts
              (sample_world sample_workbook) (sample_args 1000 false) sample_db in
  1 <= batch_size (sample_args 2 false)
  /\ 1 <= batch_size (sample_args 1000 false)
  /\ exit_status (outcome o) = 0
  /\ exit_status (outcome o') = 0
  /\ committed (final o') = committed (final o).
Proof.
  cbv zeta. split; [cbn; lia|]. split; [cbn; lia|].
  destruct (batch_size_irrelevant sample_to_datetime sample_int_of_string
              sample_float_of_string unique_time_sensor sample_accepts
              (sample_world sample_workbook) (sample_args 2 false)
              (sample_args 1000 false) sample_db)
    as (Hiff & Hsame);
    [intros e; reflexivity|cbn; lia|cbn; lia|reflexivity|reflexivity|reflexivity|].
  split; [reflexivity|]. split; [exact (proj1 Hiff eq_refl)|exact (Hsame eq_refl)].
Defined.

Lemma summary_counts_sheet_rows_witness :
  let o := run sample_to_datetime sample_int_of_string sample_float_of_string
             unique_time_sensor sample_accepts
             (sample_world sample_workbook) (sample_args 2 false) sample_db in
  exit_status (outcome o) = 0
  /\ recognised_rows sample_workbook = 6%nat
  /\ EPrint (MsgSummaryRows (recognised_rows sample_workbook)) ∈ events o.
Proof.
  cbv zeta. split; [reflexivity|]. split; [reflexivity|].
  now destruct (summary_counts_sheet_rows sample_to_datetime sample_int_of_string
                  sample_float_of_string unique_time_sensor sample_accepts
                  (sample_world sample_workbook) (sample_args 2 false) sample_db
                  sample_workbook eq_refl eq_refl eq_refl) as (H & _).
Defined.

Lemma verification_reports_committed_witness :
  let o := run sample_to_datetime sample_int_of_string sample_float_of_string
             unique_time_sensor sample_accepts
             (sample_world sample_workbook) (sample_args 2 false) sample_db in
  exit_status (outcome o) = 0
  /\ exists evs c,
       events o = evs ++ verification c (committed (final o))
       /\ c = 1%nat.
Proof.
  cbv zeta. split; [reflexivity|].
  exact (verification_reports_committed sample_to_datetime sample_int_of_string
           sample_float_of_string unique_time_sensor sample_accepts
           (sample_world sample_workbook) (sample_args 2 false) sample_db
           eq_refl).
Defined.

Lemma stalled_clock_fails_after_commit_witness :
  let o := run sample_to_datetime sample_int_of_string sample_float_of_string
             unique_time_sensor sample_accepts
             (stalled_world sample_workbook) (sample_args 2 false) sample_db in
  Forall (sheet_ok sample_to_datetime sample_int_of_string
            sample_float_of_string sample_db) sample_workbook
  /\ elapsed_zero (stalled_world sample_workbook) = true
  /\ exit_status (outcome o) = 1
  /\ committed (final o)
     = workbook_result sample_to_datetime sample_int_of_string
         sample_float_of_string unique_time_sensor sample_workbook sample_db.
Proof.
  cbv zeta.
  assert (Hok : Forall (sheet_ok sample_to_datetime sample_int_of_string
                          sample_float_of_string sample_db) sample_workbook).
  { constructor; [|constructor; [exact I|constructor]].
    exists Temperature, 7. split; [reflexivity|]. split; [reflexivity|].
    repeat constructor. }
  split; [exact Hok|]. split; [reflexivity|].
  destruct (stalled_clock_fails_after_commit sample_to_datetime
              sample_int_of_string sample_float_of_string unique_time_sensor
              sample_accepts (stalled_world sample_workbook) (sample_args 2 false)
              sample_db sample_workbook)
    as (H1 & H2 & _);
    [intros e; reflexivity|cbn; lia|reflexivity|reflexivity|reflexivity
    |exact Hok|reflexivity|].
  split; [exact H1|exact H2].
Defined.

Lemma reimport_idempotent_witness :
  let db1 := committed
               (final (run sample_to_datetime sample_int_of_string
                         sample_float_of_string unique_time_sensor sample_accepts
                         (sample_world sample_workbook) (sample_args 2 false)
                         sample_db)) in
  (forall r, unique_time_sensor r r = true)
  /\ count_of TemperatureReadings db1 = 5%nat
  /\ committed
       (final (run sample_to_datetime sample_int_of_string
                 sample_float_of_string unique_time_sensor sample_accepts
                 (sample_world sample_workbook) (sample_args 2 false) db1))
     = db1.
Proof.
  cbv zeta.
  assert (Hrefl : forall r, unique_time_sensor r r = true).
  { intros r. unfold unique_time_sensor, timestamp_eqb.
    destruct (reading_time r); rewrite ?Z.eqb_refl; reflexivity. }
  split; [exact Hrefl|]. split; [reflexivity|].
  now destruct (reimport_idempotent sample_to_datetime sample_int_of_string
                  sample_float_of_string unique_time_sensor sample_accepts
                  (sample_world sample_workbook) (sample_args 2 false) sample_db
                  Hrefl) as (_ & H & _).
Defined.

Lemma missing_column_aborts_witness :
  let xls := [("Sensor t1", [good_row 1; no_battery_row])] in
  no_battery_row !! FECHA = Some (CTimestamp 9)
  /\ sample_to_datetime (CTimestamp 9) = Some (Timestamp 9)
  /\ no_battery_row !! "Tensión batería (mV)" = None
  /\ aborted (sample_world xls)
       (run sample_to_datetime sample_int_of_string sample_float_of_string
          unique_time_sensor sample_accepts
          (sample_world xls) (sample_args 2 false) sample_db).
Proof.
  cbv zeta. split; [reflexivity|]. split; [reflexivity|]. split; [reflexivity|].
  destruct (missing_column_aborts sample_to_datetime sample_int_of_string
              sample_float_of_string unique_time_sensor sample_accepts
              (sample_world [("Sensor t1", [good_row 1; no_battery_row])])
              (sample_args 2 false) sample_db
              [("Sensor t1", [good_row 1; no_battery_row])]
              "Sensor t1" [good_row 1; no_battery_row]
              {| sensor_code := "t1"; sensor_type := "temperature" |}
              Temperature no_battery_row) as (H & _);
    [reflexivity|reflexivity|apply list_elem_of_here|reflexivity|reflexivity
    |apply list_elem_of_further, list_elem_of_here| |exact H].
  right. exists (CTimestamp 9), (Timestamp 9), "Tensión batería (mV)", IntField.
  split; [reflexivity|]. split; [reflexivity|]. split; [|reflexivity].
  apply list_elem_of_further, list_elem_of_further, list_elem_of_here.
Defined.

Lemma unfed_table_untouched_witness :
  let o := run sample_to_datetime sample_int_of_string sample_float_of_string
             unique_time_sensor sample_accepts
             (sample_world sample_workbook) (sample_args 2 false) sample_db in
  files (sample_world sample_workbook) !! excel_file (sample_args 2 false)
  = Some sample_workbook
  /\ count_of TemperatureReadings (committed (final o)) = 5%nat
  /\ rows_of CurrentReadings (committed (final o))
     = rows_of CurrentReadings sample_db.
Proof.
  cbv zeta. split; [reflexivity|]. split; [reflexivity|].
  apply (unfed_table_untouched sample_to_datetime sample_int_of_string
           sample_float_of_string unique_time_sensor sample_accepts
           (sample_world sample_workbook) (sample_args 2 false) sample_db
           sample_workbook CurrentReadings eq_refl).
  intros name df info k Hin Hmap Hty.
  apply list_elem_of_In in Hin. cbn in Hin.
  destruct Hin as [[= <- <-]|[[= <- <-]|[]]]; vm_compute in Hmap;
    [|discriminate Hmap].
  injection Hmap as <-. destruct k; cbn in Hty; discriminate.
Defined.

Lemma aborted_sheet_keeps_full_batches_witness :
  let before := [good_row 1; good_row 2; good_row 3] in
  let o := importer_of sample_to_datetime sample_int_of_string
             sample_float_of_string unique_time_sensor sample_accepts
             Temperature 0 "Sensor t1"
             (before ++ text_humidity_row :: [good_row 4]) "t1" (Z.of_nat 2)
             sample_state in
  row_tuple sample_to_datetime
    (tuple_of sample_int_of_string sample_float_of_string Temperature) 7
    text_humidity_row = Raise ValueError
  /\ outcome o = Raise ValueError
  /\ length <$> batches (events o) = [2%nat]
  /\ count_of TemperatureReadings (committed (final o)) = 2%nat.
Proof.
  cbv zeta. split; [reflexivity|].
  destruct (aborted_sheet_keeps_full_batches sample_to_datetime
              sample_int_of_string sample_float_of_string unique_time_sensor
              sample_accepts Temperature 2 0 "Sensor t1"
              [good_row 1; good_row 2; good_row 3] text_humidity_row
              [good_row 4] "t1" 7 sample_state ValueError)
    as (H1 & H2 & _ & H4 & _);
    [intros e; reflexivity|lia|reflexivity|reflexivity|repeat constructor
    |reflexivity|].
  split; [exact H1|]. split; [exact H2|]. rewrite H4. reflexivity.
Defined.

(** An empty timestamp cell in a sheet that goes to a server which takes
    the batch: the tuple with time [NaT] is sent and stored. *)
Lemma empty_timestamp_not_skipped_witness :
  let tup := TemperatureReading NaT 7 (Some 40) (Some f_2_75) (Some 3000) in
  let o := importer_of sample_to_datetime sample_int_of_string
             sample_float_of_string unique_time_sensor sample_accepts
             Temperature 0 "Sensor t1" [good_row 1; empty_timestamp_row] "t1" 2
             sample_state in
  sample_to_datetime (CFloat S754_nan) = Some NaT
  /\ outcome o = Ok tt
  /\ tup ∈ concat (batches (events o))
  /\ stored_or_collides unique_time_sensor tup
       (rows_of TemperatureReadings (committed (final o))).
Proof.
  cbv zeta. split; [reflexivity|]. split; [reflexivity|].
  destruct (empty_timestamp_not_skipped sample_to_datetime sample_int_of_string
              sample_float_of_string unique_time_sensor sample_accepts
              Temperature 0 7 2 2 1 empty_timestamp_row [] 0 sample_state
              (CFloat S754_nan)
              (TemperatureReading NaT 7 (Some 40) (Some f_2_75) (Some 3000))
              eq_refl eq_refl eq_refl eq_refl ltac:(lia))
    as (_ & _ & _ & _ & H & _).
  exact (H "Sensor t1" [good_row 1; empty_timestamp_row] "t1" sample_state
           eq_refl (list_elem_of_further _ _ _ (list_elem_of_here _ _))
           eq_refl eq_refl).
Defined.

(** C10 as stated fails against a server without a not-a-time
    timestamp: the row with the empty timestamp cell gets past the skip
    check and into the buffer, the batch that holds it is rejected, the
    run is aborted, and nothing is inserted, the row before it
    included. *)
Lemma empty_timestamp_row_not_inserted :
  let xls := [("Sensor t1", [good_row 1; empty_timestamp_row])] in
  let o := run sample_to_datetime sample_int_of_string sample_float_of_string
             unique_time_sensor rejects_nat_time
             (sample_world xls) (sample_args 1000 false) sample_db in
  sample_to_datetime (CFloat S754_nan) = Some NaT
  /\ import_row sample_to_datetime unique_time_sensor rejects_nat_time
       TemperatureReadings
       (temperature_tuple sample_int_of_string sample_float_of_string)
       0 7 1000 2 1 empty_timestamp_row [] 0 sample_state
     = ([], sample_state,
        Ok ([TemperatureReading NaT 7 (Some 40) (Some f_2_75) (Some 3000)],
            0%nat))
  /\ exit_status (outcome o) = 1
  /\ flushes (events o) = []
  /\ committed (final o) = sample_db.
Proof. vm_compute. repeat split. Qed.
